(** * llm-proxy-cf: format conversion and stream translation

    A shallow embedding of the proxy's conversion code and the properties
    its specification states about it.

    - [AnthropicTransformer], [OpenRouterTransformer]: the classes of
      [src/transformers.ts].
    - [LLMProxyService]: the service behind [/from-{source}/to-{target}],
      which drives the transformers.
    - [Legacy]: the single-file worker behind [/v1/claude-to-openrouter] and
      [/v1/claude-proxy], with its own conversion functions and the
      translator of streamed responses.

    Conventions.
    - A JavaScript string is represented by its UTF-8 bytes.  Every string
      operation the sources use ([startsWith] and [===] against ASCII
      literals, [slice(6)] behind a six-character ASCII prefix,
      [split('\n')], [trim], concatenation, emptiness) commutes with that
      encoding.
    - A number is represented by the rational its literal denotes; the
      sources perform no arithmetic, they only test numbers for falsiness.
    - An object is the list of its own properties in insertion order.
    - Exceptions are explicit: a computation is a [Completion].
    - [Math.random] is an argument: the token a function may draw. *)

From Stdlib Require Import String Ascii List ZArith QArith Bool Lia DecimalString.
Import ListNotations.
Set Warnings "-register-all".
Local Open Scope string_scope.
Local Open Scope list_scope.

(** ** Values *)

Inductive JSValue : Type :=
| JSUndefined
| JSNull
| JSBool (b : bool)
| JSNumber (q : Q)
| JSString (s : string)
| JSArray (elems : list JSValue)
| JSObject (props : list (string * JSValue))
| JSNative (name : string).
(* [JSNative k]: the built-in member [k] that every object literal inherits
   from [Object.prototype] (a function, or the prototype itself for
   [__proto__]).  It is truthy and is not a JSON value. *)

Inductive JSError : Type :=
| TypeError
| SyntaxError
| RangeError
| Error (message : string).

Inductive Completion (A : Type) : Type :=
| Normal (a : A)
| Throw (e : JSError).
Arguments Normal {A} a.
Arguments Throw {A} e.

Definition bind {A B} (c : Completion A) (k : A -> Completion B) : Completion B :=
  match c with
  | Normal a => k a
  | Throw e => Throw e
  end.

Notation "x <- c ;; k" := (bind c (fun x => k))
  (at level 61, c at next level, right associativity).

Fixpoint mapM {A B} (f : A -> Completion B) (l : list A) : Completion (list B) :=
  match l with
  | [] => Normal []
  | a :: t => b <- f a ;; bs <- mapM f t ;; Normal (b :: bs)
  end.

(** ** Strings *)

Definition startsWith (s p : string) : bool := String.prefix p s.

Fixpoint slice (n : nat) (s : string) : string :=
  match n, s with
  | O, _ => s
  | S _, EmptyString => EmptyString
  | S k, String _ r => slice k r
  end.

Definition LF : ascii := "010"%char.

(* [s.split('\n')]: the pieces between line feeds; never empty. *)
Fixpoint split (s : string) : list string :=
  match s with
  | EmptyString => [EmptyString]
  | String c r =>
      if Ascii.eqb c LF then EmptyString :: split r
      else match split r with
           | h :: t => String c h :: t
           | [] => [String c EmptyString]
           end
  end.

Definition isEmpty (s : string) : bool :=
  match s with EmptyString => true | _ => false end.

(** ** Truthiness and the operators built on it *)

Definition isZero (q : Q) : bool := Z.eqb (Qnum q) 0.

Definition truthy (v : JSValue) : bool :=
  match v with
  | JSUndefined | JSNull => false
  | JSBool b => b
  | JSNumber q => negb (isZero q)
  | JSString s => negb (isEmpty s)
  | JSArray _ | JSObject _ | JSNative _ => true
  end.

(* [a || b] *)
Definition js_or (a b : JSValue) : JSValue := if truthy a then a else b.

Definition lookup (k : string) (ps : list (string * JSValue)) : JSValue :=
  match find (fun p => String.eqb (fst p) k) ps with
  | Some p => snd p
  | None => JSUndefined
  end.

(* [v.k] for the property names the sources spell out, none of which is
   inherited from a prototype ([length] and indexing are separate). *)
Definition getProp (v : JSValue) (k : string) : Completion JSValue :=
  match v with
  | JSUndefined | JSNull => Throw TypeError
  | JSObject ps => Normal (lookup k ps)
  | _ => Normal JSUndefined
  end.

(* [v?.k] *)
Definition optProp (v : JSValue) (k : string) : JSValue :=
  match v with
  | JSObject ps => lookup k ps
  | _ => JSUndefined
  end.

(* [v[0]] *)
Definition index0 (v : JSValue) : Completion JSValue :=
  match v with
  | JSUndefined | JSNull => Throw TypeError
  | JSArray l => Normal (hd JSUndefined l)
  | JSString (String c _) => Normal (JSString (String c EmptyString))
  | JSObject ps => Normal (lookup "0" ps)
  | _ => Normal JSUndefined
  end.

(* [v?.[0]] *)
Definition optIndex0 (v : JSValue) : JSValue :=
  match index0 v with
  | Normal x => x
  | Throw _ => JSUndefined
  end.

(* [{...o, k: x}] and assignment to an own property: an existing key keeps
   its position. *)
Fixpoint setProp (k : string) (x : JSValue) (ps : list (string * JSValue))
  : list (string * JSValue) :=
  match ps with
  | [] => [(k, x)]
  | (k', y) :: t => if String.eqb k' k then (k, x) :: t else (k', y) :: setProp k x t
  end.

(* [v === 'literal'] *)
Definition isString (v : JSValue) (literal : string) : bool :=
  match v with
  | JSString s => String.eqb s literal
  | _ => false
  end.

(* [!v.length] *)
Definition lengthIsFalsy (v : JSValue) : Completion bool :=
  match v with
  | JSUndefined | JSNull => Throw TypeError
  | JSArray l => Normal (match l with [] => true | _ => false end)
  | JSString s => Normal (isEmpty s)
  | JSObject ps => Normal (negb (truthy (lookup "length" ps)))
  | _ => Normal true
  end.

(** ** Built-ins of the runtime

    [JSON.parse] and [JSON.stringify] are taken as given, and so are the
    implicit conversions the language applies when an operand has an
    unexpected type; the operators below are exact on well-typed operands
    and defer to the runtime elsewhere. *)

Record Platform : Type := {
  (* [JSON.parse(text)]; [None] stands for the SyntaxError it throws *)
  JSON_parse : string -> option JSValue;
  (* [JSON.stringify(v)]; [None] stands for [undefined] *)
  JSON_stringify : JSValue -> option string;
  (* ToString of a value that is not a string *)
  ToString : JSValue -> string;
  (* [a + b] where [a] and [b] are not both strings *)
  add_coerced : JSValue -> JSValue -> JSValue;
  (* [v > 0] where [v] is a string, an array or an object *)
  gtZero_coerced : JSValue -> bool
}.

Section Operators.

Variable P : Platform.

Definition parseJSON (text : string) : Completion JSValue :=
  match JSON_parse P text with
  | Some v => Normal v
  | None => Throw SyntaxError
  end.

(* ToString, as applied to property keys, to the argument of [JSON.parse]
   and to the holes of a template literal *)
Definition toStringJS (v : JSValue) : string :=
  match v with
  | JSString s => s
  | _ => ToString P v
  end.

Definition stringify (v : JSValue) : JSValue :=
  match JSON_stringify P v with
  | Some s => JSString s
  | None => JSUndefined
  end.

(* [JSON.stringify(v)] used as a body; an absent body is empty *)
Definition stringifyText (v : JSValue) : string :=
  match JSON_stringify P v with
  | Some s => s
  | None => ""
  end.

(* [a + b] *)
Definition js_add (a b : JSValue) : JSValue :=
  match a, b with
  | JSString x, JSString y => JSString (x ++ y)%string
  | _, _ => add_coerced P a b
  end.

(* [v > 0] *)
Definition gtZero (v : JSValue) : bool :=
  match v with
  | JSUndefined | JSNull => false
  | JSBool b => b
  | JSNumber q => Z.ltb 0 (Qnum q)
  | _ => gtZero_coerced P v
  end.

(* [v.length > 0] *)
Definition lengthIsPositive (v : JSValue) : Completion bool :=
  match v with
  | JSUndefined | JSNull => Throw TypeError
  | JSArray l => Normal (match l with [] => false | _ => true end)
  | JSString s => Normal (negb (isEmpty s))
  | JSObject ps => Normal (gtZero (lookup "length" ps))
  | _ => Normal false
  end.

End Operators.

(** ** [String.prototype.trim] on UTF-8 text *)

Definition ws1 (a : ascii) : bool :=
  let n := nat_of_ascii a in
  (Nat.leb 9 n && Nat.leb n 13) || Nat.eqb n 32.

(* U+00A0 *)
Definition ws2 (a b : ascii) : bool :=
  Nat.eqb (nat_of_ascii a) 194 && Nat.eqb (nat_of_ascii b) 160.

(* U+1680, U+2000..U+200A, U+2028, U+2029, U+202F, U+205F, U+3000, U+FEFF *)
Definition ws3 (a b c : ascii) : bool :=
  let x := nat_of_ascii a in
  let y := nat_of_ascii b in
  let z := nat_of_ascii c in
  (Nat.eqb x 225 && Nat.eqb y 154 && Nat.eqb z 128)
  || (Nat.eqb x 226 && Nat.eqb y 128
      && ((Nat.leb 128 z && Nat.leb z 138) || Nat.eqb z 168 || Nat.eqb z 169
          || Nat.eqb z 175))
  || (Nat.eqb x 226 && Nat.eqb y 129 && Nat.eqb z 159)
  || (Nat.eqb x 227 && Nat.eqb y 128 && Nat.eqb z 128)
  || (Nat.eqb x 239 && Nat.eqb y 187 && Nat.eqb z 191).

Fixpoint trimStart (s : string) : string :=
  match s with
  | EmptyString => s
  | String a r1 =>
      if ws1 a then trimStart r1
      else match r1 with
           | String b r2 =>
               if ws2 a b then trimStart r2
               else match r2 with
                    | String c r3 => if ws3 a b c then trimStart r3 else s
                    | EmptyString => s
                    end
           | EmptyString => s
           end
  end.

(* The same scan over the reversed text: the bytes of a character arrive
   last byte first. *)
Fixpoint trimStartRev (s : string) : string :=
  match s with
  | EmptyString => s
  | String a r1 =>
      if ws1 a then trimStartRev r1
      else match r1 with
           | String b r2 =>
               if ws2 b a then trimStartRev r2
               else match r2 with
                    | String c r3 => if ws3 c b a then trimStartRev r3 else s
                    | EmptyString => s
                    end
           | EmptyString => s
           end
  end.

Fixpoint revString (acc s : string) : string :=
  match s with
  | EmptyString => acc
  | String c r => revString (String c acc) r
  end.

Definition trim (s : string) : string :=
  revString "" (trimStartRev (revString "" (trimStart s))).

(* [s.replace(pat, '')]: the first occurrence of [pat] is removed. *)
Fixpoint removeFirst (pat s : string) : string :=
  if String.prefix pat s then slice (String.length pat) s
  else match s with
       | EmptyString => s
       | String c r => String c (removeFirst pat r)
       end.

(** ** The HTTP boundary

    The CORS headers are one constant added to every response and are left
    out; a response keeps its status, its content type and its body. *)

Inductive ReadStep : Type :=
| Chunk (text : string)      (* [reader.read()] resolved with decoded text *)
| ReadError.                 (* [reader.read()] rejected *)

Inductive StreamStatus : Type := Readable | Closed | Errored.

Inductive LogEntry : Type :=
| LogError (e : JSError)
| LogConversionError (source target : string) (e : JSError)
| LogChunkError (e : JSError) (data : string)
| LogStreamError.

(* What a [ReadableStream] controller has been handed so far. *)
Record Sink (A : Type) : Type := {
  enqueued : list A;
  logged : list LogEntry;
  status : StreamStatus
}.
Arguments enqueued {A} s.
Arguments logged {A} s.
Arguments status {A} s.

Definition emptySink {A} : Sink A :=
  {| enqueued := []; logged := []; status := Readable |}.

Definition enqueue {A} (items : list A) (s : Sink A) : Sink A :=
  {| enqueued := enqueued s ++ items; logged := logged s; status := status s |}.

Definition consoleError {A} (entries : list LogEntry) (s : Sink A) : Sink A :=
  {| enqueued := enqueued s; logged := logged s ++ entries; status := status s |}.

Definition setStatus {A} (st : StreamStatus) (s : Sink A) : Sink A :=
  {| enqueued := enqueued s; logged := logged s; status := st |}.

(* The two arguments of a [sendEvent] call. *)
Record Event : Type := { eventType : string; data : JSValue }.

Inductive Body : Type :=
| NoBody
| Text (text : string)
| ErrorMessage (message : string)  (* [JSON.stringify({ error: message })] *)
| Failure (e : JSError)            (* the same, with the message of [e] *)
| Documentation                    (* the plain-text endpoint list *)
| Events (sink : Sink Event)       (* a stream fed by [sendEvent] *)
| Lines (sink : Sink string)       (* a stream fed with encoded text *)
| Raw (body : option (list ReadStep)).   (* [response.body] handed on *)

Record Response : Type := {
  resStatus : Z;
  contentType : option string;
  resBody : Body
}.

Record Request : Type := {
  method : string;
  pathname : string;
  authorization : option string;      (* [headers.get('Authorization')] *)
  referer : option string;
  reqBody : string
}.

Record Env : Type := {
  OPENROUTER_API_KEY : option string;
  ANTHROPIC_API_KEY : option string
}.

(* The arguments of one [fetch] call. *)
Record FetchInit : Type := {
  url : string;
  headers : list (string * string);
  fetchBody : string
}.

Record Upstream : Type := {
  upStatus : Z;
  upBody : option (list ReadStep)
}.

Definition ok (r : Upstream) : bool :=
  (Z.leb 200 (upStatus r) && Z.leb (upStatus r) 299)%bool.

Fixpoint readAll (steps : list ReadStep) : Completion string :=
  match steps with
  | [] => Normal ""
  | Chunk t :: rest => r <- readAll rest ;; Normal (t ++ r)%string
  | ReadError :: _ => Throw TypeError
  end.

(* [response.text()] *)
Definition text (r : Upstream) : Completion string :=
  match upBody r with
  | None => Normal ""
  | Some steps => readAll steps
  end.

(* [response.json()], [request.json()] *)
Definition json (P : Platform) (body : Completion string) : Completion JSValue :=
  t <- body ;; parseJSON P t.

(** Handlers run against a network: every [fetch] they make is recorded,
    and so is what they write to the console. *)

Record World : Type := {
  calls : list FetchInit;
  console : list LogEntry
}.

Definition IO (A : Type) : Type := World -> World * Completion A.

Definition ioRet {A} (a : A) : IO A := fun w => (w, Normal a).

Definition ioBind {A B} (c : IO A) (k : A -> IO B) : IO B :=
  fun w => match c w with
           | (w', Normal a) => k a w'
           | (w', Throw e) => (w', Throw e)
           end.

Notation "x <~ c ;; k" := (ioBind c (fun x => k))
  (at level 61, c at next level, right associativity).

Definition lift {A} (c : Completion A) : IO A := fun w => (w, c).

Definition Network : Type := FetchInit -> Completion Upstream.

Definition fetch (net : Network) (init : FetchInit) : IO Upstream :=
  fun w => ({| calls := calls w ++ [init]; console := console w |}, net init).

Definition tryCatch {A} (c : IO A) (handler : JSError -> IO A) : IO A :=
  fun w => match c w with
           | (w', Throw e) => handler e w'
           | r => r
           end.

Definition log (entry : LogEntry) : IO unit :=
  fun w => ({| calls := calls w; console := console w ++ [entry] |}, Normal tt).

Definition newWorld : World := {| calls := []; console := [] |}.

(* The statuses of a response that cannot have a body. *)
Definition nullBodyStatus (st : Z) : bool :=
  Z.eqb st 101 || Z.eqb st 103 || Z.eqb st 204 || Z.eqb st 205 || Z.eqb st 304.

(* Whether the first argument of [new Response] is a body; an empty text
   is one, [null] is not. *)
Definition hasBody (b : Body) : bool :=
  match b with
  | NoBody | Raw None => false
  | _ => true
  end.

(* [new Response(body, { status, headers })] with a status that is not a
   literal: a RangeError outside 200..599, a TypeError for a body under a
   status that cannot have one. *)
Definition newResponse (st : Z) (ct : option string) (b : Body)
  : Completion Response :=
  if negb (Z.leb 200 st && Z.leb st 599) then Throw RangeError
  else if nullBodyStatus st && hasBody b then Throw TypeError
  else Normal {| resStatus := st; contentType := ct; resBody := b |}.

Definition stringifyBody (P : Platform) (v : JSValue) : Body :=
  Text (stringifyText P v).

Definition jsonResponse (st : Z) (b : Body) : Response :=
  {| resStatus := st; contentType := Some "application/json"; resBody := b |}.

Definition methodNotAllowed : Response :=
  {| resStatus := 405; contentType := None; resBody := Text "Method not allowed" |}.

Definition str (s : string) : JSValue := JSString s.
Definition num (z : Z) : JSValue := JSNumber (inject_Z z).

(** ** transformers.ts *)

Fixpoint foldM {A B} (f : A -> B -> Completion A) (l : list B) (a : A) : Completion A :=
  match l with
  | [] => Normal a
  | b :: t => a' <- f a b ;; foldM f t a'
  end.

Definition ownProps (v : JSValue) : list (string * JSValue) :=
  match v with
  | JSObject ps => ps
  | _ => []
  end.

(* [abstract class BaseTransformer].  [transformResponseIn] also receives
   the token [Math.random().toString(36).slice(2)] it may draw. *)
Record BaseTransformer : Type := {
  name : string;
  transformRequestOut : JSValue -> Completion JSValue;
  transformRequestIn : JSValue -> Completion JSValue;
  transformResponseOut : JSValue -> Completion JSValue;
  transformResponseIn : string -> JSValue -> Completion JSValue
}.

(* The object literal both [transformRequestOut] methods return. *)
Definition pickRequestFields (request : JSValue) : Completion JSValue :=
  model <- getProp request "model" ;;
  messages <- getProp request "messages" ;;
  max_tokens <- getProp request "max_tokens" ;;
  temperature <- getProp request "temperature" ;;
  stream <- getProp request "stream" ;;
  tools <- getProp request "tools" ;;
  Normal (JSObject [ ("model", model); ("messages", messages);
                     ("max_tokens", max_tokens); ("temperature", temperature);
                     ("stream", stream); ("tools", tools) ]).

Definition usageOf (response : JSValue) : Completion JSValue :=
  usage <- getProp response "usage" ;;
  Normal (JSObject
    [ ("input_tokens", js_or (optProp usage "prompt_tokens") (num 0));
      ("output_tokens", js_or (optProp usage "completion_tokens") (num 0)) ]).

Definition textBlock (t : JSValue) : JSValue :=
  JSObject [ ("type", str "text"); ("text", t) ].

Module AnthropicTransformer.

Definition transformRequestOut (request : JSValue) : Completion JSValue :=
  pickRequestFields request.

Definition transformRequestIn (request : JSValue) : Completion JSValue :=
  Normal request.

Definition transformResponseOut (P : Platform) (response : JSValue)
  : Completion JSValue :=
  response <- match response with
              | JSString s => parseJSON P s
              | _ => Normal response
              end ;;
  id <- getProp response "id" ;;
  model <- getProp response "model" ;;
  content <- getProp response "content" ;;
  usage <- getProp response "usage" ;;
  Normal (JSObject [ ("id", id); ("model", model); ("content", content);
                     ("usage", usage) ]).

Definition transformResponseIn (rnd : string) (response : JSValue)
  : Completion JSValue :=
  id <- getProp response "id" ;;
  content <- getProp response "content" ;;
  usage <- usageOf response ;;
  Normal (JSObject
    [ ("id", js_or id (str ("msg_" ++ rnd)));
      ("type", str "message");
      ("role", str "assistant");
      ("content", JSArray [ textBlock (js_or content (str "")) ]);
      ("stop_reason", str "end_turn");
      ("stop_sequence", JSNull);
      ("usage", usage) ]).

Definition transformer (P : Platform) : BaseTransformer :=
  Build_BaseTransformer "anthropic"
    transformRequestOut transformRequestIn
    (transformResponseOut P) transformResponseIn.

End AnthropicTransformer.

Module OpenRouterTransformer.

Definition transformRequestOut (request : JSValue) : Completion JSValue :=
  pickRequestFields request.

Definition mapModelName (model : string) : string :=
  if negb (startsWith model "claude-") then model
  else if startsWith model "claude-opus-4" then "anthropic/claude-opus-4"
  else "anthropic/claude-sonnet-4".

(* [model.startsWith] exists on strings only. *)
Definition mapModelNameOf (model : JSValue) : Completion JSValue :=
  match model with
  | JSString s => Normal (str (mapModelName s))
  | _ => Throw TypeError
  end.

Definition toolToOpenAI (tool : JSValue) : Completion JSValue :=
  name <- getProp tool "name" ;;
  description <- getProp tool "description" ;;
  input_schema <- getProp tool "input_schema" ;;
  Normal (JSObject
    [ ("type", str "function");
      ("function", JSObject [ ("name", name); ("description", description);
                              ("parameters", input_schema) ]) ]).

Definition transformToolsToOpenAI (tools : JSValue) : Completion JSValue :=
  if negb (truthy tools) then Normal JSUndefined
  else match tools with
       | JSArray l => ts <- mapM toolToOpenAI l ;; Normal (JSArray ts)
       | _ => Throw TypeError
       end.

Section WithPlatform.

Variable P : Platform.

(* The loop variables [content], [tool_call_id], [isToolResult]. *)
Definition LoopState : Type := (JSValue * JSValue * bool)%type.

Definition lowerBlock (st : LoopState) (block : JSValue) : Completion LoopState :=
  let '(content, tool_call_id, isToolResult) := st in
  ty <- getProp block "type" ;;
  if isString ty "text" then
    t <- getProp block "text" ;;
    Normal (js_add P content t, tool_call_id, isToolResult)
  else if isString ty "tool_result" then
    id <- getProp block "tool_use_id" ;;
    c <- getProp block "content" ;;
    Normal (match c with
            | JSString _ => c
            | _ => stringify P c
            end, id, true)
  else Normal st.

Definition messageToOpenAI (message : JSValue) : Completion JSValue :=
  c <- getProp message "content" ;;
  match c with
  | JSArray blocks =>
      st <- foldM lowerBlock blocks (str "", str "", false) ;;
      let '(content, tool_call_id, isToolResult) := st in
      if isToolResult then
        Normal (JSObject [ ("role", str "tool");
                           ("tool_call_id", tool_call_id);
                           ("content", content) ])
      else
        Normal (JSObject (setProp "content" (js_or content c) (ownProps message)))
  | _ => Normal message
  end.

Definition transformMessagesToOpenAI (messages : JSValue) : Completion JSValue :=
  match messages with
  | JSArray l => ms <- mapM messageToOpenAI l ;; Normal (JSArray ms)
  | _ => Throw TypeError
  end.

Definition transformRequestIn (request : JSValue) : Completion JSValue :=
  model <- getProp request "model" ;;
  model' <- mapModelNameOf model ;;
  messages <- getProp request "messages" ;;
  messages' <- transformMessagesToOpenAI messages ;;
  max_tokens <- getProp request "max_tokens" ;;
  temperature <- getProp request "temperature" ;;
  top_p <- getProp request "top_p" ;;
  stream <- getProp request "stream" ;;
  tools <- getProp request "tools" ;;
  tools' <- transformToolsToOpenAI tools ;;
  Normal (JSObject
    [ ("model", model');
      ("messages", messages');
      ("max_tokens", js_or max_tokens (num 4096));
      ("temperature", js_or temperature (JSNumber (7 # 10)));
      ("top_p", top_p);
      ("stream", js_or stream (JSBool false));
      ("tools", tools') ]).

Definition transformResponseOut (response : JSValue) : Completion JSValue :=
  data <- match response with
          | JSString s => parseJSON P s
          | _ => Normal response
          end ;;
  id <- getProp data "id" ;;
  model <- getProp data "model" ;;
  choices <- getProp data "choices" ;;
  usage <- getProp data "usage" ;;
  Normal (JSObject
    [ ("id", id);
      ("model", model);
      ("content",
        js_or (optProp (optProp (optIndex0 choices) "message") "content") (str ""));
      ("usage", usage) ]).

End WithPlatform.

Definition convertToClaude (rnd : string) (openaiResponse : JSValue)
  : Completion JSValue :=
  content <- getProp openaiResponse "content" ;;
  let contentBlocks := if truthy content then [ textBlock content ] else [] in
  let contentBlocks := match contentBlocks with
                       | [] => [ textBlock (str "") ]
                       | _ => contentBlocks
                       end in
  id <- getProp openaiResponse "id" ;;
  model <- getProp openaiResponse "model" ;;
  usage <- usageOf openaiResponse ;;
  Normal (JSObject
    [ ("id", js_or id (str ("msg_" ++ rnd)));
      ("type", str "message");
      ("role", str "assistant");
      ("model", model);
      ("content", JSArray contentBlocks);
      ("stop_reason", str "end_turn");
      ("stop_sequence", JSNull);
      ("usage", usage) ]).

Definition transformResponseIn (rnd : string) (response : JSValue)
  : Completion JSValue :=
  convertToClaude rnd response.

Definition transformer (P : Platform) : BaseTransformer :=
  Build_BaseTransformer "openrouter"
    transformRequestOut (transformRequestIn P)
    (transformResponseOut P) transformResponseIn.

End OpenRouterTransformer.

(** ** The single-file worker *)

Definition NL : string := String LF EmptyString.

Module Legacy.

(* The local [mapModelName] of [handleClaudeToOpenRouter]. *)
Definition mapModelName (model : string) : string :=
  if negb (startsWith model "claude-") then model
  else if startsWith model "claude-opus-4" then "anthropic/claude-opus-4"
  else if startsWith model "claude-sonnet-4" then "anthropic/claude-sonnet-4"
  else if startsWith model "claude-3-7-sonnet" then "anthropic/claude-3.7-sonnet"
  else if startsWith model "claude-3-5-sonnet" then "anthropic/claude-3.5-sonnet"
  else if startsWith model "claude-3-5-haiku" then "anthropic/claude-3.5-haiku"
  else if startsWith model "claude-3-opus" then "anthropic/claude-3-opus"
  else if startsWith model "claude-3-sonnet" then "anthropic/claude-3-sonnet"
  else if startsWith model "claude-3-haiku" then "anthropic/claude-3-haiku"
  else "anthropic/" ++ model.

(* The prefixes the chain above tests, in its order. *)
Definition modelTable : list string :=
  [ "claude-opus-4"; "claude-sonnet-4"; "claude-3-7-sonnet";
    "claude-3-5-sonnet"; "claude-3-5-haiku"; "claude-3-opus";
    "claude-3-sonnet"; "claude-3-haiku" ].

Definition mapModelNameOf (model : JSValue) : Completion JSValue :=
  match model with
  | JSString s => Normal (str (mapModelName s))
  | _ => Throw TypeError
  end.

Definition stopReasonTable : list (string * JSValue) :=
  [ ("stop", str "end_turn"); ("length", str "max_tokens");
    ("tool_calls", str "tool_use"); ("function_call", str "tool_use") ].

(* What an object literal inherits from [Object.prototype]. *)
Definition objectPrototypeKeys : list string :=
  [ "constructor"; "__defineGetter__"; "__defineSetter__"; "hasOwnProperty";
    "__lookupGetter__"; "__lookupSetter__"; "isPrototypeOf";
    "propertyIsEnumerable"; "toString"; "valueOf"; "__proto__";
    "toLocaleString" ].

(* [literal[key]] with a computed key. *)
Definition literalGet (literal : list (string * JSValue)) (key : string) : JSValue :=
  match find (fun p => String.eqb (fst p) key) literal with
  | Some p => snd p
  | None => if existsb (String.eqb key) objectPrototypeKeys
            then JSNative key else JSUndefined
  end.

Definition prune (ps : list (string * JSValue)) : list (string * JSValue) :=
  filter (fun p => match snd p with JSUndefined => false | _ => true end) ps.

(* The literal [openRouterRequest], pruned of its undefined members. *)
Definition openRouterRequest (claudeRequest : JSValue) : Completion JSValue :=
  model <- getProp claudeRequest "model" ;;
  model' <- mapModelNameOf model ;;
  messages <- getProp claudeRequest "messages" ;;
  max_tokens <- getProp claudeRequest "max_tokens" ;;
  temperature <- getProp claudeRequest "temperature" ;;
  top_p <- getProp claudeRequest "top_p" ;;
  stream <- getProp claudeRequest "stream" ;;
  Normal (JSObject (prune
    [ ("model", model');
      ("messages", messages);
      ("max_tokens", js_or max_tokens (num 4096));
      ("temperature", js_or temperature (JSNumber (7 # 10)));
      ("top_p", top_p);
      ("stream", js_or stream (JSBool false)) ])).

Definition contentBlockStop : Event :=
  {| eventType := "content_block_stop";
     data := JSObject [ ("type", str "content_block_stop"); ("index", num 0) ] |}.

Definition messageDelta : Event :=
  {| eventType := "message_delta";
     data := JSObject
       [ ("type", str "message_delta");
         ("delta", JSObject [ ("stop_reason", str "end_turn");
                              ("stop_sequence", JSNull) ]);
         ("usage", JSObject [ ("output_tokens", num 0) ]) ] |}.

Definition messageStop (payload : JSValue) : Event :=
  {| eventType := "message_stop"; data := payload |}.

Definition messageStart (rnd : string) (model : JSValue) : Event :=
  {| eventType := "message_start";
     data := JSObject
       [ ("type", str "message_start");
         ("message", JSObject
            [ ("id", str ("msg_" ++ rnd));
              ("type", str "message");
              ("role", str "assistant");
              ("model", model);
              ("content", JSArray []);
              ("stop_reason", JSNull);
              ("stop_sequence", JSNull);
              ("usage", JSObject [ ("input_tokens", num 0);
                                   ("output_tokens", num 0) ]) ]) ] |}.

Definition contentBlockStart : Event :=
  {| eventType := "content_block_start";
     data := JSObject
       [ ("type", str "content_block_start");
         ("index", num 0);
         ("content_block", textBlock (str "")) ] |}.

(* The three [sendEvent] calls that end a message. *)
Definition finish (payload : JSValue) : list Event :=
  [ contentBlockStop; messageDelta; messageStop payload ].

(* One pass through the body of [for (const line of lines)]: either the
   loop goes on, or [processStream] returns. *)
Inductive LineOutcome : Type :=
| Continue (s : Sink Event)
| Return (s : Sink Event).

(* [handleClaudeProxy]: what one line of a chunk contributes. *)
Definition relayLine (line : string) : list string :=
  if startsWith line "data: " then
    let data := slice 6 line in
    if isEmpty (trim data) then []
    else [ ("data: " ++ data ++ NL ++ NL)%string ]
  else if startsWith line "event: " then [ (line ++ NL)%string ]
  else [].

Fixpoint relay (steps : list ReadStep) (s : Sink string) : Sink string :=
  match steps with
  | [] => setStatus Closed s
  | Chunk chunk :: rest => relay rest (enqueue (flat_map relayLine (split chunk)) s)
  | ReadError :: _ => setStatus Errored (consoleError [ LogStreamError ] s)
  end.

Definition relayStream (body : option (list ReadStep)) : Sink string :=
  match body with
  | None => emptySink
  | Some steps => relay steps emptySink
  end.

Section WithPlatform.

Variable P : Platform.

(* One iteration of [for (const toolCall of toolCalls)].  The [catch] block
   reads [toolCall.function.arguments] again, so what the first read throws
   is thrown either way; only a failing [JSON.parse] is caught. *)
Definition toolUseBlock (rnd : string) (toolCall : JSValue)
  : Completion (list JSValue) :=
  ty <- getProp toolCall "type" ;;
  if isString ty "function" then
    fn <- getProp toolCall "function" ;;
    args <- getProp fn "arguments" ;;
    let input :=
      match JSON_parse P (toStringJS P (js_or args (str "{}"))) with
      | Some v => v
      | None => JSObject [ ("raw_arguments", js_or args (str "")) ]
      end in
    id <- getProp toolCall "id" ;;
    name <- getProp fn "name" ;;
    Normal [ JSObject [ ("type", str "tool_use");
                        ("id", js_or id (str ("tool_" ++ rnd)));
                        ("name", js_or name (str ""));
                        ("input", input) ] ]
  else Normal [].

Fixpoint toolUseBlocksFrom (rnd : nat -> string) (i : nat) (l : list JSValue)
  : Completion (list JSValue) :=
  match l with
  | [] => Normal []
  | toolCall :: rest =>
      b <- toolUseBlock (rnd i) toolCall ;;
      bs <- toolUseBlocksFrom rnd (S i) rest ;;
      Normal (b ++ bs)
  end.

(* The whole loop; a string iterates over characters, none of which has
   a [type], and the other truthy values are not iterable. *)
Definition toolUseBlocks (rnd : nat -> string) (toolCalls : JSValue)
  : Completion (list JSValue) :=
  match toolCalls with
  | JSArray l => toolUseBlocksFrom rnd 1 l
  | JSString _ => Normal []
  | _ => Throw TypeError
  end.

(* [{ ... }[finishReason] || 'end_turn'] *)
Definition stopReasonOf (finishReason : JSValue) : JSValue :=
  js_or (literalGet stopReasonTable (toStringJS P finishReason)) (str "end_turn").

(* [rnd 0] is the token drawn for the message id, [rnd i] the one drawn
   for the [i]-th tool call. *)
Definition convertOpenAIToClaude (rnd : nat -> string)
  (openaiResponse originalRequest : JSValue) : Completion JSValue :=
  c0 <- getProp openaiResponse "choices" ;;
  let choices := js_or c0 (JSArray []) in
  none <- lengthIsFalsy choices ;;
  if none then Throw (Error "No choices in OpenAI response")
  else
    choice <- index0 choices ;;
    m0 <- getProp choice "message" ;;
    let message := js_or m0 (JSObject []) in
    content <- getProp message "content" ;;
    let texts := if truthy content then [ textBlock content ] else [] in
    tc0 <- getProp message "tool_calls" ;;
    tools <- toolUseBlocks rnd (js_or tc0 (JSArray [])) ;;
    let contentBlocks := match texts ++ tools with
                         | [] => [ textBlock (str "") ]
                         | blocks => blocks
                         end in
    fr <- getProp choice "finish_reason" ;;
    let finishReason := js_or fr (str "stop") in
    let stopReason := stopReasonOf finishReason in
    id <- getProp openaiResponse "id" ;;
    model <- getProp originalRequest "model" ;;
    usage <- usageOf openaiResponse ;;
    Normal (JSObject
      [ ("id", js_or id (str ("msg_" ++ rnd 0%nat)));
        ("type", str "message");
        ("role", str "assistant");
        ("model", model);
        ("content", JSArray contentBlocks);
        ("stop_reason", stopReason);
        ("stop_sequence", JSNull);
        ("usage", usage) ]).

(* The [stopReason] the source computes in the second branch is never
   read; the result carries the type alone. *)
Definition convertOpenAIStreamToClaude (chunk : JSValue) : Completion JSValue :=
  choices <- getProp chunk "choices" ;;
  some <- (if truthy choices then lengthIsPositive P choices else Normal false) ;;
  if (some : bool) then
    choice <- index0 choices ;;
    delta <- getProp choice "delta" ;;
    content <- getProp delta "content" ;;
    if truthy content then
      Normal (JSObject
        [ ("type", str "content_block_delta");
          ("index", num 0);
          ("delta", JSObject [ ("type", str "text_delta"); ("text", content) ]) ])
    else
      fr <- getProp choice "finish_reason" ;;
      if truthy fr then Normal (JSObject [ ("type", str "message_stop") ])
      else Normal JSNull
  else Normal JSNull.

(* The statements inside [try] for one data line. *)
Definition tryChunk (data : string) (s : Sink Event) : Completion LineOutcome :=
  parsed <- parseJSON P data ;;
  claudeChunk <- convertOpenAIStreamToClaude parsed ;;
  if truthy claudeChunk then
    ty <- getProp claudeChunk "type" ;;
    if isString ty "content_block_delta" then
      Normal (Continue
        (enqueue [ {| eventType := "content_block_delta"; data := claudeChunk |} ] s))
    else if isString ty "message_stop" then
      Normal (Return (setStatus Closed (enqueue (finish claudeChunk) s)))
    else Normal (Continue s)
  else Normal (Continue s).

Definition processLine (line : string) (s : Sink Event) : LineOutcome :=
  if startsWith line "data: " then
    let data := trim (slice 6 line) in
    if String.eqb data "[DONE]" then
      Return (setStatus Closed
        (enqueue (finish (JSObject [ ("type", str "message_stop") ])) s))
    else if negb (isEmpty data) then
      match tryChunk data s with
      | Normal outcome => outcome
      | Throw e => Continue (consoleError [ LogChunkError e data ] s)
      end
    else Continue s
  else Continue s.

Fixpoint forEachLine (lines : list string) (s : Sink Event) : LineOutcome :=
  match lines with
  | [] => Continue s
  | line :: rest =>
      match processLine line s with
      | Continue s' => forEachLine rest s'
      | Return s' => Return s'
      end
  end.

(* [while (true)] of [processStream]; [buffer] holds the unfinished
   line.  When the reader is done the loop is left without closing. *)
Fixpoint readLoop (steps : list ReadStep) (buffer : string) (s : Sink Event)
  : Sink Event :=
  match steps with
  | [] => s
  | ReadError :: _ => setStatus Errored (consoleError [ LogStreamError ] s)
  | Chunk text :: rest =>
      let pieces := split (buffer ++ text) in
      match forEachLine (removelast pieces) s with
      | Continue s' => readLoop rest (last pieces "") s'
      | Return s' => s'
      end
  end.

Definition processStream (body : option (list ReadStep)) (s : Sink Event)
  : Sink Event :=
  match body with
  | None => s
  | Some steps => readLoop steps "" s
  end.

(* [start(controller)] of the translated stream. *)
Definition start (rnd : string) (model : JSValue) (body : option (list ReadStep))
  : Sink Event :=
  processStream body
    (enqueue [ messageStart rnd model; contentBlockStart ] emptySink).

(* [eventData] of [sendEvent]: the text that is encoded and enqueued for an
   event. *)
Definition eventData (e : Event) : string :=
  ("event: " ++ eventType e ++ NL ++ "data: "
    ++ toStringJS P (stringify P (data e)) ++ NL ++ NL)%string.

Definition handleClaudeToOpenRouter (net : Network) (rnd : nat -> string)
  (request : Request) : IO Response :=
  if negb (String.eqb (method request) "POST") then ioRet methodNotAllowed
  else
    let authHeader := match authorization request with
                      | Some h => h
                      | None => ""
                      end in
    if isEmpty authHeader || negb (startsWith authHeader "Bearer ") then
      ioRet (jsonResponse 401 (ErrorMessage "需要有效的 Authorization header"))
    else
      let openRouterKey := removeFirst "Bearer " authHeader in
      claudeRequest <~ lift (json P (Normal (reqBody request))) ;;
      body <~ lift (openRouterRequest claudeRequest) ;;
      response <~ fetch net
        {| url := "https://openrouter.ai/api/v1/chat/completions";
           headers :=
             [ ("Authorization", "Bearer " ++ openRouterKey);
               ("Content-Type", "application/json");
               ("HTTP-Referer",
                  match referer request with
                  | Some r => if isEmpty r then "https://your-domain.com" else r
                  | None => "https://your-domain.com"
                  end);
               ("X-Title", "LLM Proxy Service") ]%string;
           fetchBody := stringifyText P body |} ;;
      if negb (ok response) then
        errorText <~ lift (text response) ;;
        lift (newResponse (upStatus response) (Some "application/json")
                (Text errorText))
      else
        stream <~ lift (getProp claudeRequest "stream") ;;
        if truthy stream then
          model <~ lift (getProp claudeRequest "model") ;;
          ioRet {| resStatus := 200;
                   contentType := Some "text/event-stream";
                   resBody := Events (start (rnd 0%nat) model (upBody response)) |}
        else
          openaiResponse <~ lift (json P (text response)) ;;
          claudeResponse <~ lift (convertOpenAIToClaude rnd openaiResponse claudeRequest) ;;
          ioRet (jsonResponse 200 (stringifyBody P claudeResponse)).

Definition handleClaudeProxy (net : Network) (request : Request) : IO Response :=
  if negb (String.eqb (method request) "POST") then ioRet methodNotAllowed
  else
    let authHeader := match authorization request with
                      | Some h => h
                      | None => ""
                      end in
    if isEmpty authHeader then
      ioRet (jsonResponse 401 (ErrorMessage "需要 Authorization header"))
    else
      let claudeRequestText := reqBody request in
      claudeRequest <~ lift (parseJSON P claudeRequestText) ;;
      response <~ fetch net
        {| url := "https://api.anthropic.com/v1/messages";
           headers :=
             [ ("Authorization", authHeader);
               ("Content-Type", "application/json");
               ("anthropic-version", "2023-06-01") ];
           fetchBody := claudeRequestText |} ;;
      stream <~ lift (getProp claudeRequest "stream") ;;
      if truthy stream then
        lift (newResponse (upStatus response) (Some "text/event-stream")
                (Lines (relayStream (upBody response))))
      else
        responseData <~ lift (text response) ;;
        lift (newResponse (upStatus response) (Some "application/json")
                (Text responseData)).

(* The worker's [fetch] entry point. *)
Definition worker (net : Network) (rnd : nat -> string) (request : Request)
  : IO Response :=
  if String.eqb (method request) "OPTIONS" then
    ioRet {| resStatus := 200; contentType := None; resBody := NoBody |}
  else
    tryCatch
      (if startsWith (pathname request) "/v1/claude-to-openrouter" then
         handleClaudeToOpenRouter net rnd request
       else if startsWith (pathname request) "/v1/claude-proxy" then
         handleClaudeProxy net request
       else
         ioRet {| resStatus := 200; contentType := Some "text/plain";
                  resBody := Documentation |})
      (fun e => _ <~ log (LogError e) ;; ioRet (jsonResponse 500 (Failure e))).

End WithPlatform.

End Legacy.

(** ** The conversion service *)

Module Provider.

Record t : Type := {
  name : string;
  baseUrl : string;
  defaultModel : option string
}.

End Provider.

Module LLMProxyService.

(* [this.providers] after [initializeProviders] *)
Definition providers (key : string) : option Provider.t :=
  if String.eqb key "anthropic" then
    Some {| Provider.name := "anthropic";
            Provider.baseUrl := "https://api.anthropic.com/v1";
            Provider.defaultModel := Some "claude-sonnet-4" |}
  else if String.eqb key "openrouter" then
    Some {| Provider.name := "openrouter";
            Provider.baseUrl := "https://openrouter.ai/api/v1/chat/completions";
            Provider.defaultModel := Some "anthropic/claude-sonnet-4" |}
  else None.

Definition orEmpty (o : option string) : string :=
  match o with
  | Some s => s
  | None => ""
  end.

Definition getApiKey (providerName : string) (env : Env) : string :=
  if String.eqb providerName "openrouter" then orEmpty (OPENROUTER_API_KEY env)
  else if String.eqb providerName "anthropic" then orEmpty (ANTHROPIC_API_KEY env)
  else "".

Section WithPlatform.

Variable P : Platform.

(* [this.transformers] after [initializeTransformers] *)
Definition transformers (key : string) : option BaseTransformer :=
  if String.eqb key "anthropic" then Some (AnthropicTransformer.transformer P)
  else if String.eqb key "openrouter" then Some (OpenRouterTransformer.transformer P)
  else None.

Definition makeProviderRequest (net : Network) (provider : Provider.t)
  (requestData : JSValue) (apiKey subPath : string) : IO Upstream :=
  let endpoint :=
    if String.eqb (Provider.name provider) "anthropic" then
      (Provider.baseUrl provider ++ "/messages")%string
    else if String.eqb (Provider.name provider) "openrouter" then
      Provider.baseUrl provider
    else if String.eqb subPath "messages" then Provider.baseUrl provider
    else (Provider.baseUrl provider ++ "/" ++ subPath)%string in
  let common :=
    [ ("Authorization", ("Bearer " ++ apiKey)%string);
      ("Content-Type", "application/json") ] in
  let specific :=
    if String.eqb (Provider.name provider) "anthropic" then
      [ ("anthropic-version", "2023-06-01") ]
    else if String.eqb (Provider.name provider) "openrouter" then
      [ ("HTTP-Referer", "https://llm-proxy.workers.dev");
        ("X-Title", "LLM Proxy Service") ]
    else [] in
  fetch net {| url := endpoint;
               headers := common ++ specific;
               fetchBody := stringifyText P requestData |}.

Definition handleStreamingRequest (net : Network) (rnd : string)
  (requestBody : JSValue) (sourceTransformer targetTransformer : BaseTransformer)
  (targetProvider : Provider.t) (apiKey subPath : string) : IO Response :=
  let same := String.eqb (name sourceTransformer) (name targetTransformer) in
  transformedRequest <~
    (if same then ioRet requestBody
     else
       unifiedRequest <~ lift (transformRequestOut sourceTransformer requestBody) ;;
       lift (transformRequestIn targetTransformer unifiedRequest)) ;;
  response <~ makeProviderRequest net targetProvider transformedRequest apiKey subPath ;;
  if same then
    lift (newResponse (upStatus response) (Some "text/event-stream")
            (Raw (upBody response)))
  else if negb (ok response) then
    errorText <~ lift (text response) ;;
    lift (newResponse (upStatus response) (Some "application/json")
                (Text errorText))
  else
    responseData <~ lift (json P (text response)) ;;
    unifiedResponse <~ lift (transformResponseOut targetTransformer responseData) ;;
    finalResponse <~ lift (transformResponseIn sourceTransformer rnd unifiedResponse) ;;
    ioRet (jsonResponse 200 (stringifyBody P finalResponse)).

Definition handleConversionRequest (net : Network) (rnd : string)
  (request : Request) (env : Env) (sourceProvider targetProvider subPath : string)
  : IO Response :=
  if negb (String.eqb (method request) "POST") then ioRet methodNotAllowed
  else
    match transformers sourceProvider, transformers targetProvider,
          providers targetProvider with
    | Some sourceTransformer, Some targetTransformer, Some targetProviderConfig =>
        tryCatch
          (requestBody <~ lift (json P (Normal (reqBody request))) ;;
           let apiKey :=
             match authorization request with
             | Some authHeader =>
                 let k := removeFirst "Bearer " authHeader in
                 if isEmpty k then getApiKey targetProvider env else k
             | None => getApiKey targetProvider env
             end in
           if isEmpty apiKey then
             ioRet (jsonResponse 401
               (ErrorMessage ("Missing API key for " ++ targetProvider)))
           else
             stream <~ lift (getProp requestBody "stream") ;;
             if truthy stream then
               handleStreamingRequest net rnd requestBody sourceTransformer
                 targetTransformer targetProviderConfig apiKey subPath
             else
               transformedRequest <~
                 (if String.eqb sourceProvider targetProvider then ioRet requestBody
                  else
                    unifiedRequest <~
                      lift (transformRequestOut sourceTransformer requestBody) ;;
                    lift (transformRequestIn targetTransformer unifiedRequest)) ;;
               response <~ makeProviderRequest net targetProviderConfig
                             transformedRequest apiKey subPath ;;
               if negb (ok response) then
                 errorText <~ lift (text response) ;;
                 lift (newResponse (upStatus response) (Some "application/json")
                (Text errorText))
               else
                 responseData <~ lift (json P (text response)) ;;
                 if negb (String.eqb sourceProvider targetProvider) then
                   unifiedResponse <~
                     lift (transformResponseOut targetTransformer responseData) ;;
                   finalResponse <~
                     lift (transformResponseIn sourceTransformer rnd unifiedResponse) ;;
                   ioRet (jsonResponse 200 (stringifyBody P finalResponse))
                 else
                   ioRet (jsonResponse 200 (stringifyBody P responseData)))
          (fun e =>
             _ <~ log (LogConversionError sourceProvider targetProvider e) ;;
             ioRet (jsonResponse 500 (Failure e)))
    | _, _, _ =>
        ioRet (jsonResponse 400
          (ErrorMessage ("Invalid provider combination: " ++ sourceProvider
                         ++ " -> " ++ targetProvider)))
    end.

End WithPlatform.

End LLMProxyService.

(** ** The entry point of the conversion service *)

Module Router.

(* [\w] *)
Definition wordChar (c : ascii) : bool :=
  let n := nat_of_ascii c in
  (Nat.leb 48 n && Nat.leb n 57) || (Nat.leb 65 n && Nat.leb n 90)
  || (Nat.leb 97 n && Nat.leb n 122) || Nat.eqb n 95.

(* The longest run of [\w] at the head of a text, and what follows it. *)
Fixpoint word (s : string) : string * string :=
  match s with
  | EmptyString => (EmptyString, EmptyString)
  | String c r =>
      if wordChar c then let (w, rest) := word r in (String c w, rest)
      else (EmptyString, s)
  end.

(* The dot-star up to the end: no line terminator (LF, CR, U+2028, U+2029) up to the end. *)
Fixpoint dotStarToEnd (s : string) : bool :=
  match s with
  | EmptyString => true
  | String a r =>
      let n := nat_of_ascii a in
      if Nat.eqb n 10 || Nat.eqb n 13 then false
      else match r with
           | String b (String c _) =>
               if Nat.eqb n 226 && Nat.eqb (nat_of_ascii b) 128
                  && (Nat.eqb (nat_of_ascii c) 168 || Nat.eqb (nat_of_ascii c) 169)
               then false else dotStarToEnd r
           | _ => dotStarToEnd r
           end
  end.

(* [pathname.match] on the pattern [from-WORD/to-WORD] with an optional
   [/REST] anchored at both ends: the three groups, the third absent when
   its alternative did not take part.  A run of word
   characters cannot end before a word character, so the greedy runs are the
   only candidates. *)
Definition matchPath (pathname : string)
  : option (string * string * option string) :=
  if startsWith pathname "/from-" then
    let (source, afterSource) := word (slice 6 pathname) in
    if isEmpty source then None
    else if startsWith afterSource "/to-" then
      let (target, afterTarget) := word (slice 4 afterSource) in
      if isEmpty target then None
      else match afterTarget with
           | EmptyString => Some (source, target, None)
           | String c rest =>
               if Ascii.eqb c "/"%char && dotStarToEnd rest
               then Some (source, target, Some rest)
               else None
           end
    else None
  else None.

(* [subPath || 'messages'] *)
Definition subPathOr (subPath : option string) : string :=
  match subPath with
  | Some s => if isEmpty s then "messages" else s
  | None => "messages"
  end.

Section WithPlatform.

Variable P : Platform.

(* [LLMProxyService.handleRequest] *)
Definition handleRequest (net : Network) (rnd : string) (request : Request)
  (env : Env) : IO Response :=
  if String.eqb (method request) "OPTIONS" then
    ioRet {| resStatus := 200; contentType := None; resBody := NoBody |}
  else
    tryCatch
      (match matchPath (pathname request) with
       | Some (sourceProvider, targetProvider, subPath) =>
           LLMProxyService.handleConversionRequest P net rnd request env
             sourceProvider targetProvider (subPathOr subPath)
       | None =>
           ioRet {| resStatus := 200; contentType := Some "text/plain";
                    resBody := Documentation |}
       end)
      (fun e => _ <~ log (LogError e) ;; ioRet (jsonResponse 500 (Failure e))).

End WithPlatform.

End Router.

(** ** The worker without streaming

    The second single-file worker: the same [convertOpenAIToClaude],
    [mapModelName] and request literal as the first, no translated stream,
    and a proxy that does not read the request. *)

Module Buffered.

Section WithPlatform.

Variable P : Platform.

Definition handleClaudeToOpenRouter (net : Network) (rnd : nat -> string)
  (request : Request) : IO Response :=
  if negb (String.eqb (method request) "POST") then ioRet methodNotAllowed
  else
    let authHeader := match authorization request with
                      | Some h => h
                      | None => ""
                      end in
    if isEmpty authHeader || negb (startsWith authHeader "Bearer ") then
      ioRet (jsonResponse 401 (ErrorMessage "需要有效的 Authorization header"))
    else
      let openRouterKey := removeFirst "Bearer " authHeader in
      claudeRequest <~ lift (json P (Normal (reqBody request))) ;;
      body <~ lift (Legacy.openRouterRequest claudeRequest) ;;
      response <~ fetch net
        {| url := "https://openrouter.ai/api/v1/chat/completions";
           headers :=
             [ ("Authorization", "Bearer " ++ openRouterKey);
               ("Content-Type", "application/json");
               ("HTTP-Referer",
                  match referer request with
                  | Some r => if isEmpty r then "https://your-domain.com" else r
                  | None => "https://your-domain.com"
                  end);
               ("X-Title", "LLM Proxy Service") ]%string;
           fetchBody := stringifyText P body |} ;;
      if negb (ok response) then
        errorText <~ lift (text response) ;;
        lift (newResponse (upStatus response) (Some "application/json")
                (Text errorText))
      else
        openaiResponse <~ lift (json P (text response)) ;;
        claudeResponse <~
          lift (Legacy.convertOpenAIToClaude P rnd openaiResponse claudeRequest) ;;
        ioRet (jsonResponse 200 (stringifyBody P claudeResponse)).

Definition handleClaudeProxy (net : Network) (request : Request) : IO Response :=
  if negb (String.eqb (method request) "POST") then ioRet methodNotAllowed
  else
    let authHeader := match authorization request with
                      | Some h => h
                      | None => ""
                      end in
    if isEmpty authHeader then
      ioRet (jsonResponse 401 (ErrorMessage "需要 Authorization header"))
    else
      let claudeRequest := reqBody request in
      response <~ fetch net
        {| url := "https://api.anthropic.com/v1/messages";
           headers :=
             [ ("Authorization", authHeader);
               ("Content-Type", "application/json");
               ("anthropic-version", "2023-06-01") ];
           fetchBody := claudeRequest |} ;;
      responseData <~ lift (text response) ;;
      lift (newResponse (upStatus response) (Some "application/json")
                (Text responseData)).

Definition worker (net : Network) (rnd : nat -> string) (request : Request)
  : IO Response :=
  if String.eqb (method request) "OPTIONS" then
    ioRet {| resStatus := 200; contentType := None; resBody := NoBody |}
  else
    tryCatch
      (if startsWith (pathname request) "/v1/claude-to-openrouter" then
         handleClaudeToOpenRouter net rnd request
       else if startsWith (pathname request) "/v1/claude-proxy" then
         handleClaudeProxy net request
       else
         ioRet {| resStatus := 200; contentType := Some "text/plain";
                  resBody := Documentation |})
      (fun e => _ <~ log (LogError e) ;; ioRet (jsonResponse 500 (Failure e))).

End WithPlatform.

End Buffered.

(** ** A reference runtime

    A JSON reader and writer for the examples: the four JSON blanks, the
    three literals, decimal numbers, strings with the two-character escapes
    (no [\u] escapes), arrays and objects.  The general statements below
    hold for every [Platform]; this one makes the examples run. *)

Module MiniJSON.

Definition DQ : ascii := ascii_of_nat 34.
Definition BS : ascii := ascii_of_nat 92.

Definition blank (c : ascii) : bool :=
  let n := nat_of_ascii c in
  Nat.eqb n 32 || Nat.eqb n 9 || Nat.eqb n 10 || Nat.eqb n 13.

Fixpoint skipBlanks (s : string) : string :=
  match s with
  | String c r => if blank c then skipBlanks r else s
  | EmptyString => s
  end.

Definition digit (c : ascii) : option Z :=
  let n := nat_of_ascii c in
  if Nat.leb 48 n && Nat.leb n 57 then Some (Z.of_nat (n - 48)) else None.

(* The longest run of digits: its value, its length, what follows. *)
Fixpoint digits (s : string) (acc : Z) (count : nat) : Z * nat * string :=
  match s with
  | String c r =>
      match digit c with
      | Some d => digits r (10 * acc + d)%Z (S count)
      | None => (acc, count, s)
      end
  | EmptyString => (acc, count, s)
  end.

Definition scale (m : Z) (e : Z) : Q :=
  if Z.leb 0 e then inject_Z (m * 10 ^ e)
  else Qred (Qmake m (Z.to_pos (10 ^ (- e)))).

Definition fraction (s : string) : option (Z * nat * string) :=
  match s with
  | String "."%char r =>
      match digits r 0%Z 0%nat with
      | (_, O, _) => None
      | (f, n, rest) => Some (f, n, rest)
      end
  | _ => Some (0%Z, 0%nat, s)
  end.

Definition exponent (s : string) : option (Z * string) :=
  let signed (neg : bool) (r : string) :=
    match digits r 0%Z 0%nat with
    | (_, O, _) => None
    | (e, _, rest) => Some (if neg then (- e)%Z else e, rest)
    end in
  match s with
  | String c r =>
      if Ascii.eqb c "e"%char || Ascii.eqb c "E"%char then
        match r with
        | String "-"%char r' => signed true r'
        | String "+"%char r' => signed false r'
        | _ => signed false r
        end
      else Some (0%Z, s)
  | EmptyString => Some (0%Z, s)
  end.

Definition number (s : string) : option (Q * string) :=
  let '(neg, s1) := match s with
                    | String "-"%char r => (true, r)
                    | _ => (false, s)
                    end in
  match digits s1 0%Z 0%nat with
  | (_, O, _) => None
  | (i, n, s2) =>
      if Nat.ltb 1 n && startsWith s1 "0" then None
      else
        match fraction s2 with
        | None => None
        | Some (f, k, s3) =>
            match exponent s3 with
            | None => None
            | Some (e, s4) =>
                let m := (i * 10 ^ Z.of_nat k + f)%Z in
                Some (scale (if neg then (- m)%Z else m) (e - Z.of_nat k), s4)
            end
        end
  end.

Definition unescape (c : ascii) : option ascii :=
  if Ascii.eqb c DQ then Some DQ
  else if Ascii.eqb c BS then Some BS
  else if Ascii.eqb c "/"%char then Some "/"%char
  else if Ascii.eqb c "b"%char then Some (ascii_of_nat 8)
  else if Ascii.eqb c "f"%char then Some (ascii_of_nat 12)
  else if Ascii.eqb c "n"%char then Some (ascii_of_nat 10)
  else if Ascii.eqb c "r"%char then Some (ascii_of_nat 13)
  else if Ascii.eqb c "t"%char then Some (ascii_of_nat 9)
  else None.

(* The characters of a string, from behind its opening quote. *)
Fixpoint chars (s : string) : option (string * string) :=
  match s with
  | EmptyString => None
  | String c r =>
      if Ascii.eqb c DQ then Some (EmptyString, r)
      else if Ascii.eqb c BS then
        match r with
        | String e r' =>
            match unescape e, chars r' with
            | Some x, Some (t, rest) => Some (String x t, rest)
            | _, _ => None
            end
        | EmptyString => None
        end
      else if Nat.ltb (nat_of_ascii c) 32 then None
      else match chars r with
           | Some (t, rest) => Some (String c t, rest)
           | None => None
           end
  end.

Definition keyword (word : string) (v : JSValue) (s : string)
  : option (JSValue * string) :=
  if startsWith s word then Some (v, slice (String.length word) s) else None.

Fixpoint value (fuel : nat) (s : string) : option (JSValue * string) :=
  match fuel with
  | O => None
  | S f =>
      match skipBlanks s with
      | EmptyString => None
      | String c r as s' =>
          if Ascii.eqb c DQ then
            match chars r with
            | Some (t, rest) => Some (JSString t, rest)
            | None => None
            end
          else if Ascii.eqb c "["%char then
            match skipBlanks r with
            | String "]"%char rest => Some (JSArray [], rest)
            | _ => match elements f r with
                   | Some (vs, rest) => Some (JSArray vs, rest)
                   | None => None
                   end
            end
          else if Ascii.eqb c "{"%char then
            match skipBlanks r with
            | String "}"%char rest => Some (JSObject [], rest)
            | _ => match members f r with
                   | Some (ps, rest) =>
                       Some (JSObject
                               (fold_left (fun acc p => setProp (fst p) (snd p) acc) ps []),
                             rest)
                   | None => None
                   end
            end
          else if Ascii.eqb c "t"%char then keyword "true" (JSBool true) s'
          else if Ascii.eqb c "f"%char then keyword "false" (JSBool false) s'
          else if Ascii.eqb c "n"%char then keyword "null" JSNull s'
          else match number s' with
               | Some (q, rest) => Some (JSNumber q, rest)
               | None => None
               end
      end
  end
with elements (fuel : nat) (s : string) : option (list JSValue * string) :=
  match fuel with
  | O => None
  | S f =>
      match value f s with
      | Some (v, rest) =>
          match skipBlanks rest with
          | String ","%char rest' =>
              match elements f rest' with
              | Some (vs, rest'') => Some (v :: vs, rest'')
              | None => None
              end
          | String "]"%char rest' => Some ([ v ], rest')
          | _ => None
          end
      | None => None
      end
  end
with members (fuel : nat) (s : string) : option (list (string * JSValue) * string) :=
  match fuel with
  | O => None
  | S f =>
      match skipBlanks s with
      | String c r =>
          if Ascii.eqb c DQ then
            match chars r with
            | Some (k, rest) =>
                match skipBlanks rest with
                | String ":"%char rest' =>
                    match value f rest' with
                    | Some (v, rest'') =>
                        match skipBlanks rest'' with
                        | String ","%char r3 =>
                            match members f r3 with
                            | Some (ps, r4) => Some ((k, v) :: ps, r4)
                            | None => None
                            end
                        | String "}"%char r3 => Some ([ (k, v) ], r3)
                        | _ => None
                        end
                    | None => None
                    end
                | _ => None
                end
            | None => None
            end
          else None
      | EmptyString => None
      end
  end.

Definition parse (s : string) : option JSValue :=
  match value (2 * String.length s + 2) s with
  | Some (v, rest) => if isEmpty (skipBlanks rest) then Some v else None
  | None => None
  end.

Definition hexDigit (n : nat) : ascii :=
  ascii_of_nat (if Nat.ltb n 10 then 48 + n else 87 + n).

Definition escape (c : ascii) : string :=
  let n := nat_of_ascii c in
  if Ascii.eqb c DQ then String BS (String DQ EmptyString)
  else if Ascii.eqb c BS then String BS (String BS EmptyString)
  else if Nat.eqb n 8 then String BS "b"
  else if Nat.eqb n 12 then String BS "f"
  else if Nat.eqb n 10 then String BS "n"
  else if Nat.eqb n 13 then String BS "r"
  else if Nat.eqb n 9 then String BS "t"
  else if Nat.ltb n 32 then
    String BS ("u00" ++ String (hexDigit (n / 16)) (String (hexDigit (n mod 16)) ""))
  else String c EmptyString.

Fixpoint escapeAll (s : string) : string :=
  match s with
  | EmptyString => EmptyString
  | String c r => (escape c ++ escapeAll r)%string
  end.

Definition quote (s : string) : string :=
  String DQ (escapeAll s ++ String DQ EmptyString).

Definition printZ (z : Z) : string := NilZero.string_of_int (Z.to_int z).

Fixpoint zeros (n : nat) : string :=
  match n with
  | O => ""
  | S k => String "0"%char (zeros k)
  end.

(* The decimal expansion of [n / d] when it ends within [fuel] places. *)
Fixpoint places (fuel : nat) (n : Z) (d : Z) (k : nat) : option (Z * nat) :=
  if Z.eqb (n mod d) 0 then Some ((n / d)%Z, k)
  else match fuel with
       | O => None
       | S f => places f (10 * n)%Z d (S k)
       end.

Definition printNumber (q : Q) : string :=
  match places 40 (Z.abs (Qnum q)) (Zpos (Qden q)) 0 with
  | Some (m, O) => printZ (if Z.ltb (Qnum q) 0 then - m else m)%Z
  | Some (m, k) =>
      let ds := printZ m in
      let ds := (zeros (S k - String.length ds) ++ ds)%string in
      let cut := (String.length ds - k)%nat in
      ((if Z.ltb (Qnum q) 0 then "-" else "")
         ++ substring 0 cut ds ++ "." ++ slice cut ds)%string
  | None => "null"
  end.

Fixpoint join (sep : string) (l : list string) : string :=
  match l with
  | [] => ""
  | [ x ] => x
  | x :: t => (x ++ sep ++ join sep t)%string
  end.

Fixpoint print (v : JSValue) : option string :=
  match v with
  | JSUndefined | JSNative _ => None
  | JSNull => Some "null"
  | JSBool b => Some (if b then "true" else "false")
  | JSNumber q => Some (printNumber q)
  | JSString s => Some (quote s)
  | JSArray l =>
      Some ("[" ++ join "," (map (fun x => match print x with
                                           | Some t => t
                                           | None => "null"
                                           end) l) ++ "]")%string
  | JSObject ps =>
      Some ("{" ++ join "," (flat_map (fun p => match print (snd p) with
                                                | Some t => [ (quote (fst p) ++ ":" ++ t)%string ]
                                                | None => []
                                                end) ps) ++ "}")%string
  end.

(* ToString off strings; arrays and objects only as far as the examples
   need them. *)
Definition toString (v : JSValue) : string :=
  match v with
  | JSUndefined => "undefined"
  | JSNull => "null"
  | JSBool b => if b then "true" else "false"
  | JSNumber q => printNumber q
  | JSString s => s
  | JSArray [] => ""
  | JSArray [ JSString s ] => s
  | JSArray _ => ","
  | JSObject _ => "[object Object]"
  | JSNative k => k
  end.

Definition add (a b : JSValue) : JSValue :=
  JSString (toString a ++ toString b).

Definition gtZero (v : JSValue) : bool :=
  match number (trim (toString v)) with
  | Some (q, EmptyString) => Z.ltb 0 (Qnum q)
  | _ => false
  end.

Definition runtime : Platform :=
  {| JSON_parse := parse;
     JSON_stringify := print;
     ToString := toString;
     add_coerced := add;
     gtZero_coerced := gtZero |}.

(* JSON text is written with apostrophes for quotes. *)
Fixpoint json (s : string) : string :=
  match s with
  | EmptyString => EmptyString
  | String c r => String (if Ascii.eqb c "'"%char then DQ else c) (json r)
  end.

End MiniJSON.

(** ** Vocabulary of the specification *)

(* The stop-reason table, as the specification words it. *)
Definition stopReasonSpec (finish : string) : string :=
  if String.eqb finish "stop" then "end_turn"
  else if String.eqb finish "length" then "max_tokens"
  else if String.eqb finish "tool_calls" then "tool_use"
  else if String.eqb finish "function_call" then "tool_use"
  else "end_turn".

Definition notNullish (v : JSValue) : bool :=
  match v with
  | JSUndefined | JSNull => false
  | _ => true
  end.

Definition isArray (v : JSValue) : bool :=
  match v with
  | JSArray _ => true
  | _ => false
  end.

(* A message the lowering can read: a value with properties whose content,
   when it is a block list, holds values with properties. *)
Definition wellFormedMessage (m : JSValue) : bool :=
  notNullish m
  && match optProp m "content" with
     | JSArray blocks => forallb notNullish blocks
     | _ => true
     end.

Definition wellFormedTools (tools : JSValue) : bool :=
  match tools with
  | JSArray ts => forallb notNullish ts
  | t => negb (truthy t)
  end.

(* A unified request: an object with a string [model], a list of messages
   and, when present, a list of tools. *)
Definition wellFormedRequest (request : JSValue) : bool :=
  match request with
  | JSObject ps =>
      match lookup "model" ps with JSString _ => true | _ => false end
      && match lookup "messages" ps with
         | JSArray ms => forallb wellFormedMessage ms
         | _ => false
         end
      && wellFormedTools (lookup "tools" ps)
  | _ => false
  end.

(* No message carries a block list. *)
Definition plainMessages (request : JSValue) : bool :=
  match optProp request "messages" with
  | JSArray ms => forallb (fun m => negb (isArray (optProp m "content"))) ms
  | _ => false
  end.

(* The tools list is absent or empty. *)
Definition noTools (request : JSValue) : bool :=
  match optProp request "tools" with
  | JSUndefined | JSArray [] => true
  | _ => false
  end.

(* Lowering with [transformRequestIn], then lifting with the same
   provider's [transformRequestOut]. *)
Definition roundTrip (T : BaseTransformer) (request : JSValue) : Completion JSValue :=
  lowered <- transformRequestIn T request ;;
  transformRequestOut T lowered.

Definition mappedModel (model : JSValue) : JSValue :=
  match model with
  | JSString s => str (OpenRouterTransformer.mapModelName s)
  | other => other
  end.

(* The round-trip property as the specification states it for a provider
   whose lowering maps the model with [mapModel] and substitutes the given
   defaults: the five fields come back, the model mapped and the two
   numbers defaulted. *)
Definition RoundTripPreserves (T : BaseTransformer) (mapModel : JSValue -> JSValue)
  (defaults : JSValue -> JSValue -> JSValue) (request : JSValue) : Prop :=
  exists back,
    roundTrip T request = Normal back
    /\ optProp back "model" = mapModel (optProp request "model")
    /\ optProp back "messages" = optProp request "messages"
    /\ optProp back "max_tokens" = defaults (optProp request "max_tokens") (num 4096)
    /\ optProp back "temperature"
         = defaults (optProp request "temperature") (JSNumber (7 # 10))
    /\ optProp back "tools" = optProp request "tools".

(** ** Shapes of a translated stream *)

Definition eventTypes (s : Sink Event) : list string := map eventType (enqueued s).

Definition sinkOf (o : Legacy.LineOutcome) : Sink Event :=
  match o with
  | Legacy.Continue s => s
  | Legacy.Return s => s
  end.

Definition returned (o : Legacy.LineOutcome) : bool :=
  match o with
  | Legacy.Continue _ => false
  | Legacy.Return _ => true
  end.

(* What one line can do to the stream. *)
Inductive LineEffect (s : Sink Event) : Legacy.LineOutcome -> Prop :=
| line_ignored :
    LineEffect s (Legacy.Continue s)
| line_logged (e : JSError) (d : string) :
    LineEffect s (Legacy.Continue (consoleError [ LogChunkError e d ] s))
| line_delta (d : JSValue) :
    LineEffect s (Legacy.Continue
      (enqueue [ {| eventType := "content_block_delta"; data := d |} ] s))
| line_finished (payload : JSValue) :
    LineEffect s (Legacy.Return
      (setStatus Closed (enqueue (Legacy.finish payload) s))).

Definition opening : list string := [ "message_start"; "content_block_start" ].

Definition closing : list string :=
  [ "content_block_stop"; "message_delta"; "message_stop" ].

(* The event types of a message still being written, and of a finished one. *)
Definition openShape (l : list string) : Prop :=
  exists n, l = opening ++ repeat "content_block_delta" n.

Definition closedShape (l : list string) : Prop :=
  exists n, l = opening ++ repeat "content_block_delta" n ++ closing.

(* Two sinks a client cannot tell apart: the log is not part of the stream. *)
Definition sameStream (a b : Sink Event) : Prop :=
  enqueued a = enqueued b /\ status a = status b.

Definition sameOutcome (a b : Legacy.LineOutcome) : Prop :=
  returned a = returned b /\ sameStream (sinkOf a) (sinkOf b).

(* The text a list of chunks adds up to. *)
Definition received (texts : list string) : string :=
  fold_right String.append "" texts.

(** ** The text of a translated stream *)

(* The event a piece of text is sent as. *)
Definition textDelta (content : JSValue) : Event :=
  {| eventType := "content_block_delta";
     data := JSObject
       [ ("type", str "content_block_delta");
         ("index", num 0);
         ("delta", JSObject [ ("type", str "text_delta"); ("text", content) ]) ] |}.

(* A data line whose chunk holds a piece of text in its first choice. *)
Definition carries (P : Platform) (line : string) (content : JSValue) : Prop :=
  startsWith line "data: " = true
  /\ trim (slice 6 line) <> "[DONE]"
  /\ trim (slice 6 line) <> ""
  /\ exists chunk choice choices delta,
       JSON_parse P (trim (slice 6 line)) = Some chunk
       /\ getProp chunk "choices" = Normal (JSArray (choice :: choices))
       /\ getProp choice "delta" = Normal delta
       /\ getProp delta "content" = Normal content
       /\ truthy content = true.

(* What a line that is not the last of a message adds to the text: nothing
   when it is not a data line, one piece when it carries one. *)
Inductive lineText (P : Platform) (line : string) : list JSValue -> Prop :=
| no_data : startsWith line "data: " = false -> lineText P line []
| one_piece (content : JSValue) : carries P line content -> lineText P line [ content ].

Definition doneLine : string := "data: [DONE]".

(** ** Events on the wire *)

(* A text without a line feed. *)
Definition oneLineText (s : string) : bool :=
  forallb (fun c => negb (Ascii.eqb c LF)) (list_ascii_of_string s).

(* An event of a provider's stream as it is written on the wire. *)
Definition wireEvent (e : string * string) : string :=
  "event: " ++ fst e ++ NL ++ "data: " ++ snd e ++ NL ++ NL.

Definition wholeEvent (e : string * string) : Prop :=
  oneLineText (fst e) = true /\ oneLineText (snd e) = true
  /\ trim (snd e) <> "".

(* A chunk made of whole events. *)
Definition wireChunk (events : list (string * string)) : string :=
  received (map wireEvent events).

(** ** Calls to a provider *)

(* A handler that makes no [fetch], and one that makes at most one. *)
Definition callsNothing {A} (c : IO A) : Prop :=
  forall w, calls (fst (c w)) = calls w.

Definition callsAtMostOnce {A} (c : IO A) : Prop :=
  forall w, exists extra,
    calls (fst (c w)) = calls w ++ extra /\ (length extra <= 1)%nat.

(* Every [fetch] a handler makes satisfies [Q]. *)
Definition everyCall {A} (Q : FetchInit -> Prop) (c : IO A) : Prop :=
  forall w, exists extra, calls (fst (c w)) = calls w ++ extra /\ Forall Q extra.

(* A handler that ends with a value, whatever happens inside. *)
Definition answers {A} (c : IO A) : Prop :=
  forall w, exists a, snd (c w) = Normal a.

(* What a handler answers when its [catch] turns what [new Response]
   throws into a 500. *)
Definition orFailure (c : Completion Response) : Response :=
  match c with
  | Normal r => r
  | Throw e => jsonResponse 500 (Failure e)
  end.

(* [headers[key]] of a [fetch] call. *)
Definition header (key : string) (call : FetchInit) : option string :=
  match find (fun p => String.eqb (fst p) key) (headers call) with
  | Some p => Some (snd p)
  | None => None
  end.

(* The endpoint of a provider of the service. *)
Definition endpointOf (target : string) : string :=
  if String.eqb target "anthropic" then "https://api.anthropic.com/v1/messages"
  else "https://openrouter.ai/api/v1/chat/completions".

(* The members of a request that [transformRequestOut] reads. *)
Definition unifiedKeys : list string :=
  [ "model"; "messages"; "max_tokens"; "temperature"; "stream"; "tools" ].

(* The members of the request a worker sends. *)
Definition workerKeys : list string :=
  [ "model"; "messages"; "max_tokens"; "temperature"; "top_p"; "stream" ].

(** ** Paths of the conversion service *)

(* Whether a text begins with a word character. *)
Definition wordAhead (s : string) : bool :=
  match s with
  | String c _ => Router.wordChar c
  | EmptyString => false
  end.

(* A non-empty run of word characters. *)
Definition wordy (s : string) : bool :=
  negb (isEmpty s) && forallb Router.wordChar (list_ascii_of_string s).

Definition subPathText (subPath : option string) : string :=
  match subPath with
  | Some rest => String "/" rest
  | None => ""
  end.

(* [/from-SOURCE/to-TARGET] and what may follow it. *)
Definition conversionPath (source target : string) (subPath : option string)
  : string :=
  "/from-" ++ source ++ "/to-" ++ target ++ subPathText subPath.

Definition oneLine (subPath : option string) : bool :=
  match subPath with
  | Some rest => Router.dotStarToEnd rest
  | None => true
  end.

(** ** Sample requests and answers *)

Definition helloRequest : JSValue :=
  JSObject
    [ ("model", str "claude-sonnet-4");
      ("messages", JSArray [ JSObject [ ("role", str "user");
                                        ("content", str "Hello") ] ]);
      ("max_tokens", num 1000) ].

Definition helloBody : string :=
  MiniJSON.json
    "{'model':'claude-sonnet-4','messages':[{'role':'user','content':'Hello'}],'max_tokens':1000}".

Definition zeroRequest : JSValue :=
  JSObject
    [ ("model", str "claude-sonnet-4");
      ("messages", JSArray [ JSObject [ ("role", str "user");
                                        ("content", str "Hello") ] ]);
      ("max_tokens", num 0);
      ("temperature", num 0) ].

(* An assistant turn that calls a tool, in a request that declares it. *)
Definition toolRequest : JSValue :=
  JSObject
    [ ("model", str "claude-sonnet-4");
      ("messages", JSArray
         [ JSObject
             [ ("role", str "assistant");
               ("content", JSArray
                  [ textBlock (str "Calling");
                    JSObject [ ("type", str "tool_use"); ("id", str "t1");
                               ("name", str "f"); ("input", JSObject []) ] ]) ] ]);
      ("max_tokens", num 1000);
      ("tools", JSArray
         [ JSObject [ ("name", str "f"); ("description", str "d");
                      ("input_schema", JSObject []) ] ]) ].

(* The same request without the tool call. *)
Definition textRequest : JSValue :=
  JSObject
    [ ("model", str "claude-sonnet-4");
      ("messages", JSArray
         [ JSObject
             [ ("role", str "assistant");
               ("content", JSArray [ textBlock (str "Calling") ]) ] ]);
      ("max_tokens", num 1000);
      ("tools", JSArray
         [ JSObject [ ("name", str "f"); ("description", str "d");
                      ("input_schema", JSObject []) ] ]) ].

(* A completion cut short by the token limit. *)
Definition truncatedReply : JSValue :=
  JSObject
    [ ("id", str "gen-1");
      ("model", str "anthropic/claude-sonnet-4");
      ("choices", JSArray
         [ JSObject
             [ ("message", JSObject [ ("role", str "assistant");
                                      ("content", str "Hello") ]);
               ("finish_reason", str "length") ] ]);
      ("usage", JSObject [ ("prompt_tokens", num 5);
                           ("completion_tokens", num 1000) ]) ].

Definition truncatedReplyText : string :=
  MiniJSON.json
    "{'id':'gen-1','model':'anthropic/claude-sonnet-4','choices':[{'message':{'role':'assistant','content':'Hello'},'finish_reason':'length'}],'usage':{'prompt_tokens':5,'completion_tokens':1000}}".

(* A provider response without any choice. *)
Definition emptyReply : JSValue :=
  JSObject [ ("id", str "gen-1"); ("model", str "m"); ("choices", JSArray []) ].

Definition spacedBody : string :=
  MiniJSON.json
    "{ 'model': 'claude-sonnet-4', 'max_tokens': 1000, 'messages': [ { 'role': 'user', 'content': 'Hello' } ] }".

Definition spacedReply : string :=
  MiniJSON.json
    "{ 'id': 'msg_1', 'type': 'message', 'content': [ { 'type': 'text', 'text': 'Hi' } ] }".

Definition noKeys : Env :=
  {| OPENROUTER_API_KEY := None; ANTHROPIC_API_KEY := None |}.

(* A provider that answers every call with status 200 and the given body. *)
Definition replies (body : string) : Network :=
  fun _ => Normal {| upStatus := 200; upBody := Some [ Chunk body ] |}.

Definition proxied : Request :=
  {| method := "POST";
     pathname := "/from-anthropic/to-anthropic/messages";
     authorization := Some "Bearer sk-test";
     referer := None;
     reqBody := spacedBody |}.

(* The scenario of the specification: a Claude-format request sent to the
   OpenAI-compatible provider. *)
Definition converted : Request :=
  {| method := "POST";
     pathname := "/from-anthropic/to-openrouter/messages";
     authorization := Some "Bearer sk-or-test";
     referer := None;
     reqBody := helloBody |}.

(* The last chunk of a completion that ran into the token limit. *)
Definition lengthChunk : string :=
  ("data: "
   ++ MiniJSON.json "{'choices':[{'delta':{},'finish_reason':'length'}]}" ++ NL)%string.

(* A data line with a text fragment, and one cut off in mid-object. *)
Definition helloLine : string :=
  ("data: " ++ MiniJSON.json "{'choices':[{'delta':{'content':'Hi'}}]}")%string.

Definition brokenLine : string :=
  ("data: " ++ MiniJSON.json "{'choices':[{'delta':{'con")%string.

(* Two chunks of a provider's stream, cut in the middle of a line. *)
Definition hiThereChunks : list string :=
  [ (helloLine ++ NL ++ NL ++ "data: ")%string;
    (MiniJSON.json "{'choices':[{'delta':{'content':' there'}}]}" ++ NL
     ++ doneLine ++ NL ++ "data: ignored")%string ].

(* A provider's stream with a line cut off in mid-object between two
   lines of text. *)
Definition noisyChunks : list string :=
  [ (helloLine ++ NL ++ brokenLine ++ NL ++ "da")%string;
    ("ta: " ++ MiniJSON.json "{'choices':[{'delta':{'content':' there'}}]}" ++ NL
     ++ doneLine ++ NL)%string ].

(* The answer [truncatedReply] is converted to. *)
Definition convertedHello : JSValue :=
  JSObject
    [ ("id", str "gen-1"); ("type", str "message"); ("role", str "assistant");
      ("content", JSArray [ textBlock (str "Hello") ]);
      ("stop_reason", str "end_turn"); ("stop_sequence", JSNull);
      ("usage", JSObject [ ("input_tokens", num 5);
                           ("output_tokens", num 1000) ]) ].

(* An answer in the Claude format, as it comes out of a conversion whose
   target is Anthropic. *)
Definition wrappedHi : JSValue :=
  JSObject
    [ ("id", str "msg_1"); ("type", str "message"); ("role", str "assistant");
      ("model", JSUndefined);
      ("content", JSArray [ textBlock (JSArray [ textBlock (str "Hi") ]) ]);
      ("stop_reason", str "end_turn"); ("stop_sequence", JSNull);
      ("usage", JSObject [ ("input_tokens", num 0); ("output_tokens", num 0) ]) ].


(** * Properties *)

(** ** Model-name mapping *)

Lemma legacy_mapModelName_examples :
  Legacy.mapModelName "claude-3-5-sonnet-20241022" = "anthropic/claude-3.5-sonnet"
  /\ Legacy.mapModelName "claude-opus-4-20250101" = "anthropic/claude-opus-4"
  /\ Legacy.mapModelName "gpt-4" = "gpt-4".
Proof. repeat split. Qed.

Lemma legacy_mapModelName_fallback (model : string) :
  startsWith model "claude-" = true ->
  forallb (fun p => negb (startsWith model p)) Legacy.modelTable = true ->
  Legacy.mapModelName model = ("anthropic/" ++ model)%string.
Proof.
  intros Hc Ht. unfold Legacy.mapModelName. rewrite Hc. cbn [negb].
  cbn [forallb Legacy.modelTable] in Ht.
  repeat (apply andb_prop in Ht; destruct Ht as [?H Ht]).
  repeat match goal with
         | H : negb ?b = true |- _ => apply negb_true_iff in H; rewrite H; clear H
         end.
  reflexivity.
Qed.

Lemma legacy_mapModelName_table (rest : string) :
  Legacy.mapModelName ("claude-opus-4" ++ rest) = "anthropic/claude-opus-4"
  /\ Legacy.mapModelName ("claude-sonnet-4" ++ rest) = "anthropic/claude-sonnet-4"
  /\ Legacy.mapModelName ("claude-3-7-sonnet" ++ rest) = "anthropic/claude-3.7-sonnet"
  /\ Legacy.mapModelName ("claude-3-5-sonnet" ++ rest) = "anthropic/claude-3.5-sonnet"
  /\ Legacy.mapModelName ("claude-3-5-haiku" ++ rest) = "anthropic/claude-3.5-haiku"
  /\ Legacy.mapModelName ("claude-3-opus" ++ rest) = "anthropic/claude-3-opus"
  /\ Legacy.mapModelName ("claude-3-sonnet" ++ rest) = "anthropic/claude-3-sonnet"
  /\ Legacy.mapModelName ("claude-3-haiku" ++ rest) = "anthropic/claude-3-haiku".
Proof. destruct rest; repeat split; reflexivity. Qed.

Lemma legacy_mapModelName_passthrough (model : string) :
  startsWith model "claude-" = false ->
  Legacy.mapModelName model = model.
Proof. intros H. unfold Legacy.mapModelName. now rewrite H. Qed.

Lemma legacy_mapModelName_fallback_witness :
  Legacy.mapModelName "claude-2.1" = "anthropic/claude-2.1".
Proof. apply (legacy_mapModelName_fallback "claude-2.1"); reflexivity. Defined.

Lemma legacy_mapModelName_passthrough_witness :
  Legacy.mapModelName "gpt-4" = "gpt-4".
Proof. apply (legacy_mapModelName_passthrough "gpt-4"); reflexivity. Defined.

(** C1.  The transformer's [mapModelName] knows only the [claude-opus-4]
    prefix: the model [claude-3-5-sonnet-20241022] is sent to
    [anthropic/claude-sonnet-4], not to [anthropic/claude-3.5-sonnet], and a
    [claude-] name outside the table is not rewritten to [anthropic/<model>];
    the worker's own [mapModelName] returns the values the claim gives. *)
Theorem C1_transformer_mapModelName_collapses :
  OpenRouterTransformer.mapModelName "claude-3-5-sonnet-20241022"
    = "anthropic/claude-sonnet-4"
  /\ OpenRouterTransformer.mapModelName "claude-3-5-sonnet-20241022"
    <> "anthropic/claude-3.5-sonnet"
  /\ OpenRouterTransformer.mapModelName "claude-2.1" <> "anthropic/claude-2.1"
  /\ Legacy.mapModelName "claude-3-5-sonnet-20241022" = "anthropic/claude-3.5-sonnet"
  /\ Legacy.mapModelName "claude-2.1" = "anthropic/claude-2.1".
Proof. repeat split; discriminate. Qed.

(** ** The translated stream *)

Lemma processLine_effect (P : Platform) (line : string) (s : Sink Event) :
  LineEffect s (Legacy.processLine P line s).
Proof.
  unfold Legacy.processLine.
  destruct (startsWith line "data: "); [ | constructor ].
  destruct (String.eqb _ "[DONE]"); [ constructor | ].
  destruct (negb _); [ | constructor ].
  unfold Legacy.tryChunk.
  destruct (parseJSON P _) as [ parsed | e ]; cbn [bind]; [ | constructor ].
  destruct (Legacy.convertOpenAIStreamToClaude P parsed) as [ c | e ];
    cbn [bind]; [ | constructor ].
  destruct (truthy c); [ | constructor ].
  destruct (getProp c "type") as [ ty | e ]; cbn [bind]; [ | constructor ].
  destruct (isString ty "content_block_delta"); [ constructor | ].
  destruct (isString ty "message_stop"); constructor.
Qed.

Lemma eventTypes_enqueue (items : list Event) (s : Sink Event) :
  eventTypes (enqueue items s) = eventTypes s ++ map eventType items.
Proof. unfold eventTypes. cbn. apply map_app. Qed.

Lemma repeat_snoc {A} (x : A) (n : nat) : repeat x n ++ [ x ] = repeat x (S n).
Proof. induction n; cbn; [ reflexivity | now rewrite IHn ]. Qed.

Lemma processLine_shape (P : Platform) (line : string) (s : Sink Event) :
  openShape (eventTypes s) ->
  match Legacy.processLine P line s with
  | Legacy.Continue s' => openShape (eventTypes s')
  | Legacy.Return s' => closedShape (eventTypes s')
  end.
Proof.
  intros [ n Hn ]. destruct (processLine_effect P line s).
  - now exists n.
  - now exists n.
  - exists (S n). rewrite eventTypes_enqueue, Hn. cbn [map eventType].
    rewrite <- app_assoc. now rewrite repeat_snoc.
  - exists n. unfold eventTypes in *. cbn [enqueued setStatus enqueue].
    rewrite map_app, Hn.
    change (map eventType (Legacy.finish payload)) with closing.
    now rewrite <- app_assoc.
Qed.

Lemma forEachLine_shape (P : Platform) (lines : list string) :
  forall s, openShape (eventTypes s) ->
  match Legacy.forEachLine P lines s with
  | Legacy.Continue s' => openShape (eventTypes s')
  | Legacy.Return s' => closedShape (eventTypes s')
  end.
Proof.
  induction lines as [ | line rest IH ]; intros s Hs; cbn [Legacy.forEachLine].
  - exact Hs.
  - pose proof (processLine_shape P line s Hs) as H.
    destruct (Legacy.processLine P line s); [ now apply IH | exact H ].
Qed.

Lemma readLoop_shape (P : Platform) (steps : list ReadStep) :
  forall buffer s, openShape (eventTypes s) ->
  openShape (eventTypes (Legacy.readLoop P steps buffer s))
  \/ closedShape (eventTypes (Legacy.readLoop P steps buffer s)).
Proof.
  induction steps as [ | [ text | ] rest IH ]; intros buffer s Hs;
    cbn [Legacy.readLoop].
  - now left.
  - pose proof (forEachLine_shape P (removelast (split (buffer ++ text))) s Hs) as H.
    destruct (Legacy.forEachLine P _ s); [ now apply IH | now right ].
  - now left.
Qed.

Lemma start_shape (P : Platform) (rnd : string) (model : JSValue)
  (body : option (list ReadStep)) :
  openShape (eventTypes (Legacy.start P rnd model body))
  \/ closedShape (eventTypes (Legacy.start P rnd model body)).
Proof.
  unfold Legacy.start, Legacy.processStream.
  assert (H0 : openShape (eventTypes
            (enqueue [ Legacy.messageStart rnd model; Legacy.contentBlockStart ]
                     emptySink))) by now exists 0%nat.
  destruct body as [ steps | ]; [ now apply readLoop_shape | now left ].
Qed.

Lemma delta_after_start (deltas rest pre post : list string) :
  opening ++ deltas ++ rest = pre ++ "content_block_delta" :: post ->
  In "content_block_start" pre.
Proof.
  unfold opening. intros H.
  destruct pre as [ | a [ | b pre ] ]; cbn in H; inversion H; subst.
  right. now left.
Qed.

Lemma count_stop_deltas (n : nat) :
  count_occ string_dec (repeat "content_block_delta" n) "message_stop" = 0%nat.
Proof. apply count_occ_repeat_neq. discriminate. Qed.

(** C3.  Whatever the provider sends and whenever reading fails, the events
    of the translated stream start with [message_start] and
    [content_block_start], so that a [content_block_delta] always has a
    [content_block_start] before it; [message_stop] occurs at most once, and
    when it occurs it is the last event. *)
Theorem C3_stream_ordering (P : Platform) (rnd : string) (model : JSValue)
  (body : option (list ReadStep)) :
  let events := eventTypes (Legacy.start P rnd model body) in
  (forall pre post, events = pre ++ "content_block_delta" :: post ->
                    In "content_block_start" pre)
  /\ (count_occ string_dec events "message_stop" <= 1)%nat
  /\ (In "message_stop" events -> last events "" = "message_stop").
Proof.
  cbv zeta.
  destruct (start_shape P rnd model body) as [ [ n Hn ] | [ n Hn ] ]; rewrite Hn.
  - repeat split.
    + intros pre post H.
      apply (delta_after_start (repeat "content_block_delta" n) [] pre post).
      now rewrite app_nil_r.
    + rewrite count_occ_app, count_stop_deltas. cbn. lia.
    + intros H. exfalso. apply in_app_or in H. destruct H as [ H | H ].
      * cbn in H. intuition discriminate.
      * apply repeat_spec in H. discriminate.
  - repeat split.
    + intros pre post H.
      now apply (delta_after_start (repeat "content_block_delta" n) closing pre post).
    + rewrite !count_occ_app, count_stop_deltas. cbn. lia.
    + intros _. rewrite !app_assoc. unfold closing.
      change [ "content_block_stop"; "message_delta"; "message_stop" ]
        with ([ "content_block_stop"; "message_delta" ] ++ [ "message_stop" ]).
      rewrite app_assoc. apply last_last.
Qed.

(** ** Malformed lines *)

Lemma processLine_malformed (P : Platform) (line : string) (s : Sink Event) :
  startsWith line "data: " = true ->
  trim (slice 6 line) <> "[DONE]" ->
  trim (slice 6 line) <> "" ->
  JSON_parse P (trim (slice 6 line)) = None ->
  Legacy.processLine P line s
  = Legacy.Continue (consoleError [ LogChunkError SyntaxError (trim (slice 6 line)) ] s).
Proof.
  intros Hdata Hdone Hempty Hparse. unfold Legacy.processLine. rewrite Hdata.
  apply String.eqb_neq in Hdone. rewrite Hdone.
  destruct (trim (slice 6 line)) eqn:E; [ contradiction | ].
  cbn [isEmpty negb]. unfold Legacy.tryChunk, parseJSON. now rewrite Hparse.
Qed.

Lemma processLine_sameStream (P : Platform) (line : string) (a b : Sink Event) :
  sameStream a b ->
  sameOutcome (Legacy.processLine P line a) (Legacy.processLine P line b).
Proof.
  intros [ He Hs ]. unfold Legacy.processLine, sameOutcome, sameStream.
  destruct (startsWith line "data: "); [ | now cbn ].
  destruct (String.eqb _ "[DONE]"); [ cbn; now rewrite He | ].
  destruct (negb _); [ | now cbn ].
  unfold Legacy.tryChunk.
  destruct (parseJSON P _) as [ parsed | e ]; cbn [bind]; [ | now cbn ].
  destruct (Legacy.convertOpenAIStreamToClaude P parsed) as [ c | e ];
    cbn [bind]; [ | now cbn ].
  destruct (truthy c); [ | now cbn ].
  destruct (getProp c "type") as [ ty | e ]; cbn [bind]; [ | now cbn ].
  destruct (isString ty "content_block_delta"); [ cbn; now rewrite He | ].
  destruct (isString ty "message_stop"); cbn; [ now rewrite He | easy ].
Qed.

Lemma forEachLine_sameStream (P : Platform) (lines : list string) :
  forall a b, sameStream a b ->
  sameOutcome (Legacy.forEachLine P lines a) (Legacy.forEachLine P lines b).
Proof.
  induction lines as [ | line rest IH ]; intros a b Hab; cbn [Legacy.forEachLine].
  - now split.
  - destruct (processLine_sameStream P line a b Hab) as [ Hr Hs ].
    destruct (Legacy.processLine P line a), (Legacy.processLine P line b);
      cbn in Hr; try discriminate.
    + now apply IH.
    + now split.
Qed.

Lemma processLine_keeps_log (P : Platform) (line : string) (s : Sink Event)
  (entry : LogEntry) :
  In entry (logged s) -> In entry (logged (sinkOf (Legacy.processLine P line s))).
Proof.
  intros H. destruct (processLine_effect P line s); cbn; auto.
  apply in_or_app. now left.
Qed.

Lemma forEachLine_keeps_log (P : Platform) (lines : list string) (entry : LogEntry) :
  forall s, In entry (logged s) ->
  In entry (logged (sinkOf (Legacy.forEachLine P lines s))).
Proof.
  induction lines as [ | line rest IH ]; intros s H; cbn [Legacy.forEachLine].
  - exact H.
  - pose proof (processLine_keeps_log P line s entry H) as H'.
    destruct (Legacy.processLine P line s); [ now apply IH | exact H' ].
Qed.

(** ** Lowering a request *)

Lemma getProp_notNullish (v : JSValue) (k : string) :
  notNullish v = true -> getProp v k = Normal (optProp v k).
Proof. destruct v; cbn; congruence. Qed.

Lemma mapM_total {A B} (f : A -> Completion B) (l : list A) :
  Forall (fun a => exists b, f a = Normal b) l -> exists bs, mapM f l = Normal bs.
Proof.
  induction 1 as [ | a t [ b Hb ] _ [ bs Hbs ] ]; cbn.
  - now exists [].
  - rewrite Hb. cbn. rewrite Hbs. cbn. now exists (b :: bs).
Qed.

Lemma mapM_fixed {A} (f : A -> Completion A) (l : list A) :
  Forall (fun a => f a = Normal a) l -> mapM f l = Normal l.
Proof.
  induction 1 as [ | a t Ha _ IH ]; cbn; [ reflexivity | ].
  rewrite Ha. cbn. now rewrite IH.
Qed.

Lemma lowerBlock_total (P : Platform) (st : OpenRouterTransformer.LoopState)
  (block : JSValue) :
  notNullish block = true ->
  exists st', OpenRouterTransformer.lowerBlock P st block = Normal st'.
Proof.
  intros H. destruct st as [ [ content id ] flag ]. unfold OpenRouterTransformer.lowerBlock.
  rewrite !(getProp_notNullish block) by exact H. cbn [bind].
  destruct (isString _ "text"); [ eauto | ].
  destruct (isString _ "tool_result"); eauto.
Qed.

Lemma foldM_lowerBlock_total (P : Platform) (blocks : list JSValue) :
  forallb notNullish blocks = true ->
  forall st, exists st',
    foldM (OpenRouterTransformer.lowerBlock P) blocks st = Normal st'.
Proof.
  induction blocks as [ | b t IH ]; intros H st; cbn [foldM].
  - eauto.
  - cbn in H. apply andb_prop in H. destruct H as [ Hb Ht ].
    destruct (lowerBlock_total P st b Hb) as [ st1 H1 ]. rewrite H1. cbn [bind].
    now apply IH.
Qed.

Lemma messageToOpenAI_total (P : Platform) (m : JSValue) :
  wellFormedMessage m = true ->
  exists m', OpenRouterTransformer.messageToOpenAI P m = Normal m'.
Proof.
  unfold wellFormedMessage. intros H. apply andb_prop in H. destruct H as [ Hm Hc ].
  unfold OpenRouterTransformer.messageToOpenAI.
  rewrite (getProp_notNullish m) by exact Hm. cbn [bind].
  destruct (optProp m "content") as [ | | | | | blocks | | ]; eauto.
  destruct (foldM_lowerBlock_total P blocks Hc (str "", str "", false))
    as [ [ [ c id ] flag ] Hst ].
  rewrite Hst. cbn [bind]. destruct flag; eauto.
Qed.

Lemma messageToOpenAI_plain (P : Platform) (m : JSValue) :
  notNullish m = true ->
  isArray (optProp m "content") = false ->
  OpenRouterTransformer.messageToOpenAI P m = Normal m.
Proof.
  intros Hm Hc. unfold OpenRouterTransformer.messageToOpenAI.
  rewrite (getProp_notNullish m) by exact Hm. cbn [bind].
  destruct (optProp m "content"); try reflexivity. discriminate.
Qed.

Lemma toolToOpenAI_total (tool : JSValue) :
  notNullish tool = true ->
  exists t, OpenRouterTransformer.toolToOpenAI tool = Normal t.
Proof.
  intros H. unfold OpenRouterTransformer.toolToOpenAI.
  rewrite !(getProp_notNullish tool) by exact H. cbn [bind]. eauto.
Qed.

Lemma transformToolsToOpenAI_total (tools : JSValue) :
  wellFormedTools tools = true ->
  exists ts, OpenRouterTransformer.transformToolsToOpenAI tools = Normal ts.
Proof.
  unfold OpenRouterTransformer.transformToolsToOpenAI.
  destruct tools as [ | | b | q | t | l | ps | k ]; cbn; eauto; intros H;
    try (rewrite H; cbn; eauto; fail); try discriminate.
  destruct (mapM_total OpenRouterTransformer.toolToOpenAI l) as [ ts Hts ].
  - apply Forall_forall. intros t Ht. apply toolToOpenAI_total.
    rewrite forallb_forall in H. now apply H.
  - rewrite Hts. cbn. eauto.
Qed.

Lemma transformToolsToOpenAI_none (request : JSValue) :
  noTools request = true ->
  OpenRouterTransformer.transformToolsToOpenAI (optProp request "tools")
  = Normal (optProp request "tools").
Proof.
  unfold noTools. destruct (optProp request "tools") as [ | | | | | [ | ] | | ];
    try discriminate; reflexivity.
Qed.

(* What [transformRequestIn] returns on a well-formed request. *)
Lemma transformRequestIn_wellFormed (P : Platform) (request : JSValue) :
  wellFormedRequest request = true ->
  exists messages tools,
    (m <- getProp request "messages" ;;
     OpenRouterTransformer.transformMessagesToOpenAI P m) = Normal messages
    /\ OpenRouterTransformer.transformToolsToOpenAI (optProp request "tools")
       = Normal tools
    /\ OpenRouterTransformer.transformRequestIn P request
       = Normal (JSObject
           [ ("model", mappedModel (optProp request "model"));
             ("messages", messages);
             ("max_tokens", js_or (optProp request "max_tokens") (num 4096));
             ("temperature",
                js_or (optProp request "temperature") (JSNumber (7 # 10)));
             ("top_p", optProp request "top_p");
             ("stream", js_or (optProp request "stream") (JSBool false));
             ("tools", tools) ]).
Proof.
  destruct request as [ | | | | | | ps | ]; try discriminate.
  cbn [wellFormedRequest]. intros H.
  apply andb_prop in H. destruct H as [ H Htools ].
  apply andb_prop in H. destruct H as [ Hmodel Hmsgs ].
  destruct (transformToolsToOpenAI_total _ Htools) as [ tools Ht ].
  unfold OpenRouterTransformer.transformRequestIn.
  cbn [getProp optProp bind].
  destruct (lookup "model" ps) as [ | | | | model | | | ]; try discriminate.
  destruct (lookup "messages" ps) as [ | | | | | ms | | ]; try discriminate.
  destruct (mapM_total (OpenRouterTransformer.messageToOpenAI P) ms) as [ ms' Hms ].
  { apply Forall_forall. intros m Hm. apply messageToOpenAI_total.
    rewrite forallb_forall in Hmsgs. now apply Hmsgs. }
  exists (JSArray ms'), tools.
  cbn [OpenRouterTransformer.mapModelNameOf OpenRouterTransformer.transformMessagesToOpenAI
       bind mappedModel].
  rewrite Hms. cbn [bind]. rewrite Ht. cbn [bind]. auto.
Qed.

(** ** Tool results *)

(** C8.  A message whose content is the one-block list
    [[{type: 'tool_result', tool_use_id, content}]] with a string content
    lowers to [{role: 'tool', tool_call_id, content}]: with [tool_use_id]
    ["t1"] and content ["42"], to
    [{role: 'tool', tool_call_id: 't1', content: '42'}]. *)
Theorem C8_tool_result_lowering (P : Platform) (message block id : JSValue)
  (result : string) :
  getProp message "content" = Normal (JSArray [ block ]) ->
  getProp block "type" = Normal (str "tool_result") ->
  getProp block "tool_use_id" = Normal id ->
  getProp block "content" = Normal (str result) ->
  OpenRouterTransformer.messageToOpenAI P message
  = Normal (JSObject [ ("role", str "tool");
                       ("tool_call_id", id);
                       ("content", str result) ]).
Proof.
  intros Hcontent Htype Hid Hresult.
  unfold OpenRouterTransformer.messageToOpenAI. rewrite Hcontent. cbn [bind foldM].
  unfold OpenRouterTransformer.lowerBlock. rewrite Htype. cbn [bind].
  cbn [isString str]. cbn. rewrite Hid. cbn [bind]. rewrite Hresult. reflexivity.
Qed.

Lemma C8_tool_result_lowering_witness :
  OpenRouterTransformer.messageToOpenAI MiniJSON.runtime
    (JSObject
       [ ("role", str "user");
         ("content", JSArray
            [ JSObject [ ("type", str "tool_result"); ("tool_use_id", str "t1");
                         ("content", str "42") ] ]) ])
  = Normal (JSObject [ ("role", str "tool");
                       ("tool_call_id", str "t1");
                       ("content", str "42") ]).
Proof.
  apply (C8_tool_result_lowering MiniJSON.runtime _
           (JSObject [ ("type", str "tool_result"); ("tool_use_id", str "t1");
                       ("content", str "42") ]));
    reflexivity.
Defined.

(** ** Defaults *)

Lemma lookup_prune (k : string) (l : list (string * JSValue)) :
  NoDup (map fst l) -> lookup k (Legacy.prune l) = lookup k l.
Proof.
  assert (Hout : forall t, ~ In k (map fst t) -> lookup k t = JSUndefined).
  { induction t as [ | [ k' v ] t IH ]; cbn; intros H; [ reflexivity | ].
    unfold lookup. cbn. destruct (String.eqb_spec k' k) as [ -> | _ ].
    - exfalso. apply H. now left.
    - apply IH. intros Hin. apply H. now right. }
  induction l as [ | [ k' v ] t IH ]; cbn [map fst]; intros Hnd; [ reflexivity | ].
  inversion Hnd as [ | ? ? Hk' Ht ]; subst.
  assert (Hstep : forall u, lookup k ((k', v) :: u)
                            = if String.eqb k' k then v else lookup k u).
  { intros u. unfold lookup. cbn. now destruct (String.eqb k' k). }
  destruct v; cbn [Legacy.prune filter snd]; fold (Legacy.prune t);
    rewrite ?Hstep, IH by exact Ht; try reflexivity.
  destruct (String.eqb_spec k' k) as [ -> | _ ]; [ | reflexivity ].
  now apply Hout.
Qed.

Lemma js_or_zero (q : Q) (default : JSValue) :
  isZero q = true -> js_or (JSNumber q) default = default.
Proof. intros H. unfold js_or. cbn. now rewrite H. Qed.

Lemma legacy_openRouterRequest_wellFormed (request : JSValue) :
  wellFormedRequest request = true ->
  exists lowered,
    Legacy.openRouterRequest request = Normal lowered
    /\ optProp lowered "max_tokens" = js_or (optProp request "max_tokens") (num 4096)
    /\ optProp lowered "temperature"
       = js_or (optProp request "temperature") (JSNumber (7 # 10)).
Proof.
  destruct request as [ | | | | | | ps | ]; try discriminate.
  cbn [wellFormedRequest]. intros H.
  apply andb_prop in H. destruct H as [ H _ ].
  apply andb_prop in H. destruct H as [ Hmodel _ ].
  unfold Legacy.openRouterRequest. cbn [getProp optProp bind].
  destruct (lookup "model" ps) as [ | | | | model | | | ]; try discriminate.
  cbn [Legacy.mapModelNameOf bind]. eexists. split; [ reflexivity | ].
  cbn [optProp]. rewrite !lookup_prune.
  - split; reflexivity.
  - cbn. repeat constructor; cbn; intuition discriminate.
  - cbn. repeat constructor; cbn; intuition discriminate.
Qed.

(** C10.  Lowering for the OpenAI-compatible provider replaces a falsy
    value by the default, not only an absent one: on every well-formed
    request the lowering returns, and a temperature of 0 becomes 0.7, a
    [max_tokens] of 0 becomes 4096, in the transformer as in the worker's
    own request. *)
Theorem C10_zero_is_replaced_by_default (P : Platform) (request : JSValue) :
  wellFormedRequest request = true ->
  (exists lowered,
     OpenRouterTransformer.transformRequestIn P request = Normal lowered
     /\ (forall q, optProp request "temperature" = JSNumber q -> isZero q = true ->
                   optProp lowered "temperature" = JSNumber (7 # 10))
     /\ (forall q, optProp request "max_tokens" = JSNumber q -> isZero q = true ->
                   optProp lowered "max_tokens" = num 4096))
  /\ (exists lowered,
        Legacy.openRouterRequest request = Normal lowered
        /\ (forall q, optProp request "temperature" = JSNumber q -> isZero q = true ->
                      optProp lowered "temperature" = JSNumber (7 # 10))
        /\ (forall q, optProp request "max_tokens" = JSNumber q -> isZero q = true ->
                      optProp lowered "max_tokens" = num 4096)).
Proof.
  intros H. split.
  - destruct (transformRequestIn_wellFormed P request H) as (ms & ts & _ & _ & Hin).
    eexists. split; [ exact Hin | ].
    split; intros q Hq Hz; cbn; rewrite Hq; now apply js_or_zero.
  - destruct (legacy_openRouterRequest_wellFormed request H) as (l & Hl & Hm & Ht).
    exists l. split; [ exact Hl | ].
    split; intros q Hq Hz.
    + rewrite Ht, Hq. now apply js_or_zero.
    + rewrite Hm, Hq. now apply js_or_zero.
Qed.

Lemma C10_zero_is_replaced_by_default_witness :
  (exists lowered,
     OpenRouterTransformer.transformRequestIn MiniJSON.runtime zeroRequest
       = Normal lowered
     /\ (forall q, optProp zeroRequest "temperature" = JSNumber q -> isZero q = true ->
                   optProp lowered "temperature" = JSNumber (7 # 10))
     /\ (forall q, optProp zeroRequest "max_tokens" = JSNumber q -> isZero q = true ->
                   optProp lowered "max_tokens" = num 4096))
  /\ (exists lowered,
        Legacy.openRouterRequest zeroRequest = Normal lowered
        /\ (forall q, optProp zeroRequest "temperature" = JSNumber q -> isZero q = true ->
                      optProp lowered "temperature" = JSNumber (7 # 10))
        /\ (forall q, optProp zeroRequest "max_tokens" = JSNumber q -> isZero q = true ->
                      optProp lowered "max_tokens" = num 4096)).
Proof.
  apply (C10_zero_is_replaced_by_default MiniJSON.runtime zeroRequest).
  reflexivity.
Defined.

Example zero_temperature_on_the_wire :
  (lowered <- OpenRouterTransformer.transformRequestIn MiniJSON.runtime zeroRequest ;;
   Normal (stringifyText MiniJSON.runtime lowered))
  = Normal (MiniJSON.json
      "{'model':'anthropic/claude-sonnet-4','messages':[{'role':'user','content':'Hello'}],'max_tokens':4096,'temperature':0.7,'stream':false}").
Proof. vm_compute. reflexivity. Qed.

(** ** Lowering and lifting again *)

Lemma anthropic_round_trip (P : Platform) (request : JSValue) :
  wellFormedRequest request = true ->
  RoundTripPreserves (AnthropicTransformer.transformer P)
    (fun model => model) (fun value _ => value) request.
Proof.
  destruct request as [ | | | | | | ps | ]; try discriminate. intros _.
  eexists. split; [ reflexivity | ]. cbn. repeat split; reflexivity.
Qed.

Lemma openrouter_round_trip (P : Platform) (request : JSValue) :
  wellFormedRequest request = true ->
  exists lowered back,
    OpenRouterTransformer.transformRequestIn P request = Normal lowered
    /\ roundTrip (OpenRouterTransformer.transformer P) request = Normal back
    /\ optProp back "model" = mappedModel (optProp request "model")
    /\ optProp back "max_tokens" = js_or (optProp request "max_tokens") (num 4096)
    /\ optProp back "temperature"
       = js_or (optProp request "temperature") (JSNumber (7 # 10))
    /\ optProp back "messages" = optProp lowered "messages"
    /\ optProp back "tools" = optProp lowered "tools"
    /\ (plainMessages request = true ->
        optProp back "messages" = optProp request "messages")
    /\ (noTools request = true -> optProp back "tools" = optProp request "tools").
Proof.
  intros H.
  destruct (transformRequestIn_wellFormed P request H) as (ms & ts & Hms & Hts & Hin).
  eexists. eexists. split; [ exact Hin | ].
  unfold roundTrip. cbn [transformRequestIn transformRequestOut
                         OpenRouterTransformer.transformer].
  rewrite Hin. cbn [bind]. split; [ reflexivity | ].
  cbn. repeat split.
  - intros Hplain.
    destruct request as [ | | | | | | ps | ]; try discriminate.
    cbn [wellFormedRequest] in H.
    apply andb_prop in H. destruct H as [ H _ ].
    apply andb_prop in H. destruct H as [ _ Hwf ].
    cbn [getProp bind] in Hms. unfold plainMessages in Hplain. cbn [optProp] in *.
    revert Hwf Hms Hplain.
    destruct (lookup "messages" ps) as [ | | | | | l | | ]; try discriminate.
    intros Hwf Hms Hplain.
    cbn [OpenRouterTransformer.transformMessagesToOpenAI] in Hms.
    rewrite (mapM_fixed (OpenRouterTransformer.messageToOpenAI P) l) in Hms.
    + cbn in Hms. congruence.
    + apply Forall_forall. intros m Hm.
      rewrite forallb_forall in Hwf, Hplain.
      specialize (Hwf m Hm). specialize (Hplain m Hm).
      unfold wellFormedMessage in Hwf. apply andb_prop in Hwf.
      apply messageToOpenAI_plain; [ tauto | ].
      now apply negb_true_iff in Hplain.
  - intros Hnone. rewrite (transformToolsToOpenAI_none request Hnone) in Hts.
    congruence.
Qed.

(** C7, as stated, fails on the OpenAI-compatible transformer: the request
    [toolRequest] is well formed, and after lowering and lifting neither its
    messages nor its tools come back. *)
Lemma C7_round_trip_counterexample :
  wellFormedRequest toolRequest = true
  /\ ~ RoundTripPreserves (OpenRouterTransformer.transformer MiniJSON.runtime)
         mappedModel js_or toolRequest.
Proof.
  split; [ reflexivity | ].
  intros (back & Hback & _ & Hmessages & _).
  vm_compute in Hback. injection Hback as <-.
  vm_compute in Hmessages. discriminate.
Qed.

(* The tool call cannot be recovered by any lifting: the request without it
   lowers to the same payload. *)
Lemma lowering_forgets_tool_calls (P : Platform) :
  OpenRouterTransformer.transformRequestIn P toolRequest
  = OpenRouterTransformer.transformRequestIn P textRequest
  /\ optProp toolRequest "messages" <> optProp textRequest "messages".
Proof. split; [ reflexivity | discriminate ]. Qed.

(** C7, amended.  On a well-formed unified request, lowering and lifting
    with the Anthropic transformer returns model, messages, [max_tokens],
    temperature and tools unchanged.  With the OpenAI-compatible transformer
    it returns the model mapped by [mapModelName], and [max_tokens] and
    temperature with 4096 and 0.7 in place of a falsy value; messages and
    tools come back as they were lowered, which is unchanged when no message
    carries a block list, respectively when the tools list is absent or
    empty. *)
Theorem C7_round_trip_amended (P : Platform) (request : JSValue) :
  wellFormedRequest request = true ->
  RoundTripPreserves (AnthropicTransformer.transformer P)
    (fun model => model) (fun value _ => value) request
  /\ (exists lowered back,
        OpenRouterTransformer.transformRequestIn P request = Normal lowered
        /\ roundTrip (OpenRouterTransformer.transformer P) request = Normal back
        /\ optProp back "model" = mappedModel (optProp request "model")
        /\ optProp back "max_tokens"
           = js_or (optProp request "max_tokens") (num 4096)
        /\ optProp back "temperature"
           = js_or (optProp request "temperature") (JSNumber (7 # 10))
        /\ optProp back "messages" = optProp lowered "messages"
        /\ optProp back "tools" = optProp lowered "tools"
        /\ (plainMessages request = true ->
            optProp back "messages" = optProp request "messages")
        /\ (noTools request = true ->
            optProp back "tools" = optProp request "tools")).
Proof.
  intros H. split.
  - now apply anthropic_round_trip.
  - now apply openrouter_round_trip.
Qed.

Lemma C7_round_trip_amended_witness :
  RoundTripPreserves (AnthropicTransformer.transformer MiniJSON.runtime)
    (fun model => model) (fun value _ => value) helloRequest
  /\ (exists lowered back,
        OpenRouterTransformer.transformRequestIn MiniJSON.runtime helloRequest
          = Normal lowered
        /\ roundTrip (OpenRouterTransformer.transformer MiniJSON.runtime) helloRequest
           = Normal back
        /\ optProp back "model" = mappedModel (optProp helloRequest "model")
        /\ optProp back "max_tokens"
           = js_or (optProp helloRequest "max_tokens") (num 4096)
        /\ optProp back "temperature"
           = js_or (optProp helloRequest "temperature") (JSNumber (7 # 10))
        /\ optProp back "messages" = optProp lowered "messages"
        /\ optProp back "tools" = optProp lowered "tools"
        /\ (plainMessages helloRequest = true ->
            optProp back "messages" = optProp helloRequest "messages")
        /\ (noTools helloRequest = true ->
            optProp back "tools" = optProp helloRequest "tools")).
Proof.
  apply (C7_round_trip_amended MiniJSON.runtime helloRequest). reflexivity.
Defined.

(** ** Stop reasons *)

Lemma legacy_stopReasonOf_table (P : Platform) (finish : string) :
  existsb (String.eqb finish) Legacy.objectPrototypeKeys = false ->
  Legacy.stopReasonOf P (str finish) = str (stopReasonSpec finish).
Proof.
  intros Hown. unfold Legacy.stopReasonOf, Legacy.literalGet, stopReasonSpec.
  cbn [toStringJS str Legacy.stopReasonTable find fst snd].
  rewrite !(String.eqb_sym _ finish).
  destruct (String.eqb finish "stop"); [ reflexivity | ].
  destruct (String.eqb finish "length"); [ reflexivity | ].
  destruct (String.eqb finish "tool_calls"); [ reflexivity | ].
  destruct (String.eqb finish "function_call"); [ reflexivity | ].
  now rewrite Hown.
Qed.

Lemma legacy_stopReasonOf_table_witness :
  Legacy.stopReasonOf MiniJSON.runtime (str "tool_calls") = str "tool_use".
Proof.
  apply (legacy_stopReasonOf_table MiniJSON.runtime "tool_calls"). reflexivity.
Defined.

Lemma legacy_stopReasonOf_inherited (P : Platform) :
  Legacy.stopReasonOf P (str "constructor") = JSNative "constructor".
Proof. reflexivity. Qed.

Lemma transformResponseIn_stop_reason (rnd : string) (unified final : JSValue) :
  AnthropicTransformer.transformResponseIn rnd unified = Normal final ->
  optProp final "stop_reason" = str "end_turn".
Proof.
  unfold AnthropicTransformer.transformResponseIn, usageOf.
  destruct (getProp unified "id"); cbn [bind]; [ | discriminate ].
  destruct (getProp unified "content"); cbn [bind]; [ | discriminate ].
  destruct (getProp unified "usage"); cbn [bind]; [ | discriminate ].
  intros H. injection H as <-. reflexivity.
Qed.

(** C2.  The transformers do not apply the stop-reason table: a provider
    response whose finish reason is [length] comes back from
    [transformResponseOut] followed by [transformResponseIn] with
    [stop_reason] [end_turn], where the table, and the worker's
    [convertOpenAIToClaude], give [max_tokens]. *)
Theorem C2_transformers_ignore_finish_reason (P : Platform) (rnd : string) :
  (unified <- OpenRouterTransformer.transformResponseOut P truncatedReply ;;
   final <- AnthropicTransformer.transformResponseIn rnd unified ;;
   getProp final "stop_reason") = Normal (str "end_turn")
  /\ (unified <- OpenRouterTransformer.transformResponseOut P truncatedReply ;;
      final <- OpenRouterTransformer.transformResponseIn rnd unified ;;
      getProp final "stop_reason") = Normal (str "end_turn")
  /\ stopReasonSpec "length" = "max_tokens"
  /\ (final <- Legacy.convertOpenAIToClaude P (fun _ => rnd) truncatedReply helloRequest ;;
      getProp final "stop_reason") = Normal (str "max_tokens").
Proof. repeat split. Qed.

(** ** Responses without choices *)

Lemma openrouter_transformResponseOut_object (P : Platform)
  (props : list (string * JSValue)) :
  OpenRouterTransformer.transformResponseOut P (JSObject props)
  = Normal (JSObject
      [ ("id", lookup "id" props);
        ("model", lookup "model" props);
        ("content",
           js_or (optProp (optProp (optIndex0 (lookup "choices" props)) "message")
                          "content") (str ""));
        ("usage", lookup "usage" props) ]).
Proof. reflexivity. Qed.

Lemma openrouter_transformResponseOut_text (P : Platform) (body : string)
  (parsed : JSValue) :
  JSON_parse P body = Some parsed ->
  (forall t, parsed <> JSString t) ->
  OpenRouterTransformer.transformResponseOut P (str body)
  = OpenRouterTransformer.transformResponseOut P parsed.
Proof.
  intros Hp Hs. unfold OpenRouterTransformer.transformResponseOut, parseJSON.
  cbn [str]. rewrite Hp. destruct parsed; try reflexivity. now destruct (Hs s).
Qed.

(* No shape of the provider's answer makes it fail.  The answer may come
   as a value or as the JSON text of one, which is parsed first; what is
   left to fail is [null], which has no properties, a text that is not
   JSON, and a value that is itself a string and so is taken for a text. *)
Lemma openrouter_transformResponseOut_total (P : Platform)
  (response data : JSValue) :
  response = data
  \/ (exists body, response = JSString body /\ JSON_parse P body = Some data) ->
  notNullish data = true ->
  (forall t, data <> JSString t) ->
  exists unified,
    OpenRouterTransformer.transformResponseOut P response = Normal unified
    /\ optProp unified "content"
       = js_or (optProp (optProp (optIndex0 (optProp data "choices")) "message")
                        "content") (str "").
Proof.
  intros [ -> | (body & -> & Hp) ] Hn Hs.
  - unfold OpenRouterTransformer.transformResponseOut.
    destruct data; try discriminate; cbn; eauto. now destruct (Hs s).
  - change (JSString body) with (str body).
    rewrite (openrouter_transformResponseOut_text P body data Hp Hs).
    unfold OpenRouterTransformer.transformResponseOut.
    destruct data; try discriminate; cbn; eauto. now destruct (Hs s).
Qed.

Lemma openrouter_transformResponseOut_total_witness :
  exists unified,
    OpenRouterTransformer.transformResponseOut MiniJSON.runtime
      (str (MiniJSON.json "{'id':'gen-1','model':'m','choices':[]}"))
      = Normal unified
    /\ optProp unified "content"
       = js_or (optProp (optProp (optIndex0 (optProp emptyReply "choices")) "message")
                        "content") (str "").
Proof.
  apply (openrouter_transformResponseOut_total MiniJSON.runtime
           (str (MiniJSON.json "{'id':'gen-1','model':'m','choices':[]}"))
           emptyReply).
  - right. eexists. split; reflexivity.
  - reflexivity.
  - discriminate.
Defined.

Lemma openrouter_transformResponseOut_text_witness :
  OpenRouterTransformer.transformResponseOut MiniJSON.runtime (str truncatedReplyText)
  = OpenRouterTransformer.transformResponseOut MiniJSON.runtime truncatedReply.
Proof.
  apply (openrouter_transformResponseOut_text MiniJSON.runtime truncatedReplyText
           truncatedReply).
  - vm_compute. reflexivity.
  - discriminate.
Defined.

Lemma getProp_throws (v : JSValue) (k : string) (e : JSError) :
  getProp v k = Throw e -> e = TypeError.
Proof. destruct v; cbn; congruence. Qed.

Lemma index0_throws (v : JSValue) (e : JSError) :
  index0 v = Throw e -> e = TypeError.
Proof. destruct v as [ | | | | [ | ] | | | ]; cbn; congruence. Qed.

Lemma lengthIsFalsy_throws (v : JSValue) (e : JSError) :
  lengthIsFalsy v = Throw e -> e = TypeError.
Proof. destruct v; cbn; congruence. Qed.

(* Peels the first step off a sequence that threw. *)
Ltac thrown H lemma :=
  match type of H with
  | bind ?c _ = Throw _ =>
      let E := fresh "E" in
      destruct c eqn:E; cbn [bind] in H;
      [ | injection H as <-; eauto using lemma ]
  end.

Lemma toolUseBlock_throws (P : Platform) (rnd : string) (toolCall : JSValue)
  (e : JSError) :
  Legacy.toolUseBlock P rnd toolCall = Throw e -> e = TypeError.
Proof.
  unfold Legacy.toolUseBlock. intros H.
  thrown H getProp_throws.
  destruct (isString _ "function"); [ | discriminate ].
  do 4 thrown H getProp_throws. discriminate.
Qed.

Lemma toolUseBlocksFrom_throws (P : Platform) (rnd : nat -> string)
  (l : list JSValue) (e : JSError) :
  forall i, Legacy.toolUseBlocksFrom P rnd i l = Throw e -> e = TypeError.
Proof.
  induction l as [ | toolCall rest IH ]; intros i H; cbn in H; [ discriminate | ].
  thrown H toolUseBlock_throws.
  destruct (Legacy.toolUseBlocksFrom P rnd (S i) rest) eqn:E';
    cbn [bind] in H; [ discriminate | ].
  injection H as <-. eauto.
Qed.

Lemma toolUseBlocks_throws (P : Platform) (rnd : nat -> string)
  (toolCalls : JSValue) (e : JSError) :
  Legacy.toolUseBlocks P rnd toolCalls = Throw e -> e = TypeError.
Proof.
  destruct toolCalls; cbn; try congruence. apply toolUseBlocksFrom_throws.
Qed.

Lemma usageOf_throws (response : JSValue) (e : JSError) :
  usageOf response = Throw e -> e = TypeError.
Proof.
  unfold usageOf. intros H. thrown H getProp_throws. discriminate.
Qed.

(* The worker's conversion raises an [Error] exactly when the response has
   no choices, and the message is then the one below. *)
Lemma legacy_convert_error_iff (P : Platform) (rnd : nat -> string)
  (response request : JSValue) (message : string) :
  Legacy.convertOpenAIToClaude P rnd response request = Throw (Error message)
  <-> (exists choices,
         getProp response "choices" = Normal choices
         /\ lengthIsFalsy (js_or choices (JSArray [])) = Normal true
         /\ message = "No choices in OpenAI response").
Proof.
  unfold Legacy.convertOpenAIToClaude. split.
  - intros H.
    destruct (getProp response "choices") as [ choices | e0 ] eqn:Ec;
      cbn [bind] in H;
      [ | apply getProp_throws in Ec; subst; discriminate ].
    destruct (lengthIsFalsy (js_or choices (JSArray []))) as [ [ | ] | e0 ] eqn:El;
      cbn [bind] in H;
      [ | | apply lengthIsFalsy_throws in El; subst; discriminate ].
    + exists choices. injection H as <-. auto.
    + exfalso.
      assert (Hty : Error message = TypeError); [ | discriminate ].
      thrown H index0_throws.
      thrown H getProp_throws.
      thrown H getProp_throws.
      thrown H getProp_throws.
      thrown H toolUseBlocks_throws.
      thrown H getProp_throws.
      thrown H getProp_throws.
      thrown H getProp_throws.
      thrown H usageOf_throws.
      discriminate.
  - intros (choices & Hc & Hl & ->). rewrite Hc. cbn [bind]. rewrite Hl. reflexivity.
Qed.

(** C4.  [transformResponseOut] of the OpenAI-compatible transformer reads
    an object and a JSON text alike, but it does not fail on a response
    without choices: for an empty and for an absent [choices] it returns a
    unified response whose content is the empty string, where the worker's
    [convertOpenAIToClaude] throws [No choices in OpenAI response]. *)
Theorem C4_empty_choices_are_accepted (P : Platform) (rnd : nat -> string) :
  OpenRouterTransformer.transformResponseOut P emptyReply
  = Normal (JSObject [ ("id", str "gen-1"); ("model", str "m");
                       ("content", str ""); ("usage", JSUndefined) ])
  /\ OpenRouterTransformer.transformResponseOut P (JSObject [ ("id", str "gen-1") ])
     = Normal (JSObject [ ("id", str "gen-1"); ("model", JSUndefined);
                          ("content", str ""); ("usage", JSUndefined) ])
  /\ OpenRouterTransformer.transformResponseOut MiniJSON.runtime
       (str (MiniJSON.json "{'id':'gen-1','model':'m','choices':[]}"))
     = Normal (JSObject [ ("id", str "gen-1"); ("model", str "m");
                          ("content", str ""); ("usage", JSUndefined) ])
  /\ Legacy.convertOpenAIToClaude P rnd emptyReply helloRequest
     = Throw (Error "No choices in OpenAI response").
Proof. repeat split. Qed.

(** ** Same-provider requests *)

(** C5.  The conversion service parses the request body and serializes it
    again, and does the same with the provider's answer: a request whose
    JSON text carries blanks is forwarded without them, and so is the
    response, so neither body is passed on byte for byte.  The worker's
    [handleClaudeProxy] forwards both texts as they are. *)
Theorem C5_same_provider_bodies_are_reencoded :
  let service :=
    LLMProxyService.handleConversionRequest MiniJSON.runtime (replies spacedReply)
      "r" proxied noKeys "anthropic" "anthropic" "messages" newWorld in
  let proxy :=
    Legacy.handleClaudeProxy MiniJSON.runtime (replies spacedReply) proxied newWorld in
  map fetchBody (calls (fst service))
  = [ MiniJSON.json
        "{'model':'claude-sonnet-4','max_tokens':1000,'messages':[{'role':'user','content':'Hello'}]}" ]
  /\ map fetchBody (calls (fst service)) <> [ reqBody proxied ]
  /\ snd service
     = Normal (jsonResponse 200
         (Text (MiniJSON.json
            "{'id':'msg_1','type':'message','content':[{'type':'text','text':'Hi'}]}")))
  /\ snd service <> Normal (jsonResponse 200 (Text spacedReply))
  /\ map fetchBody (calls (fst proxy)) = [ reqBody proxied ]
  /\ snd proxy = Normal (jsonResponse 200 (Text spacedReply)).
Proof.
  cbv zeta. repeat split; try (vm_compute; reflexivity); vm_compute; discriminate.
Qed.

(** ** The stop reason of a translated stream *)

(** C6.  The translated stream never carries a mapped stop reason: for a
    chunk whose finish reason is [length] the events are the two opening
    ones, then [content_block_stop], a [message_delta] whose [stop_reason]
    is [end_turn], and [message_stop]; the table gives [max_tokens]. *)
Theorem C6_stream_stop_reason_is_end_turn :
  enqueued (Legacy.start MiniJSON.runtime "r" (str "claude-sonnet-4")
              (Some [ Chunk lengthChunk ]))
  = [ Legacy.messageStart "r" (str "claude-sonnet-4");
      Legacy.contentBlockStart;
      Legacy.contentBlockStop;
      {| eventType := "message_delta";
         data := JSObject
           [ ("type", str "message_delta");
             ("delta", JSObject [ ("stop_reason", str "end_turn");
                                  ("stop_sequence", JSNull) ]);
             ("usage", JSObject [ ("output_tokens", num 0) ]) ] |};
      Legacy.messageStop (JSObject [ ("type", str "message_stop") ]) ]
  /\ stopReasonSpec "length" = "max_tokens".
Proof. split; vm_compute; reflexivity. Qed.

Lemma processLine_message_delta (P : Platform) (line : string) (s : Sink Event) :
  (forall e, In e (enqueued s) -> eventType e = "message_delta" ->
             e = Legacy.messageDelta) ->
  forall e, In e (enqueued (sinkOf (Legacy.processLine P line s))) ->
            eventType e = "message_delta" -> e = Legacy.messageDelta.
Proof.
  intros Hs e. destruct (processLine_effect P line s); cbn; auto.
  - intros H. apply in_app_or in H. destruct H as [ H | [ <- | [] ] ]; auto.
    discriminate.
  - intros H. apply in_app_or in H.
    destruct H as [ H | [ <- | [ <- | [ <- | [] ] ] ] ]; auto; discriminate.
Qed.

Lemma forEachLine_message_delta (P : Platform) (lines : list string) :
  forall s,
  (forall e, In e (enqueued s) -> eventType e = "message_delta" ->
             e = Legacy.messageDelta) ->
  forall e, In e (enqueued (sinkOf (Legacy.forEachLine P lines s))) ->
            eventType e = "message_delta" -> e = Legacy.messageDelta.
Proof.
  induction lines as [ | line rest IH ]; intros s Hs; cbn [Legacy.forEachLine].
  - exact Hs.
  - pose proof (processLine_message_delta P line s Hs) as H.
    destruct (Legacy.processLine P line s); [ now apply IH | exact H ].
Qed.

Lemma readLoop_message_delta (P : Platform) (steps : list ReadStep) :
  forall buffer s,
  (forall e, In e (enqueued s) -> eventType e = "message_delta" ->
             e = Legacy.messageDelta) ->
  forall e, In e (enqueued (Legacy.readLoop P steps buffer s)) ->
            eventType e = "message_delta" -> e = Legacy.messageDelta.
Proof.
  induction steps as [ | [ text | ] rest IH ]; intros buffer s Hs;
    cbn [Legacy.readLoop]; auto.
  pose proof (forEachLine_message_delta P
                (removelast (split (buffer ++ text))) s Hs) as H.
  destruct (Legacy.forEachLine P _ s); [ now apply IH | exact H ].
Qed.

(* Whatever finish reason the provider sends, the [message_delta] of the
   translated stream is the constant one, with [stop_reason] [end_turn]. *)
Lemma stream_message_delta_is_constant (P : Platform) (rnd : string)
  (model : JSValue) (body : option (list ReadStep)) (e : Event) :
  In e (enqueued (Legacy.start P rnd model body)) ->
  eventType e = "message_delta" ->
  e = Legacy.messageDelta.
Proof.
  unfold Legacy.start, Legacy.processStream.
  assert (H0 : forall e, In e (enqueued (enqueue
                  [ Legacy.messageStart rnd model; Legacy.contentBlockStart ]
                  emptySink)) ->
               eventType e = "message_delta" -> e = Legacy.messageDelta).
  { cbn. intros x [ <- | [ <- | [] ] ]; discriminate. }
  destruct body as [ steps | ]; [ now apply readLoop_message_delta | apply H0 ].
Qed.

Lemma stream_message_delta_is_constant_witness :
  {| eventType := "message_delta";
     data := JSObject
       [ ("type", str "message_delta");
         ("delta", JSObject [ ("stop_reason", str "end_turn");
                              ("stop_sequence", JSNull) ]);
         ("usage", JSObject [ ("output_tokens", num 0) ]) ] |}
  = Legacy.messageDelta.
Proof.
  apply (stream_message_delta_is_constant MiniJSON.runtime "r"
           (str "claude-sonnet-4") (Some [ Chunk lengthChunk ])).
  - vm_compute. tauto.
  - reflexivity.
Defined.

(** ** The worker's proxy *)

(* Every call [handleClaudeProxy] makes carries the received text. *)
Lemma legacy_proxy_forwards_request_text (P : Platform) (net : Network)
  (request : Request) :
  Forall (fun call => fetchBody call = reqBody request)
         (calls (fst (Legacy.handleClaudeProxy P net request newWorld))).
Proof.
  unfold Legacy.handleClaudeProxy.
  destruct (negb _); [ now constructor | ].
  destruct (isEmpty _); [ now constructor | ].
  unfold ioBind, lift, fetch, ioRet.
  destruct (parseJSON P (reqBody request)) as [ parsed | e ]; [ | now constructor ].
  cbn [calls newWorld app].
  destruct (net _) as [ up | e ]; [ | now repeat constructor ].
  destruct (getProp parsed "stream") as [ stream | e ]; [ | now repeat constructor ].
  destruct (truthy stream); [ now repeat constructor | ].
  destruct (text up); now repeat constructor.
Qed.

(* A request that does not ask for a stream gets the provider's text back
   under the provider's status, as far as [new Response] takes that status
   with a body: outside 200..599 it throws a RangeError, at 204, 205 and
   304 a TypeError, and so does the handler. *)
Lemma legacy_proxy_passes_text_through (P : Platform) (net : Network)
  (request : Request) (auth : string) (parsed : JSValue) (up : Upstream)
  (responseData : string) :
  method request = "POST" ->
  authorization request = Some auth ->
  isEmpty auth = false ->
  JSON_parse P (reqBody request) = Some parsed ->
  notNullish parsed = true ->
  truthy (optProp parsed "stream") = false ->
  net {| url := "https://api.anthropic.com/v1/messages";
         headers := [ ("Authorization", auth);
                      ("Content-Type", "application/json");
                      ("anthropic-version", "2023-06-01") ];
         fetchBody := reqBody request |} = Normal up ->
  text up = Normal responseData ->
  snd (Legacy.handleClaudeProxy P net request newWorld)
  = newResponse (upStatus up) (Some "application/json") (Text responseData)
  /\ map fetchBody (calls (fst (Legacy.handleClaudeProxy P net request newWorld)))
     = [ reqBody request ].
Proof.
  intros Hm Ha He Hp Hn Hs Hnet Ht.
  unfold Legacy.handleClaudeProxy. rewrite Hm, Ha, He.
  change (negb (String.eqb "POST" "POST")) with false. cbv iota.
  unfold ioBind, lift, fetch, ioRet, parseJSON. rewrite Hp, Hnet.
  rewrite (getProp_notNullish parsed) by exact Hn. rewrite Hs, Ht. now split.
Qed.

Lemma legacy_proxy_passes_text_through_witness :
  snd (Legacy.handleClaudeProxy MiniJSON.runtime (replies spacedReply) proxied newWorld)
  = Normal (jsonResponse 200 (Text spacedReply))
  /\ map fetchBody
       (calls (fst (Legacy.handleClaudeProxy MiniJSON.runtime (replies spacedReply)
                      proxied newWorld)))
     = [ spacedBody ].
Proof.
  apply (legacy_proxy_passes_text_through MiniJSON.runtime (replies spacedReply)
           proxied "Bearer sk-test"
           (JSObject
              [ ("model", str "claude-sonnet-4"); ("max_tokens", num 1000);
                ("messages", JSArray
                   [ JSObject [ ("role", str "user"); ("content", str "Hello") ] ]) ])
           {| upStatus := 200; upBody := Some [ Chunk spacedReply ] |} spacedReply);
    reflexivity.
Defined.

(** ** The conversion service on one provider *)

(* Same provider, no stream, a 2xx answer: both bodies are what
   [JSON.stringify] makes of the parsed texts. *)
Lemma service_same_provider_reserializes (P : Platform) (net : Network)
  (rnd : string) (request : Request) (env : Env) (provider subPath auth : string)
  (parsed answer : JSValue) (up : Upstream) :
  method request = "POST" ->
  provider = "anthropic" \/ provider = "openrouter" ->
  authorization request = Some auth ->
  isEmpty (removeFirst "Bearer " auth) = false ->
  JSON_parse P (reqBody request) = Some parsed ->
  notNullish parsed = true ->
  truthy (optProp parsed "stream") = false ->
  (forall call, fetchBody call = stringifyText P parsed -> net call = Normal up) ->
  ok up = true ->
  json P (text up) = Normal answer ->
  let run := LLMProxyService.handleConversionRequest P net rnd request env
               provider provider subPath newWorld in
  map fetchBody (calls (fst run)) = [ stringifyText P parsed ]
  /\ snd run = Normal (jsonResponse 200 (Text (stringifyText P answer))).
Proof.
  intros Hm Hprov Ha Hk Hp Hn Hs Hnet Hok Hans. cbv zeta.
  assert (Hbody : json P (Normal (reqBody request)) = Normal parsed).
  { unfold json, parseJSON. cbn [bind]. now rewrite Hp. }
  unfold LLMProxyService.handleConversionRequest. rewrite Hm, Ha.
  change (negb (String.eqb "POST" "POST")) with false. cbv iota.
  destruct Hprov as [ -> | -> ];
    cbn [LLMProxyService.transformers LLMProxyService.providers String.eqb
         Ascii.eqb Bool.eqb andb];
    unfold tryCatch, ioBind, lift, ioRet;
    rewrite Hbody; cbv zeta; rewrite !Hk;
    rewrite (getProp_notNullish parsed) by exact Hn; rewrite Hs;
    unfold LLMProxyService.makeProviderRequest, fetch;
    cbn [String.eqb Ascii.eqb Bool.eqb andb negb Provider.name Provider.baseUrl];
    rewrite Hnet by reflexivity; rewrite Hok; cbn [negb];
    rewrite Hans; now split.
Qed.

(** ** Chunk boundaries *)

Lemma append_empty (s : string) : (s ++ "")%string = s.
Proof. induction s; cbn; [ reflexivity | now rewrite IHs ]. Qed.

Lemma append_associative (a b c : string) :
  ((a ++ b) ++ c)%string = (a ++ b ++ c)%string.
Proof. induction a; cbn; [ reflexivity | now rewrite IHa ]. Qed.

Lemma split_not_nil (s : string) : split s <> [].
Proof.
  destruct s as [ | c r ]; cbn; [ discriminate | ].
  destruct (Ascii.eqb c LF); [ discriminate | ].
  destruct (split r); discriminate.
Qed.

(* The last piece of a split holds no line feed. *)
Lemma split_last_piece (s : string) :
  split (last (split s) "") = [ last (split s) "" ].
Proof.
  induction s as [ | c r IH ]; [ reflexivity | ].
  cbn [split]. destruct (Ascii.eqb c LF) eqn:Ec.
  - destruct (split r) eqn:Er; [ now destruct (split_not_nil r) | exact IH ].
  - destruct (split r) as [ | h [ | h' t ] ] eqn:Er.
    + now destruct (split_not_nil r).
    + cbn [last] in *. cbn [split]. now rewrite Ec, IH.
    + exact IH.
Qed.

(* Splitting a text that continues: only the last piece is affected. *)
Lemma split_append (a b : string) :
  split (a ++ b) = removelast (split a) ++ split (last (split a) "" ++ b).
Proof.
  induction a as [ | c r IH ]; [ reflexivity | ].
  cbn [append split]. destruct (Ascii.eqb c LF) eqn:Ec.
  - rewrite IH. destruct (split r) eqn:Er; [ now destruct (split_not_nil r) | ].
    reflexivity.
  - rewrite IH. destruct (split r) as [ | h [ | h' t ] ] eqn:Er.
    + now destruct (split_not_nil r).
    + cbn [removelast last app append split]. now rewrite Ec.
    + reflexivity.
Qed.

Lemma forEachLine_app (P : Platform) (l1 l2 : list string) :
  forall s,
  Legacy.forEachLine P (l1 ++ l2) s
  = match Legacy.forEachLine P l1 s with
    | Legacy.Continue s' => Legacy.forEachLine P l2 s'
    | Legacy.Return s' => Legacy.Return s'
    end.
Proof.
  induction l1 as [ | l t IH ]; intros s; cbn [app Legacy.forEachLine];
    [ reflexivity | ].
  destruct (Legacy.processLine P l s); [ apply IH | reflexivity ].
Qed.

(* A failed read ends the stream in error; nothing is enqueued for it. *)
Lemma transport_error_emits_nothing (P : Platform) (rest : list ReadStep)
  (buffer : string) (s : Sink Event) :
  enqueued (Legacy.readLoop P (ReadError :: rest) buffer s) = enqueued s
  /\ status (Legacy.readLoop P (ReadError :: rest) buffer s) = Errored.
Proof. split; reflexivity. Qed.

Lemma readLoop_lines (P : Platform) (texts : list string) :
  forall (buffer : string) (s : Sink Event),
  split buffer = [ buffer ] ->
  Legacy.readLoop P (map Chunk texts) buffer s
  = sinkOf (Legacy.forEachLine P
              (removelast (split (buffer ++ received texts))) s).
Proof.
  induction texts as [ | text rest IH ]; intros buffer s Hb.
  - cbn [map Legacy.readLoop received fold_right]. now rewrite append_empty, Hb.
  - cbn [map Legacy.readLoop received fold_right]. fold (received rest).
    rewrite <- append_associative.
    rewrite (split_append (buffer ++ text) (received rest)).
    rewrite removelast_app by apply split_not_nil.
    rewrite forEachLine_app.
    destruct (Legacy.forEachLine P (removelast (split (buffer ++ text))) s)
      as [ s' | s' ]; [ | reflexivity ].
    apply IH, split_last_piece.
Qed.

(** However the provider's text is cut into chunks, [processStream] runs
    the line loop over the complete lines of the whole text, in order; what
    follows the last line feed is never looked at. *)
Theorem readLoop_complete_lines (P : Platform) (texts : list string) :
  forall (buffer : string) (s : Sink Event),
  split buffer = [ buffer ] ->
  Legacy.readLoop P (map Chunk texts) buffer s
  = sinkOf (Legacy.forEachLine P
              (removelast (split (buffer ++ received texts))) s).
Proof.
  exact (readLoop_lines P texts).
Qed.

Lemma readLoop_complete_lines_witness :
  Legacy.readLoop MiniJSON.runtime
    (map Chunk [ "data: {'cho"; ("ices':1}" ++ NL ++ "data: [DO")%string;
                 ("NE]" ++ NL ++ "data: later")%string ]) "" emptySink
  = sinkOf (Legacy.forEachLine MiniJSON.runtime
      (removelast (split ("" ++ received
         [ "data: {'cho"; ("ices':1}" ++ NL ++ "data: [DO")%string;
           ("NE]" ++ NL ++ "data: later")%string ]))) emptySink).
Proof.
  apply (readLoop_complete_lines MiniJSON.runtime). reflexivity.
Defined.

Lemma service_same_provider_reserializes_witness :
  let run := LLMProxyService.handleConversionRequest MiniJSON.runtime
               (replies spacedReply) "r" proxied noKeys "anthropic" "anthropic"
               "messages" newWorld in
  map fetchBody (calls (fst run))
  = [ stringifyText MiniJSON.runtime
        (JSObject
           [ ("model", str "claude-sonnet-4"); ("max_tokens", num 1000);
             ("messages", JSArray
                [ JSObject [ ("role", str "user"); ("content", str "Hello") ] ]) ]) ]
  /\ snd run
     = Normal (jsonResponse 200
         (Text (stringifyText MiniJSON.runtime
            (JSObject
               [ ("id", str "msg_1"); ("type", str "message");
                 ("content", JSArray [ textBlock (str "Hi") ]) ])))).
Proof.
  apply (service_same_provider_reserializes MiniJSON.runtime (replies spacedReply)
           "r" proxied noKeys "anthropic" "messages" "Bearer sk-test" _ _
           {| upStatus := 200; upBody := Some [ Chunk spacedReply ] |});
    try reflexivity.
  now left.
Defined.

(** ** The scenario of the specification *)

(* [claude-sonnet-4], one user message, [max_tokens] 1000, from the Claude
   format to the OpenAI-compatible provider: the payload carries the mapped
   model, the messages, 1000 and the default temperature; the answer comes
   back as a Claude message whose stop reason is [end_turn] although the
   provider reported [length]. *)
Example anthropic_to_openrouter_scenario :
  let run := LLMProxyService.handleConversionRequest MiniJSON.runtime
               (replies truncatedReplyText) "r" converted noKeys "anthropic"
               "openrouter" "messages" newWorld in
  calls (fst run)
  = [ {| url := "https://openrouter.ai/api/v1/chat/completions";
         headers := [ ("Authorization", "Bearer sk-or-test");
                      ("Content-Type", "application/json");
                      ("HTTP-Referer", "https://llm-proxy.workers.dev");
                      ("X-Title", "LLM Proxy Service") ];
         fetchBody := MiniJSON.json
           "{'model':'anthropic/claude-sonnet-4','messages':[{'role':'user','content':'Hello'}],'max_tokens':1000,'temperature':0.7,'stream':false}" |} ]
  /\ snd run
     = Normal (jsonResponse 200 (Text (MiniJSON.json
         "{'id':'gen-1','type':'message','role':'assistant','content':[{'type':'text','text':'Hello'}],'stop_reason':'end_turn','stop_sequence':null,'usage':{'input_tokens':5,'output_tokens':1000}}"))).
Proof. cbv zeta. split; vm_compute; reflexivity. Qed.

(** ** Tool definitions *)

Lemma tool_definition_lowering (name description input_schema : JSValue)
  (others : list (string * JSValue)) :
  OpenRouterTransformer.toolToOpenAI
    (JSObject (("name", name) :: ("description", description)
               :: ("input_schema", input_schema) :: others))
  = Normal (JSObject
      [ ("type", str "function");
        ("function", JSObject [ ("name", name); ("description", description);
                                ("parameters", input_schema) ]) ]).
Proof. reflexivity. Qed.

Lemma absent_tools_stay_absent :
  OpenRouterTransformer.transformToolsToOpenAI JSUndefined = Normal JSUndefined.
Proof. reflexivity. Qed.

(** ** One call per request *)

Lemma nothing_ret {A} (a : A) : callsNothing (ioRet a).
Proof. now intros w. Qed.

Lemma nothing_lift {A} (c : Completion A) : callsNothing (lift c).
Proof. now intros w. Qed.

Lemma nothing_log (entry : LogEntry) : callsNothing (log entry).
Proof. now intros w. Qed.

Lemma nothing_bind {A B} (c : IO A) (k : A -> IO B) :
  callsNothing c -> (forall a, callsNothing (k a)) -> callsNothing (ioBind c k).
Proof.
  intros Hc Hk w. unfold ioBind. specialize (Hc w).
  destruct (c w) as [ w' [ a | e ] ]; cbn in *; [ | exact Hc ].
  now rewrite Hk.
Qed.

Lemma once_nothing {A} (c : IO A) : callsNothing c -> callsAtMostOnce c.
Proof.
  intros H w. exists []. rewrite app_nil_r. split; [ apply H | cbn; lia ].
Qed.

Lemma once_fetch (net : Network) (init : FetchInit) : callsAtMostOnce (fetch net init).
Proof. intros w. exists [ init ]. split; [ reflexivity | cbn; lia ]. Qed.

Lemma once_bind_before {A B} (c : IO A) (k : A -> IO B) :
  callsNothing c -> (forall a, callsAtMostOnce (k a)) -> callsAtMostOnce (ioBind c k).
Proof.
  intros Hc Hk w. unfold ioBind. specialize (Hc w).
  destruct (c w) as [ w' [ a | e ] ]; cbn in *.
  - destruct (Hk a w') as (extra & He & Hl). exists extra. now rewrite He, Hc.
  - exists []. rewrite app_nil_r. split; [ exact Hc | cbn; lia ].
Qed.

Lemma once_bind_after {A B} (c : IO A) (k : A -> IO B) :
  callsAtMostOnce c -> (forall a, callsNothing (k a)) -> callsAtMostOnce (ioBind c k).
Proof.
  intros Hc Hk w. unfold ioBind. destruct (Hc w) as (extra & He & Hl).
  destruct (c w) as [ w' [ a | e ] ]; cbn in *; exists extra.
  - now rewrite Hk.
  - now split.
Qed.

Lemma once_tryCatch {A} (c : IO A) (handler : JSError -> IO A) :
  callsAtMostOnce c -> (forall e, callsNothing (handler e)) ->
  callsAtMostOnce (tryCatch c handler).
Proof.
  intros Hc Hh w. unfold tryCatch. destruct (Hc w) as (extra & He & Hl).
  destruct (c w) as [ w' [ a | e ] ]; cbn in *; exists extra.
  - now split.
  - now rewrite Hh.
Qed.

(* Splits the conditionals of a handler and settles the pieces that make
   no call. *)
Ltac quiet :=
  repeat first
    [ apply nothing_ret
    | apply nothing_lift
    | apply nothing_log
    | apply nothing_bind; [ | intros ]
    | match goal with
      | |- callsNothing (if ?b then _ else _) => destruct b
      | |- callsNothing (match ?x with _ => _ end) => destruct x
      end ].

Lemma makeProviderRequest_once (P : Platform) (net : Network) (provider : Provider.t)
  (requestData : JSValue) (apiKey subPath : string) :
  callsAtMostOnce
    (LLMProxyService.makeProviderRequest P net provider requestData apiKey subPath).
Proof. apply once_fetch. Qed.

Lemma handleStreamingRequest_once (P : Platform) (net : Network) (rnd : string)
  (requestBody : JSValue) (source target : BaseTransformer) (provider : Provider.t)
  (apiKey subPath : string) :
  callsAtMostOnce
    (LLMProxyService.handleStreamingRequest P net rnd requestBody source target
       provider apiKey subPath).
Proof.
  unfold LLMProxyService.handleStreamingRequest.
  apply once_bind_before; [ quiet | intros transformed ].
  apply once_bind_after; [ apply makeProviderRequest_once | intros response ].
  quiet.
Qed.

(** The conversion service makes at most one call to a provider for a
    request, whatever the request, the providers named and the provider's
    answer: there is no retry. *)
Theorem handleConversionRequest_once (P : Platform) (net : Network) (rnd : string)
  (request : Request) (env : Env) (source target subPath : string) :
  (length (calls (fst (LLMProxyService.handleConversionRequest P net rnd request env
                         source target subPath newWorld))) <= 1)%nat.
Proof.
  assert (H : callsAtMostOnce
                (LLMProxyService.handleConversionRequest P net rnd request env
                   source target subPath)).
  { unfold LLMProxyService.handleConversionRequest.
    destruct (negb _); [ apply once_nothing; quiet | ].
    destruct (LLMProxyService.transformers P source) as [ s | ];
      [ | apply once_nothing; quiet ].
    destruct (LLMProxyService.transformers P target) as [ t | ];
      [ | apply once_nothing; quiet ].
    destruct (LLMProxyService.providers target) as [ cfg | ];
      [ | apply once_nothing; quiet ].
    apply once_tryCatch; [ | intros e; quiet ].
    apply once_bind_before; [ quiet | intros requestBody ]. cbv zeta.
    match goal with |- callsAtMostOnce (if ?b then _ else _) => destruct b end;
      [ apply once_nothing; quiet | ].
    apply once_bind_before; [ quiet | intros stream ].
    destruct (truthy stream); [ apply handleStreamingRequest_once | ].
    apply once_bind_before; [ quiet | intros transformed ].
    apply once_bind_after; [ apply makeProviderRequest_once | intros response ].
    quiet. }
  destruct (H newWorld) as (extra & He & Hl). now rewrite He.
Qed.

(** ** The route pattern *)


Lemma prefix_empty (s : string) : String.prefix "" s = true.
Proof. now destruct s. Qed.

Lemma prefix_cons (a b : ascii) (p s : string) :
  String.prefix (String a p) (String b s) = Ascii.eqb a b && String.prefix p s.
Proof.
  cbn. destruct (ascii_dec a b) as [ -> | Hn ].
  - now rewrite Ascii.eqb_refl.
  - apply Ascii.eqb_neq in Hn. now rewrite Hn.
Qed.

Lemma startsWith_append (p rest : string) : startsWith (p ++ rest) p = true.
Proof.
  unfold startsWith. induction p as [ | a p IH ]; cbn [String.append].
  - apply prefix_empty.
  - now rewrite prefix_cons, Ascii.eqb_refl, IH.
Qed.

Lemma slice_append (p rest : string) : slice (String.length p) (p ++ rest) = rest.
Proof. induction p as [ | a p IH ]; [ reflexivity | exact IH ]. Qed.

Lemma startsWith_split (p s : string) :
  startsWith s p = true -> s = (p ++ slice (String.length p) s)%string.
Proof.
  unfold startsWith. revert s. induction p as [ | a p IH ]; intros s H.
  - reflexivity.
  - destruct s as [ | b s ]; [ discriminate | ].
    rewrite prefix_cons in H. apply andb_prop in H as [ Hab Hp ].
    apply Ascii.eqb_eq in Hab. subst b. cbn. f_equal. now apply IH.
Qed.

Lemma removeFirst_prefix (p rest : string) : removeFirst p (p ++ rest) = rest.
Proof.
  assert (H : forall s, removeFirst p s
              = if String.prefix p s then slice (String.length p) s
                else match s with
                     | EmptyString => s
                     | String c r => String c (removeFirst p r)
                     end) by now intros [ | c r ].
  rewrite H. change (String.prefix p (p ++ rest)) with (startsWith (p ++ rest) p).
  rewrite startsWith_append. apply slice_append.
Qed.

Lemma word_append (w rest : string) :
  forallb Router.wordChar (list_ascii_of_string w) = true ->
  wordAhead rest = false ->
  Router.word (w ++ rest) = (w, rest).
Proof.
  intros Hw Hr. induction w as [ | c w IH ]; cbn in *.
  - destruct rest as [ | c r ]; [ reflexivity | ]. cbn in *. now rewrite Hr.
  - apply andb_prop in Hw as [ Hc Hw ]. now rewrite Hc, IH.
Qed.

Lemma word_split (s w rest : string) :
  Router.word s = (w, rest) ->
  s = (w ++ rest)%string
  /\ forallb Router.wordChar (list_ascii_of_string w) = true
  /\ wordAhead rest = false.
Proof.
  revert w rest. induction s as [ | c s IH ]; intros w rest H; cbn in H.
  - inversion H. now subst.
  - destruct (Router.wordChar c) eqn:Hc.
    + destruct (Router.word s) as [ w' rest' ]. inversion H. subst.
      destruct (IH w' rest eq_refl) as (-> & Hw & Hr). cbn. now rewrite Hc.
    + inversion H. subst. cbn. now rewrite Hc.
Qed.

Lemma matchPath_sound (pathname source target : string)
  (subPath : option string) :
  Router.matchPath pathname = Some (source, target, subPath) ->
  pathname = conversionPath source target subPath
  /\ wordy source = true /\ wordy target = true /\ oneLine subPath = true.
Proof.
  unfold Router.matchPath. intros H.
  destruct (startsWith pathname "/from-") eqn:H1; [ | discriminate ].
  apply startsWith_split in H1.
  destruct (Router.word (slice 6 pathname)) as [ s afterSource ] eqn:Hs.
  change (String.length "/from-") with 6%nat in H1.
  apply word_split in Hs as (Hs & Hws & _).
  destruct (isEmpty s) eqn:Es; [ discriminate | ].
  destruct (startsWith afterSource "/to-") eqn:H2; [ | discriminate ].
  apply startsWith_split in H2.
  change (String.length "/to-") with 4%nat in H2.
  destruct (Router.word (slice 4 afterSource)) as [ t afterTarget ] eqn:Ht.
  apply word_split in Ht as (Ht & Hwt & _).
  destruct (isEmpty t) eqn:Et; [ discriminate | ].
  assert (Hp : pathname = ("/from-" ++ s ++ "/to-" ++ t ++ afterTarget)%string).
  { rewrite H1 at 1. rewrite Hs. rewrite H2 at 1. now rewrite Ht. }
  destruct afterTarget as [ | c rest ].
  - inversion H. subst source target subPath.
    unfold wordy. rewrite Es, Et, Hws, Hwt. now repeat split.
  - destruct (Ascii.eqb c "/") eqn:Ec; [ | discriminate ].
    destruct (Router.dotStarToEnd rest) eqn:Ed; [ | discriminate ].
    cbn in H. inversion H. subst source target subPath.
    apply Ascii.eqb_eq in Ec. subst c.
    unfold wordy. rewrite Es, Et, Hws, Hwt. now repeat split.
Qed.

Lemma matchPath_complete (source target : string) (subPath : option string) :
  wordy source = true -> wordy target = true -> oneLine subPath = true ->
  Router.matchPath (conversionPath source target subPath)
  = Some (source, target, subPath).
Proof.
  intros Hs Ht Hsub. unfold wordy in Hs, Ht.
  apply andb_prop in Hs as [ Es Hs ]. apply andb_prop in Ht as [ Et Ht ].
  apply negb_true_iff in Es, Et.
  unfold Router.matchPath, conversionPath.
  rewrite startsWith_append.
  change 6%nat with (String.length "/from-"). rewrite slice_append.
  rewrite (word_append source) by (try assumption; reflexivity).
  rewrite Es, startsWith_append.
  change 4%nat with (String.length "/to-"). rewrite slice_append.
  rewrite (word_append target)
    by (try assumption; destruct subPath; reflexivity).
  rewrite Et. destruct subPath as [ rest | ]; cbn in *; [ | reflexivity ].
  now rewrite Hsub.
Qed.

(** The route pattern accepts exactly the paths [/from-SOURCE/to-TARGET]
    and [/from-SOURCE/to-TARGET/REST] in which SOURCE and TARGET are
    non-empty runs of word characters and REST has no line terminator, and
    it yields these very parts. *)
Theorem matchPath_conversionPath (pathname source target : string)
  (subPath : option string) :
  Router.matchPath pathname = Some (source, target, subPath)
  <-> pathname = conversionPath source target subPath
      /\ wordy source = true /\ wordy target = true /\ oneLine subPath = true.
Proof.
  split; [ apply matchPath_sound | ].
  intros (-> & Hs & Ht & Hsub). now apply matchPath_complete.
Qed.

(** ** No exception leaves an entry point *)

Lemma answers_ret {A} (a : A) : answers (ioRet a).
Proof. intros w. now exists a. Qed.

Lemma answers_bind {A B} (c : IO A) (k : A -> IO B) :
  answers c -> (forall a, answers (k a)) -> answers (ioBind c k).
Proof.
  intros Hc Hk w. unfold ioBind. destruct (Hc w) as (a & Ha).
  destruct (c w) as [ w' r ]. cbn in Ha. subst r. apply Hk.
Qed.

Lemma answers_log (entry : LogEntry) : answers (log entry).
Proof. intros w. now exists tt. Qed.

Lemma answers_tryCatch {A} (c : IO A) (handler : JSError -> IO A) :
  (forall e, answers (handler e)) -> answers (tryCatch c handler).
Proof.
  intros Hh w. unfold tryCatch. destruct (c w) as [ w' [ a | e ] ].
  - now exists a.
  - apply Hh.
Qed.

Lemma answers_failure (entry : JSError -> LogEntry) (e : JSError) :
  answers (_ <~ log (entry e) ;; ioRet (jsonResponse 500 (Failure e))).
Proof. apply answers_bind; [ apply answers_log | intros; apply answers_ret ]. Qed.

Lemma handleConversionRequest_answers (P : Platform) (net : Network) (rnd : string)
  (request : Request) (env : Env) (source target subPath : string) :
  answers (LLMProxyService.handleConversionRequest P net rnd request env
             source target subPath).
Proof.
  unfold LLMProxyService.handleConversionRequest.
  destruct (negb _); [ apply answers_ret | ].
  destruct (LLMProxyService.transformers P source); [ | apply answers_ret ].
  destruct (LLMProxyService.transformers P target); [ | apply answers_ret ].
  destruct (LLMProxyService.providers target); [ | apply answers_ret ].
  apply answers_tryCatch. intros e.
  apply (answers_failure (LogConversionError source target)).
Qed.

(** Whatever the request, the environment and the provider's behaviour, the
    service's entry point ends with a response: an exception raised while a
    request is handled is turned into a response. *)
Theorem service_always_answers (P : Platform) (net : Network) (rnd : string)
  (request : Request) (env : Env) (w : World) :
  exists response,
    snd (Router.handleRequest P net rnd request env w) = Normal response.
Proof.
  revert w. change (answers (Router.handleRequest P net rnd request env)).
  unfold Router.handleRequest.
  destruct (String.eqb _ _); [ apply answers_ret | ].
  apply answers_tryCatch. intros e. apply (answers_failure LogError).
Qed.

(** The same holds of both single-file workers. *)
Theorem workers_always_answer (P : Platform) (net : Network) (rnd : nat -> string)
  (request : Request) (w : World) :
  (exists response, snd (Legacy.worker P net rnd request w) = Normal response)
  /\ (exists response, snd (Buffered.worker P net rnd request w) = Normal response).
Proof.
  split; revert w.
  - change (answers (Legacy.worker P net rnd request)). unfold Legacy.worker.
    destruct (String.eqb _ _); [ apply answers_ret | ].
    apply answers_tryCatch. intros e. apply (answers_failure LogError).
  - change (answers (Buffered.worker P net rnd request)). unfold Buffered.worker.
    destruct (String.eqb _ _); [ apply answers_ret | ].
    apply answers_tryCatch. intros e. apply (answers_failure LogError).
Qed.

(** ** Requests that reach no provider *)

Lemma nothing_tryCatch {A} (c : IO A) (handler : JSError -> IO A) :
  callsNothing c -> (forall e, callsNothing (handler e)) ->
  callsNothing (tryCatch c handler).
Proof.
  intros Hc Hh w. unfold tryCatch. specialize (Hc w).
  destruct (c w) as [ w' [ a | e ] ]; cbn in *; [ exact Hc | ].
  now rewrite Hh.
Qed.

Lemma not_post (request : Request) :
  method request <> "POST" -> negb (String.eqb (method request) "POST") = true.
Proof. intros H. apply String.eqb_neq in H. now rewrite H. Qed.

(** Only a POST request makes an entry point call a provider: with any
    other method the conversion service and both workers answer without a
    single [fetch]. *)
Theorem only_post_reaches_a_provider (P : Platform) (net : Network)
  (rnd : nat -> string) (request : Request) (env : Env) (w : World) :
  method request <> "POST" ->
  calls (fst (Router.handleRequest P net (rnd 0%nat) request env w)) = calls w
  /\ calls (fst (Legacy.worker P net rnd request w)) = calls w
  /\ calls (fst (Buffered.worker P net rnd request w)) = calls w.
Proof.
  intros H. apply not_post in H. repeat split; revert w.
  - change (callsNothing (Router.handleRequest P net (rnd 0%nat) request env)).
    unfold Router.handleRequest, LLMProxyService.handleConversionRequest.
    rewrite H. quiet. apply nothing_tryCatch; quiet.
  - change (callsNothing (Legacy.worker P net rnd request)).
    unfold Legacy.worker, Legacy.handleClaudeToOpenRouter, Legacy.handleClaudeProxy.
    rewrite H. quiet. apply nothing_tryCatch; quiet.
  - change (callsNothing (Buffered.worker P net rnd request)).
    unfold Buffered.worker, Buffered.handleClaudeToOpenRouter,
      Buffered.handleClaudeProxy.
    rewrite H. quiet. apply nothing_tryCatch; quiet.
Qed.

Lemma only_post_reaches_a_provider_witness :
  let request := {| method := "GET"; pathname := "/from-anthropic/to-openrouter";
                    authorization := Some "Bearer sk-test"; referer := None;
                    reqBody := helloBody |} in
  calls (fst (Router.handleRequest MiniJSON.runtime (replies spacedReply) "r"
                request noKeys newWorld)) = []
  /\ calls (fst (Legacy.worker MiniJSON.runtime (replies spacedReply) (fun _ => "r")
                   request newWorld)) = []
  /\ calls (fst (Buffered.worker MiniJSON.runtime (replies spacedReply) (fun _ => "r")
                   request newWorld)) = [].
Proof.
  apply (only_post_reaches_a_provider MiniJSON.runtime (replies spacedReply)
           (fun _ => "r")
           {| method := "GET"; pathname := "/from-anthropic/to-openrouter";
              authorization := Some "Bearer sk-test"; referer := None;
              reqBody := helloBody |} noKeys newWorld).
  discriminate.
Defined.

(** ** What a call to a provider carries *)

Lemma every_nothing {A} (Q : FetchInit -> Prop) (c : IO A) :
  callsNothing c -> everyCall Q c.
Proof. intros H w. exists []. rewrite app_nil_r. split; [ apply H | constructor ]. Qed.

Lemma every_fetch (Q : FetchInit -> Prop) (net : Network) (init : FetchInit) :
  Q init -> everyCall Q (fetch net init).
Proof. intros H w. exists [ init ]. split; [ reflexivity | now repeat constructor ]. Qed.

Lemma every_bind {A B} (Q : FetchInit -> Prop) (c : IO A) (k : A -> IO B) :
  everyCall Q c -> (forall a, everyCall Q (k a)) -> everyCall Q (ioBind c k).
Proof.
  intros Hc Hk w. unfold ioBind. destruct (Hc w) as (x & Hx & Qx).
  destruct (c w) as [ w' [ a | e ] ]; cbn in *.
  - destruct (Hk a w') as (y & Hy & Qy). exists (x ++ y).
    rewrite Hy, Hx, app_assoc. split; [ reflexivity | now apply Forall_app ].
  - now exists x.
Qed.

Lemma every_tryCatch {A} (Q : FetchInit -> Prop) (c : IO A)
  (handler : JSError -> IO A) :
  everyCall Q c -> (forall e, everyCall Q (handler e)) ->
  everyCall Q (tryCatch c handler).
Proof.
  intros Hc Hh w. unfold tryCatch. destruct (Hc w) as (x & Hx & Qx).
  destruct (c w) as [ w' [ a | e ] ]; cbn in *.
  - now exists x.
  - destruct (Hh e w') as (y & Hy & Qy). exists (x ++ y).
    rewrite Hy, Hx, app_assoc. split; [ reflexivity | now apply Forall_app ].
Qed.

Lemma every_run {A} (Q : FetchInit -> Prop) (c : IO A) :
  everyCall Q c -> Forall Q (calls (fst (c newWorld))).
Proof. intros H. destruct (H newWorld) as (x & Hx & Qx). now rewrite Hx. Qed.

(* Walks through a handler whose calls all come from one [fetch] that is
   settled by [tac]. *)
Ltac calls_by tac :=
  repeat first
    [ apply every_nothing; solve [ quiet ]
    | tac
    | apply every_bind; [ | intros ]
    | apply every_tryCatch; [ | intros ]
    | match goal with
      | |- everyCall _ (if ?b then _ else _) => destruct b
      | |- everyCall _ (match ?x with _ => _ end) => destruct x
      end ].

Lemma providers_name (target : string) (provider : Provider.t) :
  LLMProxyService.providers target = Some provider ->
  Provider.name provider = target
  /\ (target = "anthropic" \/ target = "openrouter").
Proof.
  unfold LLMProxyService.providers.
  destruct (String.eqb target "anthropic") eqn:Ea.
  - apply String.eqb_eq in Ea. intros H. inversion H. subst. cbn. split; auto.
  - destruct (String.eqb target "openrouter") eqn:Eo; [ | discriminate ].
    apply String.eqb_eq in Eo. intros H. inversion H. subst. cbn. split; auto.
Qed.

Lemma makeProviderRequest_call (P : Platform) (net : Network) (target : string)
  (provider : Provider.t) (requestData : JSValue) (apiKey subPath : string) :
  LLMProxyService.providers target = Some provider ->
  exists init,
    LLMProxyService.makeProviderRequest P net provider requestData apiKey subPath
    = fetch net init
    /\ url init = endpointOf target
    /\ header "Authorization" init = Some ("Bearer " ++ apiKey)%string
    /\ header "Content-Type" init = Some "application/json"
    /\ fetchBody init = stringifyText P requestData.
Proof.
  unfold LLMProxyService.providers, LLMProxyService.makeProviderRequest.
  destruct (String.eqb target "anthropic") eqn:Ea.
  - apply String.eqb_eq in Ea. intros H. inversion H. subst. cbn.
    eexists. split; [ reflexivity | ]. now repeat split.
  - destruct (String.eqb target "openrouter") eqn:Eo; [ | discriminate ].
    apply String.eqb_eq in Eo. intros H. inversion H. subst. cbn.
    eexists. split; [ reflexivity | ]. now repeat split.
Qed.

Lemma handleConversionRequest_calls (Q : FetchInit -> Prop) (P : Platform)
  (net : Network) (rnd : string) (request : Request) (env : Env)
  (source target subPath : string) :
  (forall provider requestData apiKey,
     LLMProxyService.providers target = Some provider ->
     (apiKey = match authorization request with
               | Some authHeader =>
                   let k := removeFirst "Bearer " authHeader in
                   if isEmpty k then LLMProxyService.getApiKey target env else k
               | None => LLMProxyService.getApiKey target env
               end) ->
     everyCall Q
       (LLMProxyService.makeProviderRequest P net provider requestData apiKey
          subPath)) ->
  everyCall Q
    (LLMProxyService.handleConversionRequest P net rnd request env source target
       subPath).
Proof.
  intros Hcall. unfold LLMProxyService.handleConversionRequest.
  destruct (negb _); [ apply every_nothing; quiet | ].
  destruct (LLMProxyService.transformers P source) as [ s | ];
    [ | apply every_nothing; quiet ].
  destruct (LLMProxyService.transformers P target) as [ t | ];
    [ | apply every_nothing; quiet ].
  destruct (LLMProxyService.providers target) as [ cfg | ] eqn:Hcfg;
    [ | apply every_nothing; quiet ].
  specialize (fun d k => Hcall cfg d k eq_refl).
  apply every_tryCatch; [ | intros e; apply every_nothing; quiet ].
  apply every_bind; [ apply every_nothing; quiet | intros requestBody ]. cbv zeta.
  match goal with |- everyCall _ (if ?b then _ else _) => destruct b end;
    [ apply every_nothing; quiet | ].
  apply every_bind; [ apply every_nothing; quiet | intros stream ].
  destruct (truthy stream).
  - unfold LLMProxyService.handleStreamingRequest.
    apply every_bind; [ apply every_nothing; quiet | intros transformed ].
    apply every_bind; [ now apply Hcall | intros response ].
    apply every_nothing; quiet.
  - apply every_bind; [ apply every_nothing; quiet | intros transformed ].
    apply every_bind; [ now apply Hcall | intros response ].
    apply every_nothing; quiet.
Qed.

(** Every call the conversion service makes goes to the endpoint of the
    target provider named in the path; nothing else of the request, the
    sub-path included, has a part in the address. *)
Theorem calls_go_to_the_target_provider (P : Platform) (net : Network)
  (rnd : string) (request : Request) (env : Env)
  (source target subPath : string) :
  Forall (fun call => url call = endpointOf target
                      /\ (target = "anthropic" \/ target = "openrouter"))
    (calls (fst (LLMProxyService.handleConversionRequest P net rnd request env
                   source target subPath newWorld))).
Proof.
  apply every_run, handleConversionRequest_calls.
  intros provider requestData apiKey Hp _.
  destruct (makeProviderRequest_call P net target provider requestData apiKey
              subPath Hp) as (init & -> & Hurl & _).
  apply every_fetch. split; [ exact Hurl | ]. now apply providers_name in Hp.
Qed.

(** A key sent by the client in a Bearer authorization header is the key
    every call to the provider carries, whatever keys the environment
    holds. *)
Theorem client_key_takes_precedence (P : Platform) (net : Network)
  (rnd : string) (request : Request) (env : Env)
  (source target subPath key : string) :
  authorization request = Some ("Bearer " ++ key)%string ->
  key <> "" ->
  Forall (fun call => header "Authorization" call = Some ("Bearer " ++ key)%string)
    (calls (fst (LLMProxyService.handleConversionRequest P net rnd request env
                   source target subPath newWorld))).
Proof.
  intros Ha Hk. apply every_run, handleConversionRequest_calls.
  intros provider requestData apiKey Hp ->. rewrite Ha. cbv zeta.
  rewrite removeFirst_prefix.
  destruct key as [ | c key ]; [ contradiction | ]. cbn [isEmpty].
  destruct (makeProviderRequest_call P net target provider requestData
              (String c key) subPath Hp) as (init & -> & _ & Hauth & _).
  now apply every_fetch.
Qed.

Lemma client_key_takes_precedence_witness :
  Forall (fun call => header "Authorization" call = Some "Bearer sk-or-test")
    (calls (fst (LLMProxyService.handleConversionRequest MiniJSON.runtime
                   (replies truncatedReplyText) "r" converted
                   {| OPENROUTER_API_KEY := Some "sk-env";
                      ANTHROPIC_API_KEY := None |}
                   "anthropic" "openrouter" "messages" newWorld))).
Proof.
  apply (client_key_takes_precedence MiniJSON.runtime (replies truncatedReplyText)
           "r" converted
           {| OPENROUTER_API_KEY := Some "sk-env"; ANTHROPIC_API_KEY := None |}
           "anthropic" "openrouter" "messages" "sk-or-test").
  - reflexivity.
  - discriminate.
Defined.

(** ** Requests the service turns down *)

Lemma transformers_known (P : Platform) (key : string) :
  (key = "anthropic" \/ key = "openrouter") ->
  exists T, LLMProxyService.transformers P key = Some T /\ name T = key.
Proof. intros [ -> | -> ]; eexists; split; reflexivity. Qed.

Lemma transformers_unknown (P : Platform) (key : string) :
  key <> "anthropic" -> key <> "openrouter" ->
  LLMProxyService.transformers P key = None.
Proof.
  intros Ha Ho. unfold LLMProxyService.transformers.
  apply String.eqb_neq in Ha, Ho. now rewrite Ha, Ho.
Qed.

Lemma providers_known (key : string) :
  (key = "anthropic" \/ key = "openrouter") ->
  exists provider, LLMProxyService.providers key = Some provider.
Proof. intros [ -> | -> ]; eexists; reflexivity. Qed.

Lemma providers_unknown (key : string) :
  key <> "anthropic" -> key <> "openrouter" ->
  LLMProxyService.providers key = None.
Proof.
  intros Ha Ho. unfold LLMProxyService.providers.
  apply String.eqb_neq in Ha, Ho. now rewrite Ha, Ho.
Qed.

Lemma handleRequest_post (P : Platform) (net : Network) (rnd : string)
  (request : Request) (env : Env) (source target : string)
  (subPath : option string) :
  method request = "POST" ->
  Router.matchPath (pathname request) = Some (source, target, subPath) ->
  Router.handleRequest P net rnd request env
  = tryCatch
      (LLMProxyService.handleConversionRequest P net rnd request env source target
         (Router.subPathOr subPath))
      (fun e => _ <~ log (LogError e) ;; ioRet (jsonResponse 500 (Failure e))).
Proof.
  intros Hm Hp. unfold Router.handleRequest. now rewrite Hm, Hp.
Qed.

(** A POST to a conversion path that names a provider the service does not
    know is answered 400, before the body is read and without a call. *)
Theorem unknown_provider_is_rejected (P : Platform) (net : Network) (rnd : string)
  (request : Request) (env : Env) (source target : string)
  (subPath : option string) (w : World) :
  method request = "POST" ->
  Router.matchPath (pathname request) = Some (source, target, subPath) ->
  (source <> "anthropic" /\ source <> "openrouter")
  \/ (target <> "anthropic" /\ target <> "openrouter") ->
  Router.handleRequest P net rnd request env w
  = (w, Normal (jsonResponse 400
       (ErrorMessage ("Invalid provider combination: " ++ source ++ " -> "
                      ++ target)))).
Proof.
  intros Hm Hp Hu. rewrite (handleRequest_post _ _ _ _ _ _ _ _ Hm Hp).
  unfold LLMProxyService.handleConversionRequest. rewrite Hm.
  change (negb (String.eqb "POST" "POST")) with false. cbv iota.
  destruct Hu as [ [ Ha Ho ] | [ Ha Ho ] ].
  - now rewrite (transformers_unknown P source Ha Ho).
  - rewrite (transformers_unknown P target Ha Ho).
    now destruct (LLMProxyService.transformers P source).
Qed.

Lemma unknown_provider_is_rejected_witness :
  Router.handleRequest MiniJSON.runtime (replies spacedReply) "r"
    {| method := "POST"; pathname := "/from-anthropic/to-openai/v1/messages";
       authorization := Some "Bearer sk-test"; referer := None;
       reqBody := helloBody |} noKeys newWorld
  = (newWorld, Normal (jsonResponse 400
       (ErrorMessage "Invalid provider combination: anthropic -> openai"))).
Proof.
  apply (unknown_provider_is_rejected MiniJSON.runtime (replies spacedReply) "r"
           {| method := "POST"; pathname := "/from-anthropic/to-openai/v1/messages";
              authorization := Some "Bearer sk-test"; referer := None;
              reqBody := helloBody |} noKeys "anthropic" "openai"
           (Some "v1/messages") newWorld).
  - reflexivity.
  - reflexivity.
  - right. split; discriminate.
Defined.

(** A body that is not JSON is answered 500 with the parser's error, the
    error is logged, and no provider is called. *)
Theorem malformed_body_is_500 (P : Platform) (net : Network) (rnd : string)
  (request : Request) (env : Env) (source target : string)
  (subPath : option string) (w : World) :
  method request = "POST" ->
  Router.matchPath (pathname request) = Some (source, target, subPath) ->
  source = "anthropic" \/ source = "openrouter" ->
  target = "anthropic" \/ target = "openrouter" ->
  JSON_parse P (reqBody request) = None ->
  Router.handleRequest P net rnd request env w
  = ({| calls := calls w;
        console := console w ++ [ LogConversionError source target SyntaxError ] |},
     Normal (jsonResponse 500 (Failure SyntaxError))).
Proof.
  intros Hm Hp Hs Ht Hj. rewrite (handleRequest_post _ _ _ _ _ _ _ _ Hm Hp).
  unfold LLMProxyService.handleConversionRequest. rewrite Hm.
  change (negb (String.eqb "POST" "POST")) with false. cbv iota.
  destruct (transformers_known P source Hs) as (S & -> & _).
  destruct (transformers_known P target Ht) as (T & -> & _).
  destruct (providers_known target Ht) as (cfg & ->).
  unfold tryCatch, ioBind, lift, json, parseJSON. cbn [bind]. now rewrite Hj.
Qed.

Lemma malformed_body_is_500_witness :
  Router.handleRequest MiniJSON.runtime (replies spacedReply) "r"
    {| method := "POST"; pathname := "/from-anthropic/to-openrouter";
       authorization := None; referer := None;
       reqBody := "{model: claude}" |} noKeys newWorld
  = ({| calls := [];
        console := [ LogConversionError "anthropic" "openrouter" SyntaxError ] |},
     Normal (jsonResponse 500 (Failure SyntaxError))).
Proof.
  apply (malformed_body_is_500 MiniJSON.runtime (replies spacedReply) "r"
           {| method := "POST"; pathname := "/from-anthropic/to-openrouter";
              authorization := None; referer := None;
              reqBody := "{model: claude}" |} noKeys "anthropic" "openrouter"
           None newWorld); try reflexivity.
  - now left.
  - now right.
Defined.

(** With no key in the authorization header and none in the environment
    for the target provider, a request whose body is JSON is answered 401
    and no provider is called. *)
Theorem missing_key_is_401 (P : Platform) (net : Network) (rnd : string)
  (request : Request) (env : Env) (source target : string)
  (subPath : option string) (parsed : JSValue) (w : World) :
  method request = "POST" ->
  Router.matchPath (pathname request) = Some (source, target, subPath) ->
  source = "anthropic" \/ source = "openrouter" ->
  target = "anthropic" \/ target = "openrouter" ->
  JSON_parse P (reqBody request) = Some parsed ->
  (forall authHeader, authorization request = Some authHeader ->
                      removeFirst "Bearer " authHeader = "") ->
  LLMProxyService.getApiKey target env = "" ->
  Router.handleRequest P net rnd request env w
  = (w, Normal (jsonResponse 401 (ErrorMessage ("Missing API key for " ++ target)))).
Proof.
  intros Hm Hp Hs Ht Hj Ha He. rewrite (handleRequest_post _ _ _ _ _ _ _ _ Hm Hp).
  unfold LLMProxyService.handleConversionRequest. rewrite Hm.
  change (negb (String.eqb "POST" "POST")) with false. cbv iota.
  destruct (transformers_known P source Hs) as (S & -> & _).
  destruct (transformers_known P target Ht) as (T & -> & _).
  destruct (providers_known target Ht) as (cfg & ->).
  unfold tryCatch, ioBind, lift, json, parseJSON. cbn [bind]. rewrite Hj.
  cbv zeta. rewrite He.
  destruct (authorization request) as [ h | ]; [ | reflexivity ].
  now rewrite (Ha h eq_refl).
Qed.

Lemma missing_key_is_401_witness :
  Router.handleRequest MiniJSON.runtime (replies spacedReply) "r"
    {| method := "POST"; pathname := "/from-anthropic/to-openrouter/messages";
       authorization := None; referer := None;
       reqBody := helloBody |}
    {| OPENROUTER_API_KEY := None; ANTHROPIC_API_KEY := Some "sk-ant" |} newWorld
  = (newWorld,
     Normal (jsonResponse 401 (ErrorMessage "Missing API key for openrouter"))).
Proof.
  apply (missing_key_is_401 MiniJSON.runtime (replies spacedReply) "r"
           {| method := "POST"; pathname := "/from-anthropic/to-openrouter/messages";
              authorization := None; referer := None;
              reqBody := helloBody |}
           {| OPENROUTER_API_KEY := None; ANTHROPIC_API_KEY := Some "sk-ant" |}
           "anthropic" "openrouter" (Some "messages") helloRequest newWorld);
    try reflexivity.
  - now left.
  - now right.
  - intros h H. discriminate H.
Defined.

(** ** What comes back from the provider *)

Lemma makeProviderRequest_subPath (P : Platform) (net : Network)
  (target : string) (provider : Provider.t) (requestData : JSValue)
  (apiKey a b : string) :
  LLMProxyService.providers target = Some provider ->
  LLMProxyService.makeProviderRequest P net provider requestData apiKey a
  = LLMProxyService.makeProviderRequest P net provider requestData apiKey b.
Proof.
  unfold LLMProxyService.providers, LLMProxyService.makeProviderRequest.
  destruct (String.eqb target "anthropic").
  - intros H. inversion H. reflexivity.
  - destruct (String.eqb target "openrouter"); [ | discriminate ].
    intros H. inversion H. reflexivity.
Qed.

(** The sub-path that follows the two provider names has no effect: the
    service answers and calls the provider in the same way whatever it is. *)
Theorem subPath_is_ignored (P : Platform) (net : Network) (rnd : string)
  (request : Request) (env : Env) (source target a b : string) (w : World) :
  LLMProxyService.handleConversionRequest P net rnd request env source target a w
  = LLMProxyService.handleConversionRequest P net rnd request env source target b w.
Proof.
  unfold LLMProxyService.handleConversionRequest.
  destruct (negb _); [ reflexivity | ].
  destruct (LLMProxyService.transformers P source) as [ S | ]; [ | reflexivity ].
  destruct (LLMProxyService.transformers P target) as [ T | ]; [ | reflexivity ].
  destruct (LLMProxyService.providers target) as [ cfg | ] eqn:Hcfg;
    [ | reflexivity ].
  unfold LLMProxyService.handleStreamingRequest, tryCatch, ioBind.
  destruct (lift _ w) as [ w1 [ requestBody | e ] ]; [ | reflexivity ].
  cbv zeta.
  match goal with |- context [if ?c then _ else _] => destruct c end;
    [ reflexivity | ].
  destruct (lift _ w1) as [ w2 [ stream | e ] ]; [ | reflexivity ].
  destruct (truthy stream).
  - match goal with
    | |- context [match ?c w2 with _ => _ end] =>
        destruct (c w2) as [ w3 [ transformed | e ] ]
    end; [ | reflexivity ].
    now rewrite (makeProviderRequest_subPath P net target cfg
                   transformed _ a b Hcfg).
  - match goal with
    | |- context [match ?c w2 with _ => _ end] =>
        destruct (c w2) as [ w3 [ transformed | e ] ]
    end; [ | reflexivity ].
    now rewrite (makeProviderRequest_subPath P net target cfg
                   transformed _ a b Hcfg).
Qed.










(** ** What the conversion forwards *)

Lemma transformers_cases (P : Platform) (key : string) (T : BaseTransformer) :
  LLMProxyService.transformers P key = Some T ->
  T = AnthropicTransformer.transformer P \/ T = OpenRouterTransformer.transformer P.
Proof.
  unfold LLMProxyService.transformers.
  destruct (String.eqb key "anthropic"); [ intros H; inversion H; now left | ].
  destruct (String.eqb key "openrouter"); [ intros H; inversion H; now right | ].
  discriminate.
Qed.


Lemma pickRequestFields_keys (request unified : JSValue) (key : string) :
  pickRequestFields request = Normal unified ->
  ~ In key unifiedKeys ->
  getProp unified key = Normal JSUndefined.
Proof.
  unfold pickRequestFields. intros H Hk.
  destruct request; cbn in H; try discriminate; inversion H; subst; clear H;
    cbn [getProp]; unfold lookup; cbn [find fst snd];
    repeat match goal with
    | |- context [String.eqb ?a key] =>
        let E := fresh "E" in
        destruct (String.eqb a key) eqn:E;
        [ apply String.eqb_eq in E; subst key; exfalso; apply Hk; cbn; tauto | ]
    end; reflexivity.
Qed.

(** Whichever two providers a conversion goes between, the request that
    is sent holds nothing of the client's request beyond [model],
    [messages], [max_tokens], [temperature], [stream] and [tools]: [top_p],
    [system] and any other member are left undefined. *)
Theorem conversion_forwards_six_members (P : Platform) (source target : string)
  (S T : BaseTransformer) (request unified payload : JSValue) (key : string) :
  LLMProxyService.transformers P source = Some S ->
  LLMProxyService.transformers P target = Some T ->
  transformRequestOut S request = Normal unified ->
  transformRequestIn T unified = Normal payload ->
  ~ In key unifiedKeys ->
  getProp payload key = Normal JSUndefined.
Proof.
  intros HS HT Hout Hin Hk.
  assert (Hpick : pickRequestFields request = Normal unified)
    by (apply transformers_cases in HS as [ -> | -> ]; exact Hout).
  clear HS Hout.
  apply transformers_cases in HT as [ -> | -> ]; cbn in Hin.
  { inversion Hin. subst payload.
    now apply (pickRequestFields_keys request). }
  assert (Htop : getProp unified "top_p" = Normal JSUndefined).
  { apply (pickRequestFields_keys request); [ exact Hpick | ].
    cbn. intros [ H | [ H | [ H | [ H | [ H | [ H | [] ] ] ] ] ] ]; discriminate. }
  unfold OpenRouterTransformer.transformRequestIn in Hin.
  rewrite Htop in Hin.
  repeat match type of Hin with
  | bind ?c _ = _ => destruct c; cbn [bind] in Hin; [ | discriminate ]
  end.
  inversion Hin. subst. clear Hin.
  cbn [getProp]. unfold lookup. cbn [find fst snd].
  repeat match goal with
  | |- context [String.eqb ?a key] =>
      let E := fresh "E" in
      destruct (String.eqb a key) eqn:E;
      [ apply String.eqb_eq in E; subst key;
        try reflexivity; exfalso; apply Hk; cbn; tauto | ]
  end; reflexivity.
Qed.

Lemma conversion_forwards_six_members_witness :
  getProp
    (JSObject
       [ ("model", str "anthropic/claude-sonnet-4");
         ("messages", JSArray [ JSObject [ ("role", str "user");
                                           ("content", str "Hello") ] ]);
         ("max_tokens", num 4096);
         ("temperature", JSNumber (7 # 10));
         ("top_p", JSUndefined);
         ("stream", JSBool false);
         ("tools", JSUndefined) ]) "system"
  = Normal JSUndefined.
Proof.
  apply (conversion_forwards_six_members MiniJSON.runtime "anthropic" "openrouter"
           (AnthropicTransformer.transformer MiniJSON.runtime)
           (OpenRouterTransformer.transformer MiniJSON.runtime)
           (JSObject
              [ ("model", str "claude-sonnet-4");
                ("system", str "Answer in French.");
                ("top_p", JSNumber (1 # 2));
                ("messages", JSArray [ JSObject [ ("role", str "user");
                                                  ("content", str "Hello") ] ]) ])
           (JSObject
              [ ("model", str "claude-sonnet-4");
                ("messages", JSArray [ JSObject [ ("role", str "user");
                                                  ("content", str "Hello") ] ]);
                ("max_tokens", JSUndefined); ("temperature", JSUndefined);
                ("stream", JSUndefined); ("tools", JSUndefined) ])).
  - reflexivity.
  - reflexivity.
  - reflexivity.
  - reflexivity.
  - cbn. intros [ H | [ H | [ H | [ H | [ H | [ H | [] ] ] ] ] ] ]; discriminate.
Defined.


(** ** The answer of a conversion *)

(** Whichever provider's format the client speaks, the converted answer is
    a Claude message with exactly one content block, a text block: tool
    calls in the provider's answer have no block of their own, and the stop
    reason is [end_turn]. *)
Theorem converted_answer_is_one_text_block (P : Platform) (source : string)
  (S : BaseTransformer) (rnd : string) (unified final : JSValue) :
  LLMProxyService.transformers P source = Some S ->
  transformResponseIn S rnd unified = Normal final ->
  exists text,
    getProp final "content" = Normal (JSArray [ textBlock text ])
    /\ getProp final "type" = Normal (str "message")
    /\ getProp final "role" = Normal (str "assistant")
    /\ getProp final "stop_reason" = Normal (str "end_turn").
Proof.
  intros HS H. apply transformers_cases in HS as [ -> | -> ]; cbn in H.
  - unfold AnthropicTransformer.transformResponseIn, usageOf in H.
    repeat match type of H with
    | bind ?c _ = _ => destruct c; cbn [bind] in H; [ | discriminate ]
    end.
    inversion H. eexists. now repeat split.
  - unfold OpenRouterTransformer.transformResponseIn,
      OpenRouterTransformer.convertToClaude, usageOf in H.
    repeat match type of H with
    | bind ?c _ = _ => destruct c eqn:?; cbn [bind] in H; [ | discriminate ]
    end.
    cbv zeta in H. inversion H.
    match goal with |- context [truthy ?c] => destruct (truthy c) end;
      eexists; now repeat split.
Qed.

Lemma converted_answer_is_one_text_block_witness :
  exists text,
    getProp convertedHello "content" = Normal (JSArray [ textBlock text ])
    /\ getProp convertedHello "type" = Normal (str "message")
    /\ getProp convertedHello "role" = Normal (str "assistant")
    /\ getProp convertedHello "stop_reason" = Normal (str "end_turn").
Proof.
  apply (converted_answer_is_one_text_block MiniJSON.runtime "anthropic"
           (AnthropicTransformer.transformer MiniJSON.runtime) "r"
           (JSObject
              [ ("id", str "gen-1"); ("model", str "anthropic/claude-sonnet-4");
                ("content", str "Hello");
                ("usage", JSObject [ ("prompt_tokens", num 5);
                                     ("completion_tokens", num 1000) ]) ]));
    reflexivity.
Defined.

(** ** Text blocks *)

Lemma foldM_text_blocks (P : Platform) (texts : list string) :
  forall (acc : string) (id : JSValue),
  foldM (OpenRouterTransformer.lowerBlock P)
        (map (fun t => textBlock (str t)) texts) (str acc, id, false)
  = Normal (str (acc ++ String.concat "" texts), id, false).
Proof.
  induction texts as [ | t rest IH ]; intros acc id; cbn [map foldM String.concat].
  - now rewrite append_empty.
  - cbn. rewrite IH. destruct rest; cbn.
    + now rewrite append_empty.
    + now rewrite append_associative.
Qed.

(** A message whose content is a list of text blocks is sent with the
    texts joined into one string, its other members as they were; when the
    texts add up to nothing the list of blocks is sent as it is. *)
Theorem text_blocks_are_joined (P : Platform) (members : list (string * JSValue))
  (texts : list string) :
  lookup "content" members = JSArray (map (fun t => textBlock (str t)) texts) ->
  OpenRouterTransformer.messageToOpenAI P (JSObject members)
  = Normal (JSObject
      (setProp "content"
         (if isEmpty (String.concat "" texts)
          then JSArray (map (fun t => textBlock (str t)) texts)
          else str (String.concat "" texts))
         members)).
Proof.
  intros H. unfold OpenRouterTransformer.messageToOpenAI.
  cbn [getProp bind]. rewrite H, foldM_text_blocks. cbn [bind ownProps append].
  unfold js_or. cbn [truthy str]. now destruct (isEmpty _).
Qed.

Lemma text_blocks_are_joined_witness :
  OpenRouterTransformer.messageToOpenAI MiniJSON.runtime
    (JSObject [ ("role", str "user");
                ("content", JSArray [ textBlock (str "Hello, ");
                                      textBlock (str "world") ]) ])
  = Normal (JSObject [ ("role", str "user"); ("content", str "Hello, world") ]).
Proof.
  apply (text_blocks_are_joined MiniJSON.runtime
           [ ("role", str "user");
             ("content", JSArray [ textBlock (str "Hello, ");
                                   textBlock (str "world") ]) ]
           [ "Hello, "; "world" ]).
  reflexivity.
Defined.

(** ** Token counts of an Anthropic answer *)

(** When the target is Anthropic, whose answers count tokens under
    [input_tokens] and [output_tokens], the converted answer reports 0 and
    0: only [prompt_tokens] and [completion_tokens] are read. *)
Theorem anthropic_usage_is_not_passed_on (P : Platform) (source : string)
  (S : BaseTransformer) (rnd : string)
  (members usage : list (string * JSValue)) (unified final : JSValue) :
  LLMProxyService.transformers P source = Some S ->
  lookup "usage" members = JSObject usage ->
  lookup "prompt_tokens" usage = JSUndefined ->
  lookup "completion_tokens" usage = JSUndefined ->
  AnthropicTransformer.transformResponseOut P (JSObject members) = Normal unified ->
  transformResponseIn S rnd unified = Normal final ->
  getProp final "usage"
  = Normal (JSObject [ ("input_tokens", num 0); ("output_tokens", num 0) ]).
Proof.
  intros HS Hu Hp Hc Hout Hin.
  cbn in Hout. inversion Hout. subst unified. clear Hout.
  apply transformers_cases in HS as [ -> | -> ]; cbn in Hin;
    inversion Hin; subst final; cbn [getProp lookup find fst snd String.eqb
      Ascii.eqb Bool.eqb andb];
    rewrite Hu; cbn [optProp]; now rewrite Hp, Hc.
Qed.

Lemma anthropic_usage_is_not_passed_on_witness :
  getProp wrappedHi "usage"
  = Normal (JSObject [ ("input_tokens", num 0); ("output_tokens", num 0) ]).
Proof.
  apply (anthropic_usage_is_not_passed_on MiniJSON.runtime "openrouter"
           (OpenRouterTransformer.transformer MiniJSON.runtime) "r"
           [ ("id", str "msg_1"); ("type", str "message");
             ("content", JSArray [ textBlock (str "Hi") ]);
             ("usage", JSObject [ ("input_tokens", num 12);
                                  ("output_tokens", num 3) ]) ]
           [ ("input_tokens", num 12); ("output_tokens", num 3) ]
           (JSObject
              [ ("id", str "msg_1"); ("model", JSUndefined);
                ("content", JSArray [ textBlock (str "Hi") ]);
                ("usage", JSObject [ ("input_tokens", num 12);
                                     ("output_tokens", num 3) ]) ]));
    reflexivity.
Defined.

(** ** Model names *)

(** Both model mappings leave their own results alone: mapping a name
    twice gives what mapping it once gives. *)
Theorem mapModelName_idempotent (model : string) :
  OpenRouterTransformer.mapModelName (OpenRouterTransformer.mapModelName model)
  = OpenRouterTransformer.mapModelName model
  /\ Legacy.mapModelName (Legacy.mapModelName model) = Legacy.mapModelName model.
Proof.
  split.
  - unfold OpenRouterTransformer.mapModelName at 2 3.
    destruct (negb (startsWith model "claude-")) eqn:E.
    + unfold OpenRouterTransformer.mapModelName. now rewrite E.
    + destruct (startsWith model "claude-opus-4"); reflexivity.
  - unfold Legacy.mapModelName at 2 3.
    destruct (negb (startsWith model "claude-")) eqn:E.
    + unfold Legacy.mapModelName. now rewrite E.
    + repeat match goal with
      | |- context [if startsWith model ?p then _ else _] =>
          destruct (startsWith model p); [ reflexivity | ]
      end.
      unfold Legacy.mapModelName.
      assert (H : startsWith ("anthropic/" ++ model) "claude-" = false)
        by reflexivity.
      now rewrite H.
Qed.

(** ** The worker's answer *)

(** When the worker converts a provider's answer, the message it returns
    names the model the client asked for, not the one the provider reports,
    and its content is never empty. *)
Theorem legacy_answer_shape (P : Platform) (rnd : nat -> string)
  (response request answer : JSValue) :
  Legacy.convertOpenAIToClaude P rnd response request = Normal answer ->
  getProp answer "model" = getProp request "model"
  /\ exists block blocks,
       getProp answer "content" = Normal (JSArray (block :: blocks)).
Proof.
  unfold Legacy.convertOpenAIToClaude. intros H.
  repeat match type of H with
  | bind ?c _ = _ => destruct c eqn:?; cbn [bind] in H; [ | discriminate ]
  | (if ?b then _ else _) = _ => destruct b; [ discriminate | ]
  end.
  cbv zeta in H. inversion H. subst answer. clear H. split.
  - reflexivity.
  - cbn [getProp lookup find fst snd String.eqb Ascii.eqb Bool.eqb andb].
    match goal with
    | |- context [match ?l with [] => _ | _ => _ end] => destruct l
    end; eexists; eexists; reflexivity.
Qed.

Lemma legacy_answer_shape_witness :
  getProp
    (JSObject
       [ ("id", str "gen-1"); ("type", str "message"); ("role", str "assistant");
         ("model", str "claude-sonnet-4");
         ("content", JSArray [ textBlock (str "Hello") ]);
         ("stop_reason", str "max_tokens"); ("stop_sequence", JSNull);
         ("usage", JSObject [ ("input_tokens", num 5);
                              ("output_tokens", num 1000) ]) ]) "model"
  = getProp helloRequest "model"
  /\ exists block blocks,
       getProp
         (JSObject
            [ ("id", str "gen-1"); ("type", str "message");
              ("role", str "assistant"); ("model", str "claude-sonnet-4");
              ("content", JSArray [ textBlock (str "Hello") ]);
              ("stop_reason", str "max_tokens"); ("stop_sequence", JSNull);
              ("usage", JSObject [ ("input_tokens", num 5);
                                   ("output_tokens", num 1000) ]) ]) "content"
       = Normal (JSArray (block :: blocks)).
Proof.
  apply (legacy_answer_shape MiniJSON.runtime (fun _ => "r") truncatedReply
           helloRequest).
  reflexivity.
Defined.

(** ** Authorization in the workers *)

(** On the conversion path both workers answer 401 and call nobody unless
    the request has an authorization header that starts with [Bearer ]. *)
Theorem workers_require_a_bearer_header (P : Platform) (net : Network)
  (rnd : nat -> string) (request : Request) (w : World) :
  method request = "POST" ->
  (forall authHeader, authorization request = Some authHeader ->
                      startsWith authHeader "Bearer " = false) ->
  Legacy.handleClaudeToOpenRouter P net rnd request w
  = (w, Normal (jsonResponse 401 (ErrorMessage "需要有效的 Authorization header")))
  /\ Buffered.handleClaudeToOpenRouter P net rnd request w
     = (w, Normal (jsonResponse 401 (ErrorMessage "需要有效的 Authorization header"))).
Proof.
  intros Hm Ha.
  unfold Legacy.handleClaudeToOpenRouter, Buffered.handleClaudeToOpenRouter.
  rewrite Hm. change (negb (String.eqb "POST" "POST")) with false. cbv iota zeta.
  destruct (authorization request) as [ h | ].
  - rewrite (Ha h eq_refl). cbn [negb]. rewrite orb_true_r. now split.
  - now split.
Qed.

Lemma workers_require_a_bearer_header_witness :
  let request := {| method := "POST"; pathname := "/v1/claude-to-openrouter/messages";
                    authorization := Some "sk-or-test"; referer := None;
                    reqBody := helloBody |} in
  Legacy.handleClaudeToOpenRouter MiniJSON.runtime (replies truncatedReplyText)
    (fun _ => "r") request newWorld
  = (newWorld,
     Normal (jsonResponse 401 (ErrorMessage "需要有效的 Authorization header")))
  /\ Buffered.handleClaudeToOpenRouter MiniJSON.runtime (replies truncatedReplyText)
       (fun _ => "r") request newWorld
     = (newWorld,
        Normal (jsonResponse 401 (ErrorMessage "需要有效的 Authorization header"))).
Proof.
  apply (workers_require_a_bearer_header MiniJSON.runtime
           (replies truncatedReplyText) (fun _ => "r")
           {| method := "POST"; pathname := "/v1/claude-to-openrouter/messages";
              authorization := Some "sk-or-test"; referer := None;
              reqBody := helloBody |} newWorld).
  - reflexivity.
  - intros h H. inversion H. reflexivity.
Defined.

(** ** The proxy that does not read the request *)

(** The second worker's proxy hands the request text to the provider as it
    came, JSON or not, and hands back the provider's text under the
    provider's status, as far as [new Response] takes that status with a
    body: outside 200..599 it throws a RangeError, at 204, 205 and 304 a
    TypeError, and so does the handler. *)
Theorem buffered_proxy_relays_any_body (net : Network)
  (request : Request) (auth : string) (up : Upstream) (responseData : string)
  (w : World) :
  method request = "POST" ->
  authorization request = Some auth ->
  auth <> "" ->
  net {| url := "https://api.anthropic.com/v1/messages";
         headers := [ ("Authorization", auth);
                      ("Content-Type", "application/json");
                      ("anthropic-version", "2023-06-01") ];
         fetchBody := reqBody request |} = Normal up ->
  text up = Normal responseData ->
  Buffered.handleClaudeProxy net request w
  = ({| calls := calls w
                 ++ [ {| url := "https://api.anthropic.com/v1/messages";
                         headers := [ ("Authorization", auth);
                                      ("Content-Type", "application/json");
                                      ("anthropic-version", "2023-06-01") ];
                         fetchBody := reqBody request |} ];
        console := console w |},
     newResponse (upStatus up) (Some "application/json") (Text responseData)).
Proof.
  intros Hm Ha He Hnet Ht. unfold Buffered.handleClaudeProxy.
  rewrite Hm, Ha. change (negb (String.eqb "POST" "POST")) with false.
  cbv iota zeta. destruct auth as [ | c auth ]; [ contradiction | ].
  cbn [isEmpty]. unfold ioBind, fetch, lift, ioRet. now rewrite Hnet, Ht.
Qed.

Lemma buffered_proxy_relays_any_body_witness :
  let request := {| method := "POST"; pathname := "/v1/claude-proxy/messages";
                    authorization := Some "Bearer sk-test"; referer := None;
                    reqBody := "not json" |} in
  Buffered.handleClaudeProxy
    (fun _ => Normal {| upStatus := 400; upBody := Some [ Chunk "bad request" ] |})
    request newWorld
  = ({| calls := [ {| url := "https://api.anthropic.com/v1/messages";
                      headers := [ ("Authorization", "Bearer sk-test");
                                   ("Content-Type", "application/json");
                                   ("anthropic-version", "2023-06-01") ];
                      fetchBody := "not json" |} ];
        console := [] |},
     Normal (jsonResponse 400 (Text "bad request"))).
Proof.
  apply (buffered_proxy_relays_any_body
           (fun _ => Normal {| upStatus := 400;
                               upBody := Some [ Chunk "bad request" ] |})
           {| method := "POST"; pathname := "/v1/claude-proxy/messages";
              authorization := Some "Bearer sk-test"; referer := None;
              reqBody := "not json" |} "Bearer sk-test"
           {| upStatus := 400; upBody := Some [ Chunk "bad request" ] |}
           "bad request" newWorld); try reflexivity.
  discriminate.
Defined.

(** The first worker reads the request before it calls: a body that is not
    JSON is answered 500 on both of its paths, and no provider is called. *)
Theorem legacy_worker_rejects_malformed_body (P : Platform) (net : Network)
  (rnd : nat -> string) (request : Request) (key : string) (w : World) :
  method request = "POST" ->
  startsWith (pathname request) "/v1/claude-to-openrouter" = true
  \/ startsWith (pathname request) "/v1/claude-proxy" = true ->
  authorization request = Some ("Bearer " ++ key)%string ->
  JSON_parse P (reqBody request) = None ->
  Legacy.worker P net rnd request w
  = ({| calls := calls w; console := console w ++ [ LogError SyntaxError ] |},
     Normal (jsonResponse 500 (Failure SyntaxError))).
Proof.
  intros Hm Hp Ha Hj. unfold Legacy.worker. rewrite Hm.
  change (String.eqb "POST" "OPTIONS") with false. cbv iota.
  unfold Legacy.handleClaudeToOpenRouter, Legacy.handleClaudeProxy.
  rewrite Hm, Ha. change (negb (String.eqb "POST" "POST")) with false.
  cbv iota zeta. rewrite startsWith_append. cbn [negb isEmpty append orb].
  unfold tryCatch, ioBind, lift, json, parseJSON. cbn [bind]. rewrite Hj.
  destruct (startsWith (pathname request) "/v1/claude-to-openrouter");
    [ reflexivity | ].
  destruct Hp as [ Hp | Hp ]; [ discriminate | ]. now rewrite Hp.
Qed.

Lemma legacy_worker_rejects_malformed_body_witness :
  Legacy.worker MiniJSON.runtime (replies spacedReply) (fun _ => "r")
    {| method := "POST"; pathname := "/v1/claude-proxy/messages";
       authorization := Some "Bearer sk-test"; referer := None;
       reqBody := "not json" |} newWorld
  = ({| calls := []; console := [ LogError SyntaxError ] |},
     Normal (jsonResponse 500 (Failure SyntaxError))).
Proof.
  apply (legacy_worker_rejects_malformed_body MiniJSON.runtime
           (replies spacedReply) (fun _ => "r")
           {| method := "POST"; pathname := "/v1/claude-proxy/messages";
              authorization := Some "Bearer sk-test"; referer := None;
              reqBody := "not json" |} "sk-test" newWorld); try reflexivity.
  now right.
Defined.

(** ** The state of a translated stream *)

Lemma processLine_status (P : Platform) (line : string) (s : Sink Event) :
  match Legacy.processLine P line s with
  | Legacy.Continue s' => status s' = status s
  | Legacy.Return s' => status s' = Closed
  end.
Proof. destruct (processLine_effect P line s); reflexivity. Qed.

Lemma forEachLine_status (P : Platform) (lines : list string) :
  forall s,
  match Legacy.forEachLine P lines s with
  | Legacy.Continue s' => status s' = status s
  | Legacy.Return s' => status s' = Closed
  end.
Proof.
  induction lines as [ | line rest IH ]; intros s; cbn [Legacy.forEachLine].
  - reflexivity.
  - pose proof (processLine_status P line s) as H.
    destruct (Legacy.processLine P line s) as [ s' | s' ]; [ | exact H ].
    specialize (IH s'). destruct (Legacy.forEachLine P rest s'); congruence.
Qed.

Lemma readLoop_state (P : Platform) (steps : list ReadStep) :
  forall buffer s,
  status s = Readable -> openShape (eventTypes s) ->
  let r := Legacy.readLoop P steps buffer s in
  (openShape (eventTypes r)
   /\ (status r = Readable \/ (status r = Errored /\ In ReadError steps)))
  \/ (closedShape (eventTypes r) /\ status r = Closed).
Proof.
  induction steps as [ | [ text | ] rest IH ]; intros buffer s Hst Hs;
    cbn [Legacy.readLoop]; cbv zeta.
  - left. split; [ exact Hs | now left ].
  - pose proof (forEachLine_shape P (removelast (split (buffer ++ text))) s Hs) as H.
    pose proof (forEachLine_status P (removelast (split (buffer ++ text))) s) as H'.
    destruct (Legacy.forEachLine P _ s) as [ s' | s' ].
    + rewrite Hst in H'.
      destruct (IH (last (split (buffer ++ text)) "") s' H' H)
        as [ (Ho & [ Hr | (He & Hi) ]) | Hc ].
      * left. split; [ exact Ho | now left ].
      * left. split; [ exact Ho | right; split; [ exact He | now right ] ].
      * now right.
    + right. now split.
  - left. split; [ exact Hs | right; split; [ reflexivity | now left ] ].
Qed.

Lemma openShape_no_stop (l : list string) : openShape l -> ~ In "message_stop" l.
Proof.
  intros [ n -> ] H. cbn in H.
  destruct H as [ H | [ H | H ] ]; try discriminate.
  apply repeat_spec in H. discriminate.
Qed.

Lemma closedShape_stop (l : list string) : closedShape l -> In "message_stop" l.
Proof.
  intros [ n -> ]. apply in_or_app. right. apply in_or_app. right.
  cbn. tauto.
Qed.

(** The translated stream is closed exactly when [message_stop] has been
    sent, and it ends in error only when reading from the provider failed.
    A provider's stream that ends without [DONE] and without a finish reason
    therefore leaves the client's stream open. *)
Theorem stream_closes_exactly_when_stopped (P : Platform) (rnd : string)
  (model : JSValue) (body : option (list ReadStep)) :
  let S := Legacy.start P rnd model body in
  (status S = Closed <-> In "message_stop" (eventTypes S))
  /\ (status S = Errored -> exists steps, body = Some steps /\ In ReadError steps).
Proof.
  cbv zeta. unfold Legacy.start, Legacy.processStream.
  assert (H0 : openShape (eventTypes
            (enqueue [ Legacy.messageStart rnd model; Legacy.contentBlockStart ]
                     emptySink))) by now exists 0%nat.
  destruct body as [ steps | ].
  - destruct (readLoop_state P steps ""
                (enqueue [ Legacy.messageStart rnd model; Legacy.contentBlockStart ]
                         emptySink) eq_refl H0)
      as [ (Ho & [ Hr | (He & Hi) ]) | (Hc & Hs) ].
    + split.
      * split; [ intros H; congruence | ].
        intros H. now apply openShape_no_stop in Ho.
      * intros H. congruence.
    + split.
      * split; [ intros H; congruence | ].
        intros H. now apply openShape_no_stop in Ho.
      * intros _. now exists steps.
    + split.
      * split; [ intros _; now apply closedShape_stop | intros _; exact Hs ].
      * intros H. congruence.
  - split.
    + split; [ discriminate | ].
      intros H. now apply openShape_no_stop in H0.
    + discriminate.
Qed.

(** ** The text of a translated stream *)

Lemma enqueue_enqueue {A} (a b : list A) (s : Sink A) :
  enqueue b (enqueue a s) = enqueue (a ++ b) s.
Proof. unfold enqueue. cbn. now rewrite app_assoc. Qed.

Lemma enqueue_nil {A} (s : Sink A) : enqueue [] s = s.
Proof. destruct s. unfold enqueue. cbn. now rewrite app_nil_r. Qed.

Lemma processLine_carries (P : Platform) (line : string) (content : JSValue)
  (s : Sink Event) :
  carries P line content ->
  Legacy.processLine P line s = Legacy.Continue (enqueue [ textDelta content ] s).
Proof.
  intros (Hd & Hdone & Hdata & chunk & choice & choices & delta
          & Hp & Hc & Hdl & Hct & Ht).
  unfold Legacy.processLine. rewrite Hd.
  apply String.eqb_neq in Hdone. rewrite Hdone.
  destruct (trim (slice 6 line)) as [ | c d ] eqn:E; [ contradiction | ].
  cbn [isEmpty negb]. unfold Legacy.tryChunk, parseJSON. rewrite Hp. cbn [bind].
  unfold Legacy.convertOpenAIStreamToClaude. rewrite Hc. cbn [bind truthy
    lengthIsPositive index0 hd]. rewrite Hdl. cbn [bind]. rewrite Hct.
  cbn [bind]. rewrite Ht. reflexivity.
Qed.

Lemma forEachLine_carries (P : Platform) (lines : list string)
  (pieces : list (list JSValue)) :
  Forall2 (lineText P) lines pieces ->
  forall s,
  Legacy.forEachLine P lines s
  = Legacy.Continue (enqueue (map textDelta (concat pieces)) s).
Proof.
  induction 1 as [ | line piece lines pieces Hc _ IH ]; intros s;
    cbn [Legacy.forEachLine map concat].
  - now rewrite enqueue_nil.
  - destruct Hc as [ Hn | content Hc ].
    + unfold Legacy.processLine. rewrite Hn. apply IH.
    + rewrite (processLine_carries P line content s Hc), IH.
      now rewrite enqueue_enqueue.
Qed.

Lemma forEachLine_around_malformed (P : Platform) (before after : list string)
  (piecesBefore piecesAfter : list (list JSValue)) (line : string)
  (s : Sink Event) :
  startsWith line "data: " = true ->
  trim (slice 6 line) <> "[DONE]" ->
  trim (slice 6 line) <> "" ->
  JSON_parse P (trim (slice 6 line)) = None ->
  Forall2 (lineText P) before piecesBefore ->
  Forall2 (lineText P) after piecesAfter ->
  Legacy.forEachLine P (before ++ line :: after) s
  = Legacy.Continue
      (enqueue (map textDelta (concat piecesAfter))
         (consoleError [ LogChunkError SyntaxError (trim (slice 6 line)) ]
            (enqueue (map textDelta (concat piecesBefore)) s))).
Proof.
  intros Hdata Hdone Hempty Hparse Hb Ha.
  rewrite forEachLine_app, (forEachLine_carries P before piecesBefore Hb).
  cbn [Legacy.forEachLine].
  rewrite (processLine_malformed P line _ Hdata Hdone Hempty Hparse).
  apply (forEachLine_carries P after piecesAfter Ha).
Qed.

(** C9.  A data line whose payload [JSON.parse] rejects is logged and
    skipped, and the lines after it are processed.  The line itself only
    adds its payload to the log.  In any sequence of lines, with the line or
    without it the loop enqueues the same events, leaves the stream in the
    same state and returns or goes on alike, and when the loop reaches the
    line its payload is in the log.  Between lines that carry text the
    loop enqueues the text of the lines before it and of the lines after
    it and goes on; and a provider's stream that holds the line among such
    lines and ends with [DONE] reaches the client whole: the opening events,
    every text delta in order, the closing events, the stream closed, and
    the log holding the payload and nothing else. *)
Theorem C9_malformed_line_is_skipped (P : Platform) (rnd : string)
  (model : JSValue) (before after : list string) (s : Sink Event)
  (texts textBefore textAfter rest : list string)
  (piecesBefore piecesAfter : list (list JSValue)) (line : string) :
  startsWith line "data: " = true ->
  trim (slice 6 line) <> "[DONE]" ->
  trim (slice 6 line) <> "" ->
  JSON_parse P (trim (slice 6 line)) = None ->
  Forall2 (lineText P) textBefore piecesBefore ->
  Forall2 (lineText P) textAfter piecesAfter ->
  split (received texts) = textBefore ++ line :: textAfter ++ doneLine :: rest ->
  rest <> [] ->
  Legacy.processLine P line s
  = Legacy.Continue
      (consoleError [ LogChunkError SyntaxError (trim (slice 6 line)) ] s)
  /\ sameOutcome (Legacy.forEachLine P (before ++ line :: after) s)
                 (Legacy.forEachLine P (before ++ after) s)
  /\ (returned (Legacy.forEachLine P before s) = false ->
      In (LogChunkError SyntaxError (trim (slice 6 line)))
         (logged (sinkOf (Legacy.forEachLine P (before ++ line :: after) s))))
  /\ Legacy.forEachLine P (textBefore ++ line :: textAfter) s
     = Legacy.Continue
         (enqueue (map textDelta (concat piecesAfter))
            (consoleError [ LogChunkError SyntaxError (trim (slice 6 line)) ]
               (enqueue (map textDelta (concat piecesBefore)) s)))
  /\ enqueued (Legacy.start P rnd model (Some (map Chunk texts)))
     = [ Legacy.messageStart rnd model; Legacy.contentBlockStart ]
       ++ map textDelta (concat piecesBefore ++ concat piecesAfter)
       ++ Legacy.finish (JSObject [ ("type", str "message_stop") ])
  /\ status (Legacy.start P rnd model (Some (map Chunk texts))) = Closed
  /\ logged (Legacy.start P rnd model (Some (map Chunk texts)))
     = [ LogChunkError SyntaxError (trim (slice 6 line)) ].
Proof.
  intros Hdata Hdone Hempty Hparse Hb Ha Hsplit Hrest.
  split; [ exact (processLine_malformed P line s Hdata Hdone Hempty Hparse) | ].
  split; [ | split ].
  - revert s. induction before as [ | l more IH ]; intros s.
    + cbn [app Legacy.forEachLine].
      rewrite (processLine_malformed P line s Hdata Hdone Hempty Hparse).
      apply forEachLine_sameStream. now split.
    + cbn [app Legacy.forEachLine].
      destruct (Legacy.processLine P l s) as [ s' | s' ]; [ apply IH | now split ].
  - revert s. induction before as [ | l more IH ]; intros s.
    + cbn [app Legacy.forEachLine].
      rewrite (processLine_malformed P line s Hdata Hdone Hempty Hparse).
      intros _. apply forEachLine_keeps_log. cbn [logged consoleError].
      apply in_or_app. right. now left.
    + cbn [app Legacy.forEachLine].
      destruct (Legacy.processLine P l s) as [ s' | s' ]; [ apply IH | discriminate ].
  - split;
      [ exact (forEachLine_around_malformed P textBefore textAfter piecesBefore
                 piecesAfter line s Hdata Hdone Hempty Hparse Hb Ha) | ].
    unfold Legacy.start, Legacy.processStream.
    rewrite readLoop_lines by reflexivity.
    change ("" ++ received texts)%string with (received texts).
    rewrite Hsplit.
    assert (Hrl : removelast (textBefore ++ line :: textAfter ++ doneLine :: rest)
                  = (textBefore ++ line :: textAfter)
                    ++ doneLine :: removelast rest).
    { rewrite <- app_assoc. cbn [app].
      rewrite removelast_app by discriminate. f_equal.
      change (line :: textAfter ++ doneLine :: rest)
        with ((line :: textAfter) ++ doneLine :: rest).
      rewrite removelast_app by discriminate. cbn [app]. f_equal. f_equal.
      destruct rest; [ contradiction | reflexivity ]. }
    rewrite Hrl, forEachLine_app.
    rewrite (forEachLine_around_malformed P textBefore textAfter piecesBefore
               piecesAfter line _ Hdata Hdone Hempty Hparse Hb Ha).
    cbn [Legacy.forEachLine].
    change (Legacy.processLine P doneLine ?x)
      with (Legacy.Return (setStatus Closed
              (enqueue (Legacy.finish (JSObject [ ("type", str "message_stop") ])) x))).
    cbn [sinkOf setStatus enqueue consoleError enqueued status logged emptySink app].
    rewrite map_app, <- !app_assoc. cbn [app]. now repeat split.
Qed.

Lemma C9_malformed_line_is_skipped_witness :
  Legacy.processLine MiniJSON.runtime brokenLine emptySink
  = Legacy.Continue
      (consoleError [ LogChunkError SyntaxError (trim (slice 6 brokenLine)) ]
         emptySink)
  /\ sameOutcome
       (Legacy.forEachLine MiniJSON.runtime ([ helloLine ] ++ brokenLine :: [ helloLine ])
          emptySink)
       (Legacy.forEachLine MiniJSON.runtime ([ helloLine ] ++ [ helloLine ]) emptySink)
  /\ (returned (Legacy.forEachLine MiniJSON.runtime [ helloLine ] emptySink) = false ->
      In (LogChunkError SyntaxError (trim (slice 6 brokenLine)))
         (logged (sinkOf (Legacy.forEachLine MiniJSON.runtime
                            ([ helloLine ] ++ brokenLine :: [ helloLine ]) emptySink))))
  /\ Legacy.forEachLine MiniJSON.runtime
       ([ helloLine ] ++ brokenLine
        :: [ ("data: "
              ++ MiniJSON.json "{'choices':[{'delta':{'content':' there'}}]}")%string ])
       emptySink
     = Legacy.Continue
         (enqueue (map textDelta (concat [ [ str " there" ] ]))
            (consoleError [ LogChunkError SyntaxError (trim (slice 6 brokenLine)) ]
               (enqueue (map textDelta (concat [ [ str "Hi" ] ])) emptySink)))
  /\ enqueued (Legacy.start MiniJSON.runtime "r" (str "claude-sonnet-4")
                 (Some (map Chunk noisyChunks)))
     = [ Legacy.messageStart "r" (str "claude-sonnet-4"); Legacy.contentBlockStart ]
       ++ map textDelta (concat [ [ str "Hi" ] ] ++ concat [ [ str " there" ] ])
       ++ Legacy.finish (JSObject [ ("type", str "message_stop") ])
  /\ status (Legacy.start MiniJSON.runtime "r" (str "claude-sonnet-4")
               (Some (map Chunk noisyChunks))) = Closed
  /\ logged (Legacy.start MiniJSON.runtime "r" (str "claude-sonnet-4")
               (Some (map Chunk noisyChunks)))
     = [ LogChunkError SyntaxError (trim (slice 6 brokenLine)) ].
Proof.
  apply (C9_malformed_line_is_skipped MiniJSON.runtime "r" (str "claude-sonnet-4")
           [ helloLine ] [ helloLine ] emptySink noisyChunks
           [ helloLine ]
           [ ("data: "
              ++ MiniJSON.json "{'choices':[{'delta':{'content':' there'}}]}")%string ]
           [ "" ]
           [ [ str "Hi" ] ] [ [ str " there" ] ] brokenLine).
  - reflexivity.
  - vm_compute. discriminate.
  - vm_compute. discriminate.
  - vm_compute. reflexivity.
  - repeat first
      [ apply Forall2_nil
      | apply Forall2_cons
      | apply one_piece; unfold carries;
        repeat first [ split | eexists | reflexivity | discriminate ] ].
  - repeat first
      [ apply Forall2_nil
      | apply Forall2_cons
      | apply one_piece; unfold carries;
        repeat first [ split | eexists | reflexivity | discriminate ] ].
  - reflexivity.
  - discriminate.
Defined.

(** When the provider's text, however it is cut into chunks, consists of
    data lines that each hold a piece of text and of lines that are not data
    lines, followed by a terminated [DONE] line, the client receives the two
    opening events, one text delta per data line with that line's text, in
    order, the three closing events, and the stream is closed; what follows
    the [DONE] line is ignored. *)
Theorem translated_stream_carries_the_text (P : Platform) (rnd : string)
  (model : JSValue) (texts lines rest : list string)
  (pieces : list (list JSValue)) :
  split (received texts) = lines ++ doneLine :: rest ->
  rest <> [] ->
  Forall2 (lineText P) lines pieces ->
  let S := Legacy.start P rnd model (Some (map Chunk texts)) in
  enqueued S
  = [ Legacy.messageStart rnd model; Legacy.contentBlockStart ]
    ++ map textDelta (concat pieces)
    ++ Legacy.finish (JSObject [ ("type", str "message_stop") ])
  /\ status S = Closed.
Proof.
  intros Hsplit Hrest Hlines. cbv zeta.
  unfold Legacy.start, Legacy.processStream.
  rewrite readLoop_lines by reflexivity.
  change ("" ++ received texts)%string with (received texts).
  rewrite Hsplit.
  assert (Hrl : removelast (lines ++ doneLine :: rest)
                = lines ++ doneLine :: removelast rest).
  { rewrite removelast_app by discriminate.
    destruct rest; [ contradiction | reflexivity ]. }
  rewrite Hrl, forEachLine_app, (forEachLine_carries P lines pieces Hlines).
  cbn [Legacy.forEachLine]. change (Legacy.processLine P doneLine ?s)
    with (Legacy.Return (setStatus Closed
            (enqueue (Legacy.finish (JSObject [ ("type", str "message_stop") ])) s))).
  cbn [sinkOf setStatus enqueue enqueued status emptySink app].
  now split.
Qed.

Lemma translated_stream_carries_the_text_witness :
  let S := Legacy.start MiniJSON.runtime "r" (str "claude-sonnet-4")
             (Some (map Chunk hiThereChunks)) in
  enqueued S
  = [ Legacy.messageStart "r" (str "claude-sonnet-4"); Legacy.contentBlockStart ]
    ++ map textDelta [ str "Hi"; str " there" ]
    ++ Legacy.finish (JSObject [ ("type", str "message_stop") ])
  /\ status S = Closed.
Proof.
  apply (translated_stream_carries_the_text MiniJSON.runtime "r"
           (str "claude-sonnet-4") hiThereChunks
           [ helloLine; "";
             ("data: "
              ++ MiniJSON.json "{'choices':[{'delta':{'content':' there'}}]}")%string ]
           [ "data: ignored" ]
           [ [ str "Hi" ]; []; [ str " there" ] ]).
  - reflexivity.
  - discriminate.
  - repeat first
      [ apply Forall2_nil
      | apply Forall2_cons
      | apply no_data; reflexivity
      | apply one_piece; unfold carries;
        repeat first [ split | eexists | reflexivity | discriminate ] ].
Defined.

(** ** The proxy's stream *)

Lemma split_line (line rest : string) :
  oneLineText line = true ->
  split (line ++ NL ++ rest) = line :: split rest.
Proof.
  unfold oneLineText. induction line as [ | c line IH ]; intros H.
  - reflexivity.
  - cbn in H. apply andb_prop in H as [ Hc H ]. apply negb_true_iff in Hc.
    cbn [append split]. rewrite Hc.
    change (line ++ String LF rest)%string with (line ++ NL ++ rest)%string.
    now rewrite (IH H).
Qed.

Lemma relayLine_event (ty : string) :
  Legacy.relayLine ("event: " ++ ty) = [ ("event: " ++ ty ++ NL)%string ].
Proof.
  unfold Legacy.relayLine. rewrite startsWith_append.
  assert (H : startsWith ("event: " ++ ty) "data: " = false) by reflexivity.
  rewrite H. reflexivity.
Qed.

Lemma relayLine_data (data : string) :
  trim data <> "" ->
  Legacy.relayLine ("data: " ++ data) = [ ("data: " ++ data ++ NL ++ NL)%string ].
Proof.
  intros H. unfold Legacy.relayLine. rewrite startsWith_append.
  change 6%nat with (String.length "data: "). rewrite slice_append.
  destruct (trim data); [ contradiction | reflexivity ].
Qed.

Lemma oneLineText_append (a b : string) :
  oneLineText a = true -> oneLineText b = true -> oneLineText (a ++ b) = true.
Proof.
  unfold oneLineText. intros Ha Hb. induction a as [ | c a IH ]; [ exact Hb | ].
  cbn in *. apply andb_prop in Ha as [ Hc Ha ]. now rewrite Hc, IH.
Qed.

Lemma split_wireEvent (ty data rest : string) :
  oneLineText ty = true -> oneLineText data = true ->
  split (wireEvent (ty, data) ++ rest)
  = ("event: " ++ ty)%string :: ("data: " ++ data)%string :: "" :: split rest.
Proof.
  intros Ht Hd.
  assert (E : (wireEvent (ty, data) ++ rest)%string
              = (("event: " ++ ty) ++ NL ++ ("data: " ++ data) ++ NL ++ ""
                 ++ NL ++ rest)%string).
  { unfold wireEvent. cbn [fst snd]. rewrite !append_associative. reflexivity. }
  rewrite E.
  rewrite (split_line ("event: " ++ ty))
    by (apply oneLineText_append; [ reflexivity | exact Ht ]).
  rewrite (split_line ("data: " ++ data))
    by (apply oneLineText_append; [ reflexivity | exact Hd ]).
  now rewrite (split_line "") by reflexivity.
Qed.

Lemma relay_wireChunk (events : list (string * string)) :
  Forall wholeEvent events ->
  received (flat_map Legacy.relayLine (split (wireChunk events)))
  = wireChunk events.
Proof.
  unfold wireChunk. induction 1 as [ | [ ty data ] events (Ht & Hd & Hn) _ IH ].
  - reflexivity.
  - cbn [fst snd] in Ht, Hd, Hn.
    cbn [map received fold_right]. fold (received (map wireEvent events)).
    rewrite (split_wireEvent ty data _ Ht Hd).
    cbn [flat_map]. rewrite relayLine_event, (relayLine_data data Hn).
    change (Legacy.relayLine "") with (@nil string).
    cbn [app received fold_right].
    fold (received (flat_map Legacy.relayLine
                      (split (received (map wireEvent events))))).
    rewrite IH. unfold wireEvent. cbn [fst snd].
    rewrite !append_associative. reflexivity.
Qed.

Lemma received_app (a b : list string) :
  received (a ++ b) = (received a ++ received b)%string.
Proof.
  induction a as [ | x a IH ]; [ reflexivity | ].
  cbn [app received fold_right]. fold (received (a ++ b)). fold (received a).
  now rewrite IH, append_associative.
Qed.

Lemma relay_chunks (chunks : list (list (string * string))) :
  Forall (Forall wholeEvent) chunks ->
  forall s,
  received (enqueued (Legacy.relay (map (fun c => Chunk (wireChunk c)) chunks) s))
  = (received (enqueued s) ++ received (map wireChunk chunks))%string
  /\ status (Legacy.relay (map (fun c => Chunk (wireChunk c)) chunks) s) = Closed.
Proof.
  induction 1 as [ | c chunks Hc _ IH ]; intros s; cbn [map Legacy.relay].
  - split; [ cbn; now rewrite append_empty | reflexivity ].
  - destruct (IH (enqueue (flat_map Legacy.relayLine (split (wireChunk c))) s))
      as [ He Hs ].
    split; [ | exact Hs ].
    rewrite He. cbn [enqueue enqueued]. rewrite received_app, (relay_wireChunk c Hc).
    cbn [received fold_right]. fold (received (map wireChunk chunks)).
    now rewrite <- !append_associative.
Qed.

(** When every chunk of the provider's stream is made of whole events, an
    [event:] line and a [data:] line with something in it followed by a
    blank line, the first worker's proxy passes on, byte for byte, the text
    it received, and it closes its stream when the provider's ends. *)
Theorem proxy_relays_whole_events (chunks : list (list (string * string))) :
  Forall (Forall wholeEvent) chunks ->
  let S := Legacy.relayStream (Some (map (fun c => Chunk (wireChunk c)) chunks)) in
  received (enqueued S) = received (map wireChunk chunks)
  /\ status S = Closed.
Proof.
  intros H. cbv zeta. unfold Legacy.relayStream.
  destruct (relay_chunks chunks H emptySink) as [ He Hs ]. now split.
Qed.

Lemma proxy_relays_whole_events_witness :
  let S := Legacy.relayStream
             (Some (map (fun c => Chunk (wireChunk c))
                [ [ ("message_start", "{}") ];
                  [ ("content_block_delta", "{ }"); ("message_stop", "{}") ] ])) in
  received (enqueued S)
  = received (map wireChunk
      [ [ ("message_start", "{}") ];
        [ ("content_block_delta", "{ }"); ("message_stop", "{}") ] ])
  /\ status S = Closed.
Proof.
  apply (proxy_relays_whole_events
           [ [ ("message_start", "{}") ];
             [ ("content_block_delta", "{ }"); ("message_stop", "{}") ] ]).
  repeat constructor; discriminate.
Defined.

(** ** The key of the environment *)

(** Without an authorization header the service sends the environment's
    key of the target provider, and never the other provider's. *)
Theorem environment_key_is_the_fallback (P : Platform) (net : Network)
  (rnd : string) (request : Request) (env : Env)
  (source target subPath key : string) :
  authorization request = None ->
  (target = "anthropic" /\ ANTHROPIC_API_KEY env = Some key)
  \/ (target = "openrouter" /\ OPENROUTER_API_KEY env = Some key) ->
  Forall (fun call => header "Authorization" call = Some ("Bearer " ++ key)%string)
    (calls (fst (LLMProxyService.handleConversionRequest P net rnd request env
                   source target subPath newWorld))).
Proof.
  intros Ha Hk. apply every_run, handleConversionRequest_calls.
  intros provider requestData apiKey Hp ->. rewrite Ha.
  assert (E : LLMProxyService.getApiKey target env = key).
  { unfold LLMProxyService.getApiKey.
    destruct Hk as [ [ -> Hk ] | [ -> Hk ] ]; cbn; now rewrite Hk. }
  rewrite E.
  destruct (makeProviderRequest_call P net target provider requestData key
              subPath Hp) as (init & -> & _ & Hauth & _).
  now apply every_fetch.
Qed.

Lemma environment_key_is_the_fallback_witness :
  Forall (fun call => header "Authorization" call = Some "Bearer sk-or-env")
    (calls (fst (LLMProxyService.handleConversionRequest MiniJSON.runtime
                   (replies truncatedReplyText) "r"
                   {| method := "POST";
                      pathname := "/from-anthropic/to-openrouter";
                      authorization := None; referer := None;
                      reqBody := helloBody |}
                   {| OPENROUTER_API_KEY := Some "sk-or-env";
                      ANTHROPIC_API_KEY := Some "sk-ant-env" |}
                   "anthropic" "openrouter" "messages" newWorld))).
Proof.
  apply (environment_key_is_the_fallback MiniJSON.runtime
           (replies truncatedReplyText) "r"
           {| method := "POST"; pathname := "/from-anthropic/to-openrouter";
              authorization := None; referer := None; reqBody := helloBody |}
           {| OPENROUTER_API_KEY := Some "sk-or-env";
              ANTHROPIC_API_KEY := Some "sk-ant-env" |}
           "anthropic" "openrouter" "messages" "sk-or-env").
  - reflexivity.
  - right. split; reflexivity.
Defined.

(** ** Paths that are not conversion paths *)

(** A request whose path is not a conversion path is answered with the
    endpoint list, whatever its method other than OPTIONS, its headers and
    its body; no provider is called. *)
Theorem other_paths_get_the_documentation (P : Platform) (net : Network)
  (rnd : string) (request : Request) (env : Env) (w : World) :
  method request <> "OPTIONS" ->
  (forall source target subPath,
     wordy source = true -> wordy target = true -> oneLine subPath = true ->
     pathname request <> conversionPath source target subPath) ->
  Router.handleRequest P net rnd request env w
  = (w, Normal {| resStatus := 200; contentType := Some "text/plain";
                  resBody := Documentation |}).
Proof.
  intros Hm Hp. unfold Router.handleRequest.
  apply String.eqb_neq in Hm. rewrite Hm.
  destruct (Router.matchPath (pathname request)) as [ [ [ s t ] sub ] | ] eqn:E.
  - apply matchPath_sound in E as (E & Hs & Ht & Hsub).
    now elim (Hp s t sub Hs Ht Hsub).
  - reflexivity.
Qed.

Lemma other_paths_get_the_documentation_witness :
  Router.handleRequest MiniJSON.runtime (replies spacedReply) "r"
    {| method := "POST"; pathname := "/v1/claude-to-openrouter/messages";
       authorization := Some "Bearer sk-test"; referer := None;
       reqBody := helloBody |} noKeys newWorld
  = (newWorld, Normal {| resStatus := 200; contentType := Some "text/plain";
                         resBody := Documentation |}).
Proof.
  apply (other_paths_get_the_documentation MiniJSON.runtime (replies spacedReply)
           "r"
           {| method := "POST"; pathname := "/v1/claude-to-openrouter/messages";
              authorization := Some "Bearer sk-test"; referer := None;
              reqBody := helloBody |} noKeys newWorld).
  - discriminate.
  - intros source target subPath _ _ _. unfold conversionPath. cbn.
    intros H. inversion H.
Defined.

(** ** What the workers forward *)

Lemma worker_literal (model messages max_tokens temperature top_p stream : JSValue)
  (key : string) :
  let members := Legacy.prune
                   [ ("model", model); ("messages", messages);
                     ("max_tokens", max_tokens); ("temperature", temperature);
                     ("top_p", top_p); ("stream", stream) ] in
  lookup "messages" members = messages
  /\ lookup "top_p" members = top_p
  /\ (~ In key workerKeys -> lookup key members = JSUndefined).
Proof.
  cbv zeta.
  assert (Hnd : NoDup (map fst
            [ ("model", model); ("messages", messages);
              ("max_tokens", max_tokens); ("temperature", temperature);
              ("top_p", top_p); ("stream", stream) ]))
    by (cbn; repeat constructor; cbn; intuition discriminate).
  rewrite !lookup_prune by exact Hnd. repeat split.
  intros Hk. unfold lookup. cbn [find fst snd].
  repeat match goal with
  | |- context [String.eqb ?a key] =>
      let E := fresh "E" in
      destruct (String.eqb a key) eqn:E;
      [ apply String.eqb_eq in E; subst key; exfalso; apply Hk; cbn; tauto | ]
  end; reflexivity.
Qed.

(** Both workers build the request they send with the same literal.  For
    a request object whose [model] is a string it is built without fail,
    with the client's [messages] and [top_p] as they came and nothing of
    the request beyond [model], [messages], [max_tokens], [temperature],
    [top_p] and [stream]: [tools] and [system] are not sent. *)
Theorem workers_forward_messages_untouched (members : list (string * JSValue))
  (model key : string) :
  lookup "model" members = JSString model ->
  ~ In key workerKeys ->
  exists payload,
    Legacy.openRouterRequest (JSObject members) = Normal payload
    /\ getProp payload "model" = Normal (str (Legacy.mapModelName model))
    /\ getProp payload "messages" = Normal (lookup "messages" members)
    /\ getProp payload "top_p" = Normal (lookup "top_p" members)
    /\ getProp payload key = Normal JSUndefined.
Proof.
  intros Hmodel Hn. unfold Legacy.openRouterRequest.
  cbn [getProp bind]. rewrite Hmodel. cbn [Legacy.mapModelNameOf bind].
  eexists. split; [ reflexivity | ]. cbn [getProp].
  match goal with
  | |- context [Legacy.prune (("model", ?m) :: ("messages", ?ms)
                  :: ("max_tokens", ?mt) :: ("temperature", ?t)
                  :: ("top_p", ?tp) :: ("stream", ?st) :: nil)] =>
      destruct (worker_literal m ms mt t tp st key) as (Hm & Ht & Hk);
      assert (Hmo : lookup "model"
                (Legacy.prune [ ("model", m); ("messages", ms);
                                ("max_tokens", mt); ("temperature", t);
                                ("top_p", tp); ("stream", st) ]) = m)
        by (rewrite lookup_prune;
            [ reflexivity
            | cbn; repeat constructor; cbn; intuition discriminate ])
  end.
  now rewrite Hmo, Hm, Ht, (Hk Hn).
Qed.

Lemma workers_forward_messages_untouched_witness :
  exists payload,
    Legacy.openRouterRequest toolRequest = Normal payload
    /\ getProp payload "model"
       = Normal (str (Legacy.mapModelName "claude-sonnet-4"))
    /\ getProp payload "messages" = Normal (lookup "messages" (ownProps toolRequest))
    /\ getProp payload "top_p" = Normal (lookup "top_p" (ownProps toolRequest))
    /\ getProp payload "tools" = Normal JSUndefined.
Proof.
  apply (workers_forward_messages_untouched (ownProps toolRequest)
           "claude-sonnet-4" "tools").
  - reflexivity.
  - cbn. intros [ H | [ H | [ H | [ H | [ H | [ H | [] ] ] ] ] ] ]; discriminate.
Defined.

(** ** Model names on the wire *)

(** No mapping of model names returns a name that begins with [claude-]:
    a Claude model is always sent under a name the provider lists. *)
Theorem mapped_model_is_never_a_bare_claude_name (model : string) :
  startsWith (OpenRouterTransformer.mapModelName model) "claude-" = false
  /\ startsWith (Legacy.mapModelName model) "claude-" = false.
Proof.
  split.
  - unfold OpenRouterTransformer.mapModelName.
    destruct (startsWith model "claude-") eqn:E; cbn [negb]; [ | exact E ].
    destruct (startsWith model "claude-opus-4"); reflexivity.
  - unfold Legacy.mapModelName.
    destruct (startsWith model "claude-") eqn:E; cbn [negb]; [ | exact E ].
    repeat match goal with
    | |- context [if startsWith model ?p then _ else _] =>
        destruct (startsWith model p); [ reflexivity | ]
    end.
    reflexivity.
Qed.

(** ** Streams on one provider *)

(** A streaming request from a provider's format to the same provider is
    sent on as [JSON.stringify] writes the parsed body, and the provider's
    body is handed to the client unread, as an event stream, under the
    provider's status, whether that status is a success or not; only when
    [new Response] refuses the status (outside 200..599, or a status
    without body given with one) is the answer the 500 of the [catch]. *)
Theorem same_provider_stream_is_handed_on (P : Platform) (net : Network)
  (rnd : string) (request : Request) (env : Env) (provider subPath auth : string)
  (parsed : JSValue) (up : Upstream) :
  method request = "POST" ->
  provider = "anthropic" \/ provider = "openrouter" ->
  authorization request = Some auth ->
  isEmpty (removeFirst "Bearer " auth) = false ->
  JSON_parse P (reqBody request) = Some parsed ->
  notNullish parsed = true ->
  truthy (optProp parsed "stream") = true ->
  (forall call, fetchBody call = stringifyText P parsed -> net call = Normal up) ->
  let run := LLMProxyService.handleConversionRequest P net rnd request env
               provider provider subPath newWorld in
  map fetchBody (calls (fst run)) = [ stringifyText P parsed ]
  /\ snd run = Normal (orFailure (newResponse (upStatus up)
                                    (Some "text/event-stream")
                                    (Raw (upBody up)))).
Proof.
  intros Hm Hprov Ha Hk Hp Hn Hs Hnet. cbv zeta.
  assert (Hbody : json P (Normal (reqBody request)) = Normal parsed).
  { unfold json, parseJSON. cbn [bind]. now rewrite Hp. }
  unfold LLMProxyService.handleConversionRequest. rewrite Hm, Ha.
  change (negb (String.eqb "POST" "POST")) with false. cbv iota.
  destruct Hprov as [ -> | -> ];
    cbn [LLMProxyService.transformers LLMProxyService.providers String.eqb
         Ascii.eqb Bool.eqb andb];
    unfold tryCatch, ioBind, lift, ioRet;
    rewrite Hbody; cbv zeta; rewrite !Hk;
    rewrite (getProp_notNullish parsed) by exact Hn; rewrite Hs;
    unfold LLMProxyService.handleStreamingRequest, ioBind, ioRet,
      LLMProxyService.makeProviderRequest, fetch;
    cbn [String.eqb Ascii.eqb Bool.eqb andb negb Provider.name Provider.baseUrl
         name AnthropicTransformer.transformer OpenRouterTransformer.transformer];
    rewrite Hnet by reflexivity;
    destruct (newResponse _ _ (Raw _)); now split.
Qed.

Lemma same_provider_stream_is_handed_on_witness :
  let request := {| method := "POST";
                    pathname := "/from-anthropic/to-anthropic/messages";
                    authorization := Some "Bearer sk-test"; referer := None;
                    reqBody := MiniJSON.json "{ 'stream': true, 'messages': [] }" |} in
  let up := {| upStatus := 529; upBody := Some [ Chunk "overloaded" ] |} in
  let run := LLMProxyService.handleConversionRequest MiniJSON.runtime
               (fun _ => Normal up) "r" request noKeys "anthropic" "anthropic"
               "messages" newWorld in
  map fetchBody (calls (fst run))
  = [ MiniJSON.json "{'stream':true,'messages':[]}" ]
  /\ snd run = Normal {| resStatus := 529;
                         contentType := Some "text/event-stream";
                         resBody := Raw (Some [ Chunk "overloaded" ]) |}.
Proof.
  apply (same_provider_stream_is_handed_on MiniJSON.runtime
           (fun _ => Normal {| upStatus := 529;
                               upBody := Some [ Chunk "overloaded" ] |})
           "r"
           {| method := "POST"; pathname := "/from-anthropic/to-anthropic/messages";
              authorization := Some "Bearer sk-test"; referer := None;
              reqBody := MiniJSON.json "{ 'stream': true, 'messages': [] }" |}
           noKeys "anthropic" "messages" "Bearer sk-test"
           (JSObject [ ("stream", JSBool true); ("messages", JSArray []) ])
           {| upStatus := 529; upBody := Some [ Chunk "overloaded" ] |});
    try reflexivity.
  now left.
Defined.
